(** * DataLineage: content-addressed versioning of tabular datasets

    A shallow embedding of the DataLineage prototype (src/src/*.py and
    src/app.py) together with the properties of its commit engine,
    preprocessing pipeline, repository store and diff engine.

    Conventions of the embedding.
    - Python [str] values are Rocq strings read as ASCII text.  On ASCII,
      [unicodedata.normalize("NFKC", _)] is the identity, [str.lower] maps
      [A-Z] to [a-z], and the regex classes [\s], [\d] are the ASCII ones
      (with Python's extra separators 0x1c-0x1f counted as white space).
      [str.encode("utf-8")] is then the identity on the underlying bytes, so
      [bytes] values are Rocq strings as well.
    - A function that can raise returns a [result]; the exception classes of
      src/src/errors.py and the built-in ones that the code lets escape are
      the constructors of [exn].
    - The clock ([_now_utc_iso]) is an explicit argument.
    - Library functions (hashlib, json, pandas) are modelled by executable
      definitions of the fragment the program uses. *)

From Stdlib Require Import ZArith NArith Ascii String List Bool Lia.
From Stdlib Require Import DecimalString DecimalN DecimalFacts.
From Stdlib Require Import Sorting.Sorted Sorting.Permutation.
From stdpp Require Import base option gmap strings list fin_maps.

Import ListNotations.
Local Open Scope string_scope.
Local Open Scope list_scope.

(** ** Python string primitives (ASCII fragment) *)

Module PyStr.

Definition code (c : ascii) : N := N_of_ascii c.

(** [str.isspace] on one character, which is also the regex class [\s]
    of a [str] pattern. *)
Definition isspace (c : ascii) : bool :=
  let n := code c in
  ((9 <=? n) && (n <=? 13) || (28 <=? n) && (n <=? 32))%N.

Definition isdigit (c : ascii) : bool :=
  let n := code c in ((48 <=? n) && (n <=? 57))%N.

Definition islower (c : ascii) : bool :=
  let n := code c in ((97 <=? n) && (n <=? 122))%N.

Definition isupper (c : ascii) : bool :=
  let n := code c in ((65 <=? n) && (n <=? 90))%N.

(** [str.isalnum] on one ASCII character. *)
Definition isalnum (c : ascii) : bool :=
  isdigit c || islower c || isupper c.

Definition lower_char (c : ascii) : ascii :=
  if isupper c then ascii_of_N (code c + 32) else c.

(** [str.lower] *)
Fixpoint lower (s : string) : string :=
  match s with
  | EmptyString => EmptyString
  | String c r => String (lower_char c) (lower r)
  end.

(** [str.lstrip()] *)
Fixpoint lstrip (s : string) : string :=
  match s with
  | EmptyString => EmptyString
  | String c r => if isspace c then lstrip r else s
  end.

(** [str.rstrip()] *)
Fixpoint rstrip (s : string) : string :=
  match s with
  | EmptyString => EmptyString
  | String c r =>
      match rstrip r with
      | EmptyString => if isspace c then EmptyString else String c EmptyString
      | r' => String c r'
      end
  end.

(** [str.strip()] *)
Definition strip (s : string) : string := rstrip (lstrip s).

(** [str.startswith] *)
Fixpoint startswith (s p : string) : bool :=
  match p, s with
  | EmptyString, _ => true
  | String a p', String b s' => Ascii.eqb a b && startswith s' p'
  | String _ _, EmptyString => false
  end.

(** [str.replace(",", "")]: delete every occurrence of one character. *)
Fixpoint remove_char (x : ascii) (s : string) : string :=
  match s with
  | EmptyString => EmptyString
  | String c r =>
      if Ascii.eqb c x then remove_char x r else String c (remove_char x r)
  end.

(** [s[:n]] *)
Fixpoint take (n : nat) (s : string) : string :=
  match n, s with
  | S k, String c r => String c (take k r)
  | _, _ => EmptyString
  end.

(** [s[n:]] *)
Fixpoint drop (n : nat) (s : string) : string :=
  match n, s with
  | S k, String _ r => drop k r
  | _, _ => s
  end.

Fixpoint forallb (p : ascii -> bool) (s : string) : bool :=
  match s with
  | EmptyString => true
  | String c r => p c && forallb p r
  end.

(** [sep.join(parts)] *)
Fixpoint join (sep : string) (parts : list string) : string :=
  match parts with
  | [] => EmptyString
  | [p] => p
  | p :: ps => p ++ sep ++ join sep ps
  end.

(** Comparison of [str] values: code point order. *)
Fixpoint compare (a b : string) : comparison :=
  match a, b with
  | EmptyString, EmptyString => Eq
  | EmptyString, String _ _ => Lt
  | String _ _, EmptyString => Gt
  | String x a', String y b' =>
      match N.compare (code x) (code y) with
      | Eq => compare a' b'
      | o => o
      end
  end.

Definition ltb (a b : string) : bool :=
  match compare a b with Lt => true | _ => false end.

(** Decimal rendering of a number ([str(int)]). *)
Definition of_N (n : N) : string :=
  DecimalString.NilZero.string_of_uint (N.to_uint n).

Definition of_nat (n : nat) : string := of_N (N.of_nat n).

Definition of_Z (z : Z) : string :=
  if (z <? 0)%Z then String "-" (of_N (Z.abs_N z)) else of_N (Z.to_N z).

End PyStr.

(** ** hashlib.sha256 (FIPS 180-4) *)

Module Sha256.

Local Open Scope N_scope.

Definition w32 (x : N) : N := x mod 4294967296.
Definition add32 (x y : N) : N := w32 (x + y).
Definition rotr (n x : N) : N :=
  w32 (N.lor (N.shiftr x n) (N.shiftl x (32 - n))).
Definition shr (n x : N) : N := N.shiftr x n.
Definition not32 (x : N) : N := 4294967295 - x.

Definition Ch (x y z : N) : N := N.lxor (N.land x y) (N.land (not32 x) z).
Definition Maj (x y z : N) : N :=
  N.lxor (N.lxor (N.land x y) (N.land x z)) (N.land y z).
Definition Sigma0 (x : N) := N.lxor (N.lxor (rotr 2 x) (rotr 13 x)) (rotr 22 x).
Definition Sigma1 (x : N) := N.lxor (N.lxor (rotr 6 x) (rotr 11 x)) (rotr 25 x).
Definition sigma0 (x : N) := N.lxor (N.lxor (rotr 7 x) (rotr 18 x)) (shr 3 x).
Definition sigma1 (x : N) := N.lxor (N.lxor (rotr 17 x) (rotr 19 x)) (shr 10 x).

(** The round constants: the first 32 bits of the fractional parts of the
    cube roots of the first 64 primes; the initial hash value likewise from
    the square roots of the first 8 primes. *)
Definition is_prime (n : nat) : bool :=
  List.forallb (fun d => negb (n mod d =? 0)%nat) (seq 2 (n - 2)).

Definition primes : list N :=
  map N.of_nat (List.filter is_prime (seq 2 310)).

Fixpoint cube_root_bits (k : nat) (x acc : N) : N :=
  match k with
  | O => acc
  | S k' =>
      let cand := acc + 2 ^ N.of_nat k' in
      if cand * cand * cand <=? x
      then cube_root_bits k' x cand
      else cube_root_bits k' x acc
  end.

Definition frac_cube_root (p : N) : N :=
  w32 (cube_root_bits 40 (p * 2 ^ 96) 0).

Definition frac_square_root (p : N) : N := w32 (N.sqrt (p * 2 ^ 64)).

Definition K : list N := Eval vm_compute in map frac_cube_root primes.

(** The eight working variables / chaining values. *)
Record state := St { ha : N; hb : N; hc : N; hd : N;
                     he : N; hf : N; hg : N; hh : N }.

Definition H0 : state :=
  let h i := frac_square_root (nth i primes 0) in
  St (h 0%nat) (h 1%nat) (h 2%nat) (h 3%nat) (h 4%nat) (h 5%nat) (h 6%nat) (h 7%nat).

Definition nthN (l : list N) (i : nat) : N := nth i l 0.

(** Message schedule: the 16 block words extended to 64, kept newest
    first while it is built. *)
Fixpoint extend (k : nat) (rev_w : list N) : list N :=
  match k with
  | O => rev_w
  | S k' =>
      let w := add32 (add32 (sigma1 (nthN rev_w 1)) (nthN rev_w 6))
                     (add32 (sigma0 (nthN rev_w 14)) (nthN rev_w 15)) in
      extend k' (w :: rev_w)
  end.

Definition schedule (block : list N) : list N :=
  rev (extend 48 (rev block)).

Definition round (s : state) (kw : N * N) : state :=
  let '(k, w) := kw in
  let t1 := add32 (add32 (add32 (hh s) (Sigma1 (he s)))
                         (add32 (Ch (he s) (hf s) (hg s)) k)) w in
  let t2 := add32 (Sigma0 (ha s)) (Maj (ha s) (hb s) (hc s)) in
  St (add32 t1 t2) (ha s) (hb s) (hc s) (add32 (hd s) t1) (he s) (hf s) (hg s).

Definition compress (s : state) (block : list N) : state :=
  let t := fold_left round (combine K (schedule block)) s in
  St (add32 (ha s) (ha t)) (add32 (hb s) (hb t))
     (add32 (hc s) (hc t)) (add32 (hd s) (hd t))
     (add32 (he s) (he t)) (add32 (hf s) (hf t))
     (add32 (hg s) (hg t)) (add32 (hh s) (hh t)).

(** Big-endian bytes of a number, [n] of them. *)
Fixpoint be_bytes (n : nat) (x : N) : list N :=
  match n with
  | O => []
  | S k => (N.shiftr x (8 * N.of_nat k)) mod 256 :: be_bytes k x
  end.

Definition pad (msg : list N) : list N :=
  let len := length msg in
  let zeros := ((64 - ((len + 9) mod 64)) mod 64)%nat in
  msg ++ [128] ++ repeat 0 zeros ++ be_bytes 8 (8 * N.of_nat len).

Fixpoint words (fuel : nat) (bs : list N) : list N :=
  match fuel, bs with
  | S f, b0 :: b1 :: b2 :: b3 :: r =>
      (b0 * 16777216 + b1 * 65536 + b2 * 256 + b3) :: words f r
  | _, _ => []
  end.

Fixpoint blocks (fuel : nat) (ws : list N) (s : state) : state :=
  match fuel with
  | O => s
  | S f =>
      match ws with
      | [] => s
      | _ => blocks f (skipn 16 ws) (compress s (firstn 16 ws))
      end
  end.

Definition digest_state (msg : string) : state :=
  let bs := pad (map PyStr.code (list_ascii_of_string msg)) in
  let ws := words (length bs) bs in
  blocks (length ws) ws H0.

Definition hex_digit (d : N) : ascii :=
  if d <? 10 then ascii_of_N (48 + d) else ascii_of_N (87 + d).

Definition hex_word (x : N) : string :=
  string_of_list_ascii
    (map (fun i => hex_digit (N.shiftr x (4 * i) mod 16))
         [7; 6; 5; 4; 3; 2; 1; 0]).

(** [hashlib.sha256(payload).hexdigest()] *)
Definition hexdigest (msg : string) : string :=
  let s := digest_state msg in
  hex_word (ha s) ++ hex_word (hb s) ++ hex_word (hc s) ++ hex_word (hd s) ++
  hex_word (he s) ++ hex_word (hf s) ++ hex_word (hg s) ++ hex_word (hh s).

End Sha256.

(** ** JSON values, Python dictionaries and truthiness *)

(** The values [json.loads] produces.  Number literals with a fraction or an
    exponent are outside the modelled fragment. *)
#[warnings="-register-all"]
Inductive json : Type :=
| JNull
| JBool (b : bool)
| JInt (z : Z)
| JStr (s : string)
| JArr (items : list json)
| JObj (members : list (string * json)).

(** A Python [dict] with string keys, in insertion order. *)
Abbreviation dict := (list (string * json)).

Module Dict.

Fixpoint get (k : string) (d : dict) : option json :=
  match d with
  | [] => None
  | (k', v) :: r => if String.eqb k k' then Some v else get k r
  end.

(** [d[k] = v]: overwrite in place, or append a new key at the end. *)
Fixpoint set (k : string) (v : json) (d : dict) : dict :=
  match d with
  | [] => [(k, v)]
  | (k', v') :: r =>
      if String.eqb k k' then (k', v) :: r else (k', v') :: set k v r
  end.

(** [{**a, **b}] *)
Definition merge (a b : dict) : dict :=
  fold_left (fun acc kv => set (fst kv) (snd kv) acc) b a.

(** [d.get(k, default)] *)
Definition get_default (k : string) (default : json) (d : dict) : json :=
  match get k d with Some v => v | None => default end.

Definition keys (d : dict) : list string := map fst d.

End Dict.

(** [bool(x)] *)
Definition py_bool (v : json) : bool :=
  match v with
  | JNull => false
  | JBool b => b
  | JInt z => negb (z =? 0)%Z
  | JStr s => negb (String.eqb s EmptyString)
  | JArr l => match l with [] => false | _ => true end
  | JObj m => match m with [] => false | _ => true end
  end.

(** [str(x)] for the scalar values; [None] for lists and dicts, whose
    [repr] always starts with a bracket and so is never one of the literals
    the program compares [str(x)] against. *)
Definition py_str (v : json) : option string :=
  match v with
  | JNull => Some "None"
  | JBool true => Some "True"
  | JBool false => Some "False"
  | JInt z => Some (PyStr.of_Z z)
  | JStr s => Some s
  | JArr _ | JObj _ => None
  end.

(** ** src/src/preprocess.py: per-cell text cleanup *)

(** [re.sub(r"https?://\S+|www\.\S+", " ", text)].  A match starts at a
    position where one of the two literal prefixes is followed by at least
    one non-space character and extends over the whole run of non-space
    characters; [skipping] is true inside a run that is being replaced. *)
Definition url_prefix_at (s : string) : bool :=
  let after (p : string) :=
    if PyStr.startswith s p then
      match String.get (String.length p) s with
      | Some c => negb (PyStr.isspace c)
      | None => false
      end
    else false in
  after "http://" || after "https://" || after "www.".

Fixpoint sub_urls (skipping : bool) (s : string) : string :=
  match s with
  | EmptyString => EmptyString
  | String c r =>
      if skipping then
        if PyStr.isspace c then String c (sub_urls false r)
        else sub_urls true r
      else if url_prefix_at s then String " " (sub_urls true r)
      else String c (sub_urls false r)
  end.

(** [re.sub(r"[^a-z0-9\s]", " ", text)] *)
Definition punct_keep (c : ascii) : bool :=
  PyStr.islower c || PyStr.isdigit c || PyStr.isspace c.

Fixpoint sub_punctuation (s : string) : string :=
  match s with
  | EmptyString => EmptyString
  | String c r =>
      String (if punct_keep c then c else " "%char) (sub_punctuation r)
  end.

(** [re.sub(r"\s+", " ", text)]; [in_run] is true after a white-space
    character of the run that has already produced its single space. *)
Fixpoint sub_spaces (in_run : bool) (s : string) : string :=
  match s with
  | EmptyString => EmptyString
  | String c r =>
      if PyStr.isspace c then
        if in_run then sub_spaces true r else String " " (sub_spaces true r)
      else String c (sub_spaces false r)
  end.

(** [unicodedata.normalize("NFKC", text)], the identity on ASCII text. *)
Definition nfkc (s : string) : string := s.

Definition flag (key : string) (default : bool) (config : dict) : bool :=
  py_bool (Dict.get_default key (JBool default) config).

Definition when {A} (b : bool) (f : A -> A) (x : A) : A := if b then f x else x.

(** [_cleanup_text_with_config] *)
Definition _cleanup_text_with_config (value : string) (config : dict) : string :=
  let text := value in
  let text := when (flag "normalize_unicode" true config) nfkc text in
  let text := when (flag "strip_text" true config) PyStr.strip text in
  let text := when (flag "remove_urls" false config) (sub_urls false) text in
  let text := when (flag "lowercase_text" true config) PyStr.lower text in
  let text := when (flag "remove_punctuation" true config) sub_punctuation text in
  let text := when (flag "collapse_spaces" true config) (sub_spaces false) text in
  PyStr.strip text.

(** [get_default_preprocess_config] *)
Definition get_default_preprocess_config : dict :=
  [ ("drop_nulls", JBool true);
    ("drop_duplicates", JBool true);
    ("cleanup_text", JBool true);
    ("strip_text", JBool true);
    ("lowercase_text", JBool true);
    ("remove_punctuation", JBool true);
    ("collapse_spaces", JBool true);
    ("normalize_unicode", JBool true);
    ("remove_urls", JBool false);
    ("coerce_numeric_columns", JBool true);
    ("null_strategy", JStr "drop_any");
    ("null_fill_text", JStr EmptyString);
    ("null_fill_numeric", JInt 0);
    ("sort_rows", JBool true) ].

(** ** The pandas fragment: tables of typed columns *)

(** Column dtypes: [object] (text), [int64], [float64], [bool]. *)
Inductive dtype := DObject | DInt | DFloat | DBool.

(** One cell.  [CNull] stands for every missing-value marker (NaN, None,
    pd.NA).  A float is kept as the exact decimal [m / 10^e] it was read
    from, in lowest terms for the scale ([e = 0] or [10] does not divide
    [m]); binary rounding is outside the model. *)
Inductive cell :=
| CNull
| CStr (s : string)
| CInt (z : Z)
| CFloat (m : Z) (e : nat)
| CBool (b : bool).

Global Instance dtype_eq_dec : EqDecision dtype.
Proof. solve_decision. Defined.

Global Instance cell_eq_dec : EqDecision cell.
Proof. solve_decision. Defined.

(** A DataFrame: column labels, column dtypes, and the rows, each with its
    index label. *)
Record DataFrame := mkDF {
  columns : list string;
  dtypes : list dtype;
  rows : list (nat * list cell)
}.

Module Pandas.

Definition isna (c : cell) : bool :=
  match c with CNull => true | _ => false end.

Definition is_object (d : dtype) : bool :=
  match d with DObject => true | _ => false end.

(** [select_dtypes(include=["number", "boolean"])]: the numeric dtypes;
    numpy [bool] is neither. *)
Definition is_number (d : dtype) : bool :=
  match d with DInt | DFloat => true | _ => false end.

(** [len(df)] *)
Definition len (df : DataFrame) : nat := length (rows df).

(** [df.empty] *)
Definition empty (df : DataFrame) : bool :=
  match rows df, columns df with
  | [], _ | _, [] => true
  | _, _ => false
  end.

(** [df[name]] as the list of its cells, for the column at position [j]. *)
Definition column_at (j : nat) (df : DataFrame) : list cell :=
  map (fun r => nth j (snd r) CNull) (rows df).

Fixpoint index_of (name : string) (cols : list string) : option nat :=
  match cols with
  | [] => None
  | c :: r => if String.eqb name c then Some O
              else option_map S (index_of name r)
  end.

(** Normalise the scale of a decimal: drop trailing zeros of the fraction. *)
Fixpoint norm_decimal (m : Z) (e : nat) : Z * nat :=
  match e with
  | O => (m, O)
  | S e' => if (m mod 10 =? 0)%Z then norm_decimal (m / 10) e' else (m, e)
  end.

Definition mk_float (m : Z) (e : nat) : cell :=
  let '(m', e') := norm_decimal m e in CFloat m' e'.

Fixpoint zero_pad (width : nat) (s : string) : string :=
  match width with
  | O => s
  | S w => if (String.length s <? width)%nat then String "0" (zero_pad w s) else s
  end.

(** [repr(float)] of a decimal in fixed notation. *)
Definition float_repr (m : Z) (e : nat) : string :=
  let a := Z.abs m in
  let p := (10 ^ Z.of_nat e)%Z in
  let ip := PyStr.of_Z (a / p) in
  let fp := match e with
            | O => "0"
            | _ => zero_pad e (PyStr.of_Z (a mod p))
            end in
  (if (m <? 0)%Z then "-" else EmptyString) ++ ip ++ "." ++ fp.

(** [str(value)] of a cell, as [astype(str)] and [str(key)] compute it. *)
Definition cell_str (c : cell) : string :=
  match c with
  | CNull => "nan"
  | CStr s => s
  | CInt z => PyStr.of_Z z
  | CFloat m e => float_repr m e
  | CBool true => "True"
  | CBool false => "False"
  end.

(** Numeric value of a cell as a decimal, when it has one. *)
Definition num_of (c : cell) : option (Z * nat) :=
  match c with
  | CInt z => Some (z, O)
  | CFloat m e => Some (m, e)
  | CBool b => Some (if b then 1%Z else 0%Z, O)
  | _ => None
  end.

Definition num_compare (a b : Z * nat) : comparison :=
  (fst a * 10 ^ Z.of_nat (snd b) ?= fst b * 10 ^ Z.of_nat (snd a))%Z.

(** Order of two non-null cells of one column: numbers by value, text by
    code points.  (A column that mixes text and numbers makes pandas
    raise; here numbers are placed first.) *)
Definition value_compare (a b : cell) : comparison :=
  match num_of a, num_of b with
  | Some x, Some y => num_compare x y
  | Some _, None => Lt
  | None, Some _ => Gt
  | None, None =>
      match a, b with
      | CStr s, CStr t => PyStr.compare s t
      | _, _ => Eq
      end
  end.

(** The same with [na_position="last"]. *)
Definition cell_compare (a b : cell) : comparison :=
  match isna a, isna b with
  | true, true => Eq
  | true, false => Gt
  | false, true => Lt
  | false, false => value_compare a b
  end.

(** Lexicographic order of two rows, columns left to right. *)
Fixpoint cells_compare (a b : list cell) : comparison :=
  match a, b with
  | x :: a', y :: b' =>
      match cell_compare x y with
      | Eq => cells_compare a' b'
      | o => o
      end
  | [], [] => Eq
  | [], _ :: _ => Lt
  | _ :: _, [] => Gt
  end.

Definition row_leb (a b : nat * list cell) : bool :=
  match cells_compare (snd a) (snd b) with Gt => false | _ => true end.

(** A stable sort: each row is inserted before the first row that is not
    smaller, starting from the last row.  (pandas runs a merge sort; a
    stable sort is determined by the order alone.) *)
Fixpoint insert_row (r : nat * list cell) (l : list (nat * list cell)) :=
  match l with
  | [] => [r]
  | x :: l' => if row_leb r x then r :: l else x :: insert_row r l'
  end.

Fixpoint sort_rows (l : list (nat * list cell)) : list (nat * list cell) :=
  match l with
  | [] => []
  | r :: l' => insert_row r (sort_rows l')
  end.

(** [df.sort_values(by=list(df.columns), kind="mergesort", na_position="last")] *)
Definition sort_values (df : DataFrame) : DataFrame :=
  mkDF (columns df) (dtypes df) (sort_rows (rows df)).

(** [df.drop_duplicates(keep="first")]: a row is dropped when an earlier
    row has the same cells. *)
Fixpoint dedup_rows (seen : list (list cell)) (l : list (nat * list cell)) :=
  match l with
  | [] => []
  | r :: l' =>
      if bool_decide (snd r ∈ seen) then dedup_rows seen l'
      else r :: dedup_rows (snd r :: seen) l'
  end.

Definition drop_duplicates (df : DataFrame) : DataFrame :=
  mkDF (columns df) (dtypes df) (dedup_rows [] (rows df)).

(** [df.dropna(how="any")] and [df.dropna(how="all")] *)
Definition dropna_any (df : DataFrame) : DataFrame :=
  mkDF (columns df) (dtypes df)
       (List.filter (fun r => negb (existsb isna (snd r))) (rows df)).

Definition dropna_all (df : DataFrame) : DataFrame :=
  mkDF (columns df) (dtypes df)
       (List.filter (fun r => negb (List.forallb isna (snd r))) (rows df)).

(** [df.reset_index(drop=True)] *)
Definition reset_index (df : DataFrame) : DataFrame :=
  mkDF (columns df) (dtypes df)
       (combine (seq 0 (length (rows df))) (map snd (rows df))).

(** Apply [f dtype cell] to every cell, column by column. *)
Definition map_cells (f : dtype -> cell -> cell) (df : DataFrame) : DataFrame :=
  mkDF (columns df) (dtypes df)
       (map (fun r => (fst r, zip_with f (dtypes df) (snd r))) (rows df)).

End Pandas.

(** The order on rows that [sort_values] establishes. *)
Definition row_le (a b : nat * list cell) : Prop := Pandas.row_leb a b = true.

(** ** src/src/preprocess.py: the pipeline stages *)

(** [_normalize_columns] *)
Definition _normalize_columns (dataframe : DataFrame) : DataFrame :=
  mkDF (map (fun column => PyStr.lower (PyStr.strip column)) (columns dataframe))
       (dtypes dataframe) (rows dataframe).

(** The default of [config.get("unwanted_values", ...)]. *)
Definition default_unwanted_values : json :=
  JArr [JStr EmptyString; JStr "na"; JStr "n/a"; JStr "null"; JStr "none";
        JStr "-"; JStr "?"].

(** Iterating over a JSON value: the items of a list, the characters of a
    string, the keys of a dict.  (Python raises on the other values; a list
    item that is itself a list or dict is skipped.) *)
Definition iter_strs (v : json) : list string :=
  match v with
  | JArr items => omap py_str items
  | JStr s => map (fun c => String c EmptyString) (list_ascii_of_string s)
  | JObj m => map fst m
  | _ => []
  end.

(** [{str(item).strip().lower() for item in unwanted_values}] *)
Definition unwanted_lookup (config : dict) : list string :=
  map (fun item => PyStr.lower (PyStr.strip item))
      (iter_strs (Dict.get_default "unwanted_values" default_unwanted_values config)).

Definition is_unwanted (lookup : list string) (c : cell) : bool :=
  bool_decide (PyStr.lower (PyStr.strip (Pandas.cell_str c)) ∈ lookup).

(** [_normalize_unwanted_values] *)
Definition _normalize_unwanted_values (dataframe : DataFrame) (config : dict)
  : DataFrame :=
  let lookup := unwanted_lookup config in
  Pandas.map_cells
    (fun d c => if Pandas.is_object d && is_unwanted lookup c then CNull else c)
    dataframe.

(** The loop of [apply_deterministic_preprocessing] over the object columns:
    [value if pd.isna(value) else _cleanup_text_with_config(str(value), config)] *)
Definition cleanup_cell (config : dict) (c : cell) : cell :=
  if Pandas.isna c then c
  else CStr (_cleanup_text_with_config (Pandas.cell_str c) config).

Definition cleanup_columns (dataframe : DataFrame) (config : dict) : DataFrame :=
  Pandas.map_cells
    (fun d c => if Pandas.is_object d then cleanup_cell config c else c)
    dataframe.

Definition cleanup_object_columns (dataframe : DataFrame) (config : dict)
  : DataFrame :=
  if flag "cleanup_text" true config then cleanup_columns dataframe config
  else dataframe.

(** The regex [^-?\d+(\.\d+)?$] on a stripped string, as a scanner that also
    returns what was read: the sign, the integer digits and the fraction
    digits ([None] when there is no fractional part). *)
Fixpoint span_digits (s : string) : string * string :=
  match s with
  | String c r =>
      if PyStr.isdigit c then
        let '(ds, rest) := span_digits r in (String c ds, rest)
      else (EmptyString, s)
  | EmptyString => (EmptyString, EmptyString)
  end.

Definition scan_numeric (s : string) : option (bool * string * option string) :=
  let neg := PyStr.startswith s "-" in
  let s1 := if neg then PyStr.drop 1 s else s in
  let '(ip, s2) := span_digits s1 in
  if String.eqb ip EmptyString then None
  else
    match s2 with
    | EmptyString => Some (neg, ip, None)
    | String c s3 =>
        if Ascii.eqb c "." then
          let '(fp, s4) := span_digits s3 in
          if String.eqb fp EmptyString || negb (String.eqb s4 EmptyString)
          then None
          else Some (neg, ip, Some fp)
        else None
    end.

Definition match_numeric (s : string) : bool :=
  match scan_numeric s with Some _ => true | None => false end.

(** [_looks_like_numeric_series] *)
Definition _looks_like_numeric_series (series : list cell) : bool :=
  let non_null := List.filter (fun c => negb (Pandas.isna c)) series in
  match non_null with
  | [] => false
  | _ =>
      List.forallb
        (fun c => match_numeric
                    (PyStr.strip (PyStr.remove_char "," (Pandas.cell_str c))))
        non_null
  end.

(** [pd.to_numeric(_, errors="coerce")] on one string.  The C parser skips
    the white space of [isspace(3)] at both ends; a string it cannot read
    becomes null. *)
Definition c_isspace (c : ascii) : bool :=
  let n := PyStr.code c in ((9 <=? n) && (n <=? 13) || (n =? 32))%N.

Fixpoint c_lstrip (s : string) : string :=
  match s with
  | EmptyString => EmptyString
  | String c r => if c_isspace c then c_lstrip r else s
  end.

Fixpoint c_rstrip (s : string) : string :=
  match s with
  | EmptyString => EmptyString
  | String c r =>
      match c_rstrip r with
      | EmptyString => if c_isspace c then EmptyString else String c EmptyString
      | r' => String c r'
      end
  end.

Fixpoint digits_value (acc : Z) (s : string) : Z :=
  match s with
  | EmptyString => acc
  | String c r => digits_value (10 * acc + (Z.of_N (PyStr.code c) - 48)) r
  end.

Definition to_numeric_str (s : string) : cell :=
  match scan_numeric (c_rstrip (c_lstrip s)) with
  | Some (neg, ip, None) =>
      let v := digits_value 0 ip in CInt (if neg then - v else v)
  | Some (neg, ip, Some fp) =>
      let v := digits_value 0 (ip ++ fp) in
      Pandas.mk_float (if neg then - v else v) (String.length fp)
  | None => CNull
  end.

Definition is_numeric_cell (c : cell) : bool :=
  match c with CInt _ | CFloat _ _ => true | _ => false end.

Definition is_int_cell (c : cell) : bool :=
  match c with CInt _ => true | _ => false end.

Definition as_float (c : cell) : cell :=
  match c with CInt z => CFloat z 0 | _ => c end.

(** [pd.to_numeric(series.astype(str).str.replace(",", "", regex=False),
    errors="coerce")]: [int64] when every value is an integer, [float64]
    otherwise. *)
Definition to_numeric_series (series : list cell) : dtype * list cell :=
  let parsed :=
    map (fun c => to_numeric_str (PyStr.remove_char "," (Pandas.cell_str c)))
        series in
  if List.forallb is_int_cell parsed then (DInt, parsed)
  else (DFloat, map as_float parsed).

(** [_coerce_numeric_like_columns]: the result, column by column, for the
    column at position [j] with dtype [d]. *)
Definition coerce_column (dataframe : DataFrame) (j : nat) (d : dtype)
  : dtype * list cell :=
  let series := Pandas.column_at j dataframe in
  if Pandas.is_object d && _looks_like_numeric_series series
  then to_numeric_series series
  else (d, series).

Definition coerce_columns (dataframe : DataFrame) : DataFrame :=
  let cols := imap (coerce_column dataframe) (dtypes dataframe) in
  mkDF (columns dataframe) (map fst cols)
       (imap (fun i r => (fst r, map (fun col => nth i (snd col) CNull) cols))
             (rows dataframe)).

Definition _coerce_numeric_like_columns (dataframe : DataFrame) (config : dict)
  : DataFrame :=
  if negb (flag "coerce_numeric_columns" true config) then dataframe
  else coerce_columns dataframe.

(** [str(config.get("null_strategy", "drop_any")).strip().lower()], with the
    empty string and the [drop_nulls] override resolved. *)
Definition null_strategy (config : dict) : string :=
  let strategy :=
    match py_str (Dict.get_default "null_strategy" (JStr "drop_any") config) with
    | Some s => PyStr.lower (PyStr.strip s)
    | None => "[...]"
    end in
  let strategy :=
    if String.eqb strategy EmptyString then "drop_any" else strategy in
  if flag "drop_nulls" true config && String.eqb strategy "keep"
  then "drop_any" else strategy.

(** The cell a fill literal stands for in a column of dtype [d].  (A null or
    composite literal fills nothing.) *)
Definition fill_cell (d : dtype) (v : json) : cell :=
  match v, d with
  | JStr s, _ => CStr s
  | JInt z, DFloat => CFloat z 0
  | JInt z, _ => CInt z
  | JBool b, DFloat => CFloat (if b then 1 else 0) 0
  | JBool b, _ => CBool b
  | _, _ => CNull
  end.

Definition fillna (d : dtype) (v : json) (c : cell) : cell :=
  if Pandas.isna c then fill_cell d v else c.

(** [_apply_null_strategy] *)
Definition _apply_null_strategy (dataframe : DataFrame) (config : dict)
  : DataFrame :=
  let strategy := null_strategy config in
  if String.eqb strategy "drop_any" then Pandas.dropna_any dataframe
  else if String.eqb strategy "drop_all" then Pandas.dropna_all dataframe
  else if String.eqb strategy "fill" then
    let text_fill_value := Dict.get_default "null_fill_text" (JStr EmptyString) config in
    let numeric_fill_value := Dict.get_default "null_fill_numeric" (JInt 0) config in
    Pandas.map_cells
      (fun d c =>
         if Pandas.is_object d then fillna d text_fill_value c
         else if Pandas.is_number d then fillna d numeric_fill_value c
         else fillna d text_fill_value c)
      dataframe
  else dataframe.

Definition drop_duplicates_stage (dataframe : DataFrame) (config : dict)
  : DataFrame :=
  if flag "drop_duplicates" true config then Pandas.drop_duplicates dataframe
  else dataframe.

(** Sorting by [list(processed.columns)] needs at least one column. *)
Definition sort_by_all_columns (dataframe : DataFrame) : DataFrame :=
  match columns dataframe with
  | [] => dataframe
  | _ => Pandas.sort_values dataframe
  end.

Definition sort_stage (dataframe : DataFrame) (config : dict) : DataFrame :=
  if flag "sort_rows" true config then sort_by_all_columns dataframe
  else dataframe.

(** [apply_deterministic_preprocessing] *)
Definition apply_deterministic_preprocessing (dataframe : DataFrame)
  (config : dict) : DataFrame :=
  let merged_config := Dict.merge get_default_preprocess_config config in
  let processed := _normalize_columns dataframe in
  let processed := _normalize_unwanted_values processed merged_config in
  let processed := cleanup_object_columns processed merged_config in
  let processed := _coerce_numeric_like_columns processed merged_config in
  let processed := _apply_null_strategy processed merged_config in
  let processed := drop_duplicates_stage processed merged_config in
  let processed := sort_stage processed merged_config in
  Pandas.reset_index processed.

(** The pipeline as the specification words it: the eight stages, each one
    applied, in the stated order.  It is compared with
    [apply_deterministic_preprocessing] below. *)
Definition stages_as_stated (dataframe : DataFrame) (config : dict) : DataFrame :=
  let merged_config := Dict.merge get_default_preprocess_config config in
  let s1 := _normalize_columns dataframe in
  let s2 := _normalize_unwanted_values s1 merged_config in
  let s3 := cleanup_columns s2 merged_config in
  let s4 := coerce_columns s3 in
  let s5 := _apply_null_strategy s4 merged_config in
  let s6 := Pandas.drop_duplicates s5 in
  let s7 := sort_by_all_columns s6 in
  Pandas.reset_index s7.

(** The language of the regex [^-?\d+(\.\d+)?$]. *)
Definition digits (s : string) : Prop :=
  s <> EmptyString /\ PyStr.forallb PyStr.isdigit s = true.

Inductive numeric_literal : string -> Prop :=
| NumInt (neg : bool) (ip : string) :
    digits ip ->
    numeric_literal ((if neg then "-" else EmptyString) ++ ip)
| NumDec (neg : bool) (ip fp : string) :
    digits ip -> digits fp ->
    numeric_literal ((if neg then "-" else EmptyString) ++ ip ++ "." ++ fp).

(** Scenario 1 of the specification. *)
Definition scenario1 : DataFrame :=
  mkDF ["Name"; "Label"] [DObject; DObject]
       [ (0, [CStr "Bob"; CStr "1"]);
         (1, [CStr "bob "; CStr "1"]);
         (2, [CStr "Amy"; CStr "0"]) ]%nat.


(** ** The json module: [json.dumps] and [json.loads] *)

Module Json.

Definition dquote : ascii := "034"%char.
Definition backslash : ascii := "092"%char.
Definition newline : ascii := "010"%char.

(** *** Encoding *)

Definition hex_char (d : N) : ascii :=
  if (d <? 10)%N then ascii_of_N (48 + d) else ascii_of_N (87 + d).

(** One character of [py_encode_basestring] (the [ensure_ascii=False]
    encoder): short escapes, [\u00xx] for the other control characters. *)
Definition escape_char (c : ascii) : string :=
  let n := PyStr.code c in
  if (n =? 34)%N then String backslash (String dquote EmptyString)
  else if (n =? 92)%N then String backslash (String backslash EmptyString)
  else if (n =? 10)%N then String backslash "n"
  else if (n =? 13)%N then String backslash "r"
  else if (n =? 9)%N then String backslash "t"
  else if (n =? 8)%N then String backslash "b"
  else if (n =? 12)%N then String backslash "f"
  else if (n <? 32)%N then
    String backslash
      (String "u" (String "0" (String "0"
         (String (hex_char (n / 16)) (String (hex_char (n mod 16)) EmptyString)))))
  else String c EmptyString.

Fixpoint escape (s : string) : string :=
  match s with
  | EmptyString => EmptyString
  | String c r => escape_char c ++ escape r
  end.

Definition encode_basestring (s : string) : string :=
  String dquote (escape s ++ String dquote EmptyString).

(** The keyword arguments of [json.dumps] that the program sets. *)
Record style := Style {
  indent : option nat;
  item_separator : string;
  key_separator : string;
  sort_keys : bool
}.

Fixpoint spaces (n : nat) : string :=
  match n with O => EmptyString | S k => String " " (spaces k) end.

Definition newline_indent (st : style) (level : nat) : string :=
  match indent st with
  | None => EmptyString
  | Some n => String newline (spaces (n * level))
  end.

(** A non-empty container: opening bracket, the parts each on its own
    indented line when [indent] is set, closing bracket. *)
Definition bracket (st : style) (o c : string) (level : nat)
  (parts : list string) : string :=
  match parts with
  | [] => o ++ c
  | _ =>
      o ++ newline_indent st (S level)
        ++ PyStr.join (item_separator st ++ newline_indent st (S level)) parts
        ++ newline_indent st level ++ c
  end.

(** [sorted(dct.items())]: keys are unique, so only keys are compared. *)
Fixpoint insert_by_key (kv : string * string) (l : list (string * string)) :=
  match l with
  | [] => [kv]
  | x :: l' =>
      if PyStr.ltb (fst x) (fst kv) then x :: insert_by_key kv l' else kv :: l
  end.

Definition sort_by_key (l : list (string * string)) : list (string * string) :=
  fold_right insert_by_key [] l.

Fixpoint encode (st : style) (level : nat) (v : json) : string :=
  match v with
  | JNull => "null"
  | JBool true => "true"
  | JBool false => "false"
  | JInt z => PyStr.of_Z z
  | JStr s => encode_basestring s
  | JArr items => bracket st "[" "]" level (map (encode st (S level)) items)
  | JObj members =>
      let parts :=
        map (fun kv => (fst kv, encode st (S level) (snd kv))) members in
      let parts := if sort_keys st then sort_by_key parts else parts in
      bracket st "{" "}" level
        (map (fun kv =>
                (encode_basestring (fst kv) ++ key_separator st ++ snd kv)%string)
             parts)
  end.

(** [json.dumps(v, ensure_ascii=False, indent=2)] *)
Definition pretty : style := Style (Some 2%nat) "," ": " false.
(** [json.dumps(v, ensure_ascii=False, indent=2, sort_keys=True)] *)
Definition pretty_sorted : style := Style (Some 2%nat) "," ": " true.
(** [json.dumps(v, sort_keys=True, ensure_ascii=False, separators=(",", ":"))] *)
Definition compact_sorted : style := Style None "," ":" true.

Definition dumps (st : style) (v : json) : string := encode st 0 v.

(** *** Decoding *)

Definition is_ws (c : ascii) : bool :=
  let n := PyStr.code c in
  ((n =? 32) || (n =? 9) || (n =? 10) || (n =? 13))%N.

Fixpoint skip_ws (s : string) : string :=
  match s with
  | String c r => if is_ws c then skip_ws r else s
  | EmptyString => EmptyString
  end.

Definition hex_value (c : ascii) : option N :=
  let n := PyStr.code c in
  if PyStr.isdigit c then Some (n - 48)%N
  else if ((97 <=? n) && (n <=? 102))%N then Some (n - 87)%N
  else if ((65 <=? n) && (n <=? 70))%N then Some (n - 55)%N
  else None.

(** [\uXXXX]: the code point, when it is one of the 256 a character of the
    model can hold. *)
Definition decode_u (h1 h2 h3 h4 : ascii) : option ascii :=
  match hex_value h1, hex_value h2, hex_value h3, hex_value h4 with
  | Some a, Some b, Some c, Some d =>
      if ((a =? 0) && (b =? 0))%N then Some (ascii_of_N (c * 16 + d)) else None
  | _, _, _, _ => None
  end.

Definition unescape (c : ascii) : option ascii :=
  let n := PyStr.code c in
  if (n =? 34)%N then Some dquote
  else if (n =? 92)%N then Some backslash
  else if (n =? 47)%N then Some "/"%char
  else if (n =? 98)%N then Some "008"%char
  else if (n =? 102)%N then Some "012"%char
  else if (n =? 110)%N then Some "010"%char
  else if (n =? 114)%N then Some "013"%char
  else if (n =? 116)%N then Some "009"%char
  else None.

Definition cons_char (c : ascii) (r : option (string * string))
  : option (string * string) :=
  match r with
  | Some (t, rest) => Some (String c t, rest)
  | None => None
  end.

(** [scanstring] in strict mode, from just after the opening quote: the
    decoded text and what follows the closing quote. *)
Fixpoint scan_string (s : string) : option (string * string) :=
  match s with
  | EmptyString => None
  | String c r =>
      if Ascii.eqb c dquote then Some (EmptyString, r)
      else if Ascii.eqb c backslash then
        match r with
        | String "u" (String h1 (String h2 (String h3 (String h4 r')))) =>
            match decode_u h1 h2 h3 h4 with
            | Some x => cons_char x (scan_string r')
            | None => None
            end
        | String e r' =>
            match unescape e with
            | Some x => cons_char x (scan_string r')
            | None => None
            end
        | EmptyString => None
        end
      else if (PyStr.code c <? 32)%N then None
      else cons_char c (scan_string r)
  end.

(** A number literal.  The integer part is ["0"] or starts with a non-zero
    digit, so a literal with a leading zero is followed by a digit and
    nothing can follow it; a fraction or an exponent is outside the
    fragment. *)
Definition starts_fraction (s : string) : bool :=
  match s with
  | String c _ =>
      let n := PyStr.code c in ((n =? 46) || (n =? 101) || (n =? 69))%N
  | EmptyString => false
  end.

Definition scan_number (s : string) : option (Z * string) :=
  let neg := PyStr.startswith s "-" in
  let s1 := if neg then PyStr.drop 1 s else s in
  let '(ds, rest) := span_digits s1 in
  if String.eqb ds EmptyString then None
  else if PyStr.startswith ds "0" && negb (String.eqb ds "0") then None
  else if starts_fraction rest then None
  else
    match NilZero.uint_of_string ds with
    | Some d =>
        let n := Z.of_N (N.of_uint d) in
        Some (if neg then (- n)%Z else n, rest)
    | None => None
    end.

(** [dict(pairs)] *)
Definition dict_of_pairs (pairs : list (string * json)) : dict :=
  Dict.merge [] pairs.

(** The rest of [s] after the character [c], when [s] starts with it. *)
Definition after (c : ascii) (s : string) : option string :=
  match s with
  | String x r => if Ascii.eqb x c then Some r else None
  | EmptyString => None
  end.

(** [scan_once], [JSONArray] and [JSONObject].  Every call consumes at
    least one character, so a fuel of the input length plus one is never
    exhausted. *)
Fixpoint scan_value (fuel : nat) (s : string) {struct fuel}
  : option (json * string) :=
  match fuel with
  | O => None
  | S f =>
      match after dquote s, after "[" s, after "{" s with
      | Some r, _, _ =>
          match scan_string r with
          | Some (t, r') => Some (JStr t, r')
          | None => None
          end
      | None, Some r, _ =>
          match after "]" (skip_ws r) with
          | Some r' => Some (JArr [], r')
          | None =>
              match scan_items f (skip_ws r) with
              | Some (items, r') => Some (JArr items, r')
              | None => None
              end
          end
      | None, None, Some r =>
          match after "}" (skip_ws r) with
          | Some r' => Some (JObj [], r')
          | None =>
              match scan_members f (skip_ws r) with
              | Some (pairs, r') => Some (JObj (dict_of_pairs pairs), r')
              | None => None
              end
          end
      | None, None, None =>
          if PyStr.startswith s "null" then Some (JNull, PyStr.drop 4 s)
          else if PyStr.startswith s "true" then Some (JBool true, PyStr.drop 4 s)
          else if PyStr.startswith s "false" then Some (JBool false, PyStr.drop 5 s)
          else
            match scan_number s with
            | Some (z, r') => Some (JInt z, r')
            | None => None
            end
      end
  end
with scan_items (fuel : nat) (s : string) {struct fuel}
  : option (list json * string) :=
  match fuel with
  | O => None
  | S f =>
      match scan_value f s with
      | Some (v, r) =>
          match after "]" (skip_ws r), after "," (skip_ws r) with
          | Some r', _ => Some ([v], r')
          | None, Some r' =>
              match scan_items f (skip_ws r') with
              | Some (vs, r'') => Some (v :: vs, r'')
              | None => None
              end
          | None, None => None
          end
      | None => None
      end
  end
with scan_members (fuel : nat) (s : string) {struct fuel}
  : option (list (string * json) * string) :=
  match fuel with
  | O => None
  | S f =>
      match after dquote s with
      | Some r =>
          match scan_string r with
          | Some (k, r1) =>
              match after ":" (skip_ws r1) with
              | Some r2 =>
                  match scan_value f (skip_ws r2) with
                  | Some (v, r3) =>
                      match after "}" (skip_ws r3), after "," (skip_ws r3) with
                      | Some r4, _ => Some ([(k, v)], r4)
                      | None, Some r4 =>
                          match scan_members f (skip_ws r4) with
                          | Some (kvs, r5) => Some ((k, v) :: kvs, r5)
                          | None => None
                          end
                      | None, None => None
                      end
                  | None => None
                  end
              | None => None
              end
          | None => None
          end
      | None => None
      end
  end.

(** [json.loads(s)]; [None] stands for [json.JSONDecodeError]. *)
Definition loads (s : string) : option json :=
  let s1 := skip_ws s in
  match scan_value (S (String.length s1)) s1 with
  | Some (v, rest) =>
      match skip_ws rest with
      | EmptyString => Some v
      | _ => None
      end
  | None => None
  end.

End Json.

(** A [json] value that stands for a Python value: the keys of every dict
    are distinct. *)
Fixpoint unique_keys (keys : list string) : bool :=
  match keys with
  | [] => true
  | k :: r => negb (existsb (String.eqb k) r) && unique_keys r
  end.

Fixpoint well_formed (v : json) : bool :=
  match v with
  | JArr items => List.forallb well_formed items
  | JObj members =>
      unique_keys (map fst members)
      && List.forallb (fun kv => well_formed (snd kv)) members
  | _ => true
  end.

(** What may follow a number literal: no digit, no fraction, no exponent. *)
Definition number_end (rest : string) : Prop :=
  (forall c r, rest = String c r -> PyStr.isdigit c = false) /\
  Json.starts_fraction rest = false.

(** The characters an encoded value can start with. *)
Definition value_head (c : ascii) : bool :=
  PyStr.isdigit c
  || bool_decide (PyStr.code c ∈ [45; 34; 91; 123; 110; 116; 102]%N).

(** The number of scanner calls that reading a value back takes. *)

Fixpoint jsize (v : json) : nat :=
  match v with
  | JArr items => S (list_sum (map (fun x => S (jsize x)) items))
  | JObj members => S (list_sum (map (fun kv => S (jsize (snd kv))) members))
  | _ => 1
  end.

(** What the round-trip induction carries for one value: its encoding at
    any nesting level, followed by any admissible rest, scans back to the
    value and leaves the rest. *)
Definition scans_back (v : json) : Prop :=
  forall level fuel rest,
    well_formed v = true -> (jsize v <= fuel)%nat -> number_end rest ->
    Json.scan_value fuel (Json.encode Json.pretty level v ++ rest) = Some (v, rest).


(** ** src/src/hasher.py *)

(** [str.encode("utf-8")]: the identity on ASCII text. *)
Definition encode_utf8 (s : string) : string := s.

Module Csv.

Fixpoint existsb (p : ascii -> bool) (s : string) : bool :=
  match s with
  | EmptyString => false
  | String c r => p c || existsb p r
  end.

(** [csv.QUOTE_MINIMAL]: a field is quoted when it holds the delimiter,
    the quote character or a line break; quotes are doubled. *)
Definition special (c : ascii) : bool :=
  let n := PyStr.code c in
  ((n =? 44) || (n =? 34) || (n =? 10) || (n =? 13))%N.

Fixpoint double_quotes (s : string) : string :=
  match s with
  | EmptyString => EmptyString
  | String c r =>
      if Ascii.eqb c Json.dquote
      then String c (String c (double_quotes r))
      else String c (double_quotes r)
  end.

Definition field (s : string) : string :=
  if existsb special s
  then String Json.dquote (double_quotes s ++ String Json.dquote EmptyString)
  else s.

(** One record and its line terminator; a record that is a single empty
    field is written as a pair of quotes. *)
Definition line (fields : list string) : string :=
  match fields with
  | [EmptyString] => String Json.dquote (String Json.dquote EmptyString)
  | _ => PyStr.join "," (map field fields)
  end ++ String Json.newline EmptyString.

(** A cell with [na_rep] the empty string. *)
Definition cell_text (c : cell) : string :=
  match c with
  | CNull => EmptyString
  | _ => Pandas.cell_str c
  end.

Fixpoint concat (l : list string) : string :=
  match l with
  | [] => EmptyString
  | x :: r => x ++ concat r
  end.

(** [df.to_csv(index=False, lineterminator="\n")] *)
Definition to_csv (df : DataFrame) : string :=
  line (columns df)
  ++ concat (map (fun r => line (map cell_text (snd r))) (rows df)).

End Csv.

(** [dataframe_to_stable_csv_bytes] *)
Definition dataframe_to_stable_csv_bytes (dataframe : DataFrame) : string :=
  let csv_text := Csv.to_csv dataframe in
  encode_utf8 csv_text.

(** [sha256_from_bytes] *)
Definition sha256_from_bytes (payload : string) : string :=
  Sha256.hexdigest payload.

(** [sha256_from_json] *)
Definition sha256_from_json (data : dict) : string :=
  let canonical_json := Json.dumps Json.compact_sorted (JObj data) in
  sha256_from_bytes (encode_utf8 canonical_json).

(** [build_version_hash] (not called by the commit engine) *)
Definition build_version_hash (input_hash config_hash : string) : string :=
  let combined := encode_utf8 (input_hash ++ ":" ++ config_hash) in
  sha256_from_bytes combined.

(** ** Exceptions and the result monad *)

Inductive exn :=
| DataLineageError (msg : string)
| RepositoryNotInitializedError (msg : string)
| ValidationError (msg : string)
| FileNotFoundError (path : string)
| AttributeError (msg : string)
| TypeError (msg : string)
| PandasError (msg : string).

Inductive result (A : Type) :=
| Ok (a : A)
| Raise (e : exn).
Arguments Ok {A} a.
Arguments Raise {A} e.

Global Instance result_bind : MBind result :=
  fun A B k m => match m with Ok a => k a | Raise e => Raise e end.
Global Instance result_ret : MRet result := fun A a => Ok a.

(** ** pathlib, as far as the program uses it *)

Module Path.

(** Split at ["/"]. *)
Fixpoint split (cur : string) (s : string) : list string :=
  match s with
  | EmptyString => [cur]
  | String c r =>
      if Ascii.eqb c "/" then cur :: split EmptyString r
      else split (cur ++ String c EmptyString) r
  end.

(** The components of a path: empty and ["."] pieces are dropped. *)
Definition parts (s : string) : list string :=
  List.filter (fun p => negb (String.eqb p EmptyString || String.eqb p "."))
              (split EmptyString s).

Definition is_absolute (s : string) : bool := PyStr.startswith s "/".

(** [str(Path(s))] *)
Definition str (s : string) : string :=
  let body := PyStr.join "/" (parts s) in
  if is_absolute s then "/" ++ body
  else if String.eqb body EmptyString then "." else body.

(** [Path(s).name] *)
Definition name (s : string) : string := List.last (parts s) EmptyString.

(** [Path(s).suffix] *)
Fixpoint last_dot (s : string) : option string :=
  match s with
  | EmptyString => None
  | String c r =>
      match last_dot r with
      | Some x => Some x
      | None => if Ascii.eqb c "." then Some s else None
      end
  end.

Definition suffix (s : string) : string :=
  match name s with
  | EmptyString => EmptyString
  | String c r =>
      match last_dot r with
      | Some (String d EmptyString) => EmptyString
      | Some x => x
      | None => EmptyString
      end
  end.

(** [a / b] for a relative [b]. *)
Definition join (a b : string) : string := a ++ "/" ++ b.

End Path.

(** ** src/src/repo.py *)

(** The files of one version directory [.mydata/versions/<id>/]. *)
Record VersionDir := mkVersionDir {
  raw_snapshot : option string;
  processed_csv : option string;
  config_snapshot : option string;
  metadata_json : option string
}.

(** A [RepoState] object holds only paths; the state it reads and writes is
    the content of the project tree, which is what this record is.  A file
    that does not exist is [None]. *)
Record RepoState := mkRepo {
  project_root : string;
  head_file : option string;
  logs_file : option string;
  meta_file : option string;
  versions : gmap string VersionDir;
  raw_data : gmap string string;
  reports : gmap string string;
  files : gmap string string
}.

Definition with_head (repo : RepoState) (text : string) : RepoState :=
  mkRepo (project_root repo) (Some text) (logs_file repo) (meta_file repo)
         (versions repo) (raw_data repo) (reports repo) (files repo).

Definition with_logs (repo : RepoState) (text : string) : RepoState :=
  mkRepo (project_root repo) (head_file repo) (Some text) (meta_file repo)
         (versions repo) (raw_data repo) (reports repo) (files repo).

Definition with_versions (repo : RepoState) (vs : gmap string VersionDir)
  : RepoState :=
  mkRepo (project_root repo) (head_file repo) (logs_file repo) (meta_file repo)
         vs (raw_data repo) (reports repo) (files repo).

Definition with_raw_data (repo : RepoState) (rd : gmap string string)
  : RepoState :=
  mkRepo (project_root repo) (head_file repo) (logs_file repo) (meta_file repo)
         (versions repo) rd (reports repo) (files repo).

Definition with_reports (repo : RepoState) (rp : gmap string string)
  : RepoState :=
  mkRepo (project_root repo) (head_file repo) (logs_file repo) (meta_file repo)
         (versions repo) (raw_data repo) rp (files repo).

Definition repo_root (repo : RepoState) : string :=
  Path.join (project_root repo) ".mydata".
Definition versions_root (repo : RepoState) : string :=
  Path.join (repo_root repo) "versions".

(** [Path.read_text] of a file that may be missing. *)
Definition read_text (path : string) (file : option string) : result string :=
  match file with
  | Some text => Ok text
  | None => Raise (FileNotFoundError path)
  end.

(** [_ensure_initialized]; the two directories are part of the record. *)
Definition _ensure_initialized (repo : RepoState) : result unit :=
  match head_file repo, logs_file repo, meta_file repo with
  | Some _, Some _, Some _ => Ok tt
  | _, _, _ =>
      Raise (RepositoryNotInitializedError
               ("Repository not initialized under: " ++ repo_root repo))
  end.

(** [get_head] *)
Definition get_head (repo : RepoState) : result (option string) :=
  text ← read_text "HEAD" (head_file repo);
  let raw_value := PyStr.strip text in
  if bool_decide (raw_value ∈ [EmptyString; "null"; "None"]) then Ok None
  else Ok (Some raw_value).

(** [set_head] *)
Definition set_head (repo : RepoState) (version_id : string) : RepoState :=
  with_head repo (version_id ++ String Json.newline EmptyString).

(** [read_logs] *)
Definition read_logs (repo : RepoState) : result (list json) :=
  text ← read_text "logs.json" (logs_file repo);
  let content := PyStr.strip text in
  if String.eqb content EmptyString then Ok []
  else
    match Json.loads content with
    | Some (JArr data) => Ok data
    | Some _ => Ok []
    | None => Ok []
    end.

(** What [read_logs] makes of the text of the log file. *)
Definition events_of_text (text : string) : list json :=
  match Json.loads (PyStr.strip text) with
  | Some (JArr data) => data
  | _ => []
  end.

(** [append_log] *)
Definition append_log (repo : RepoState) (record : json) : result RepoState :=
  logs ← read_logs repo;
  let logs := logs ++ [record] in
  Ok (with_logs repo
        (Json.dumps Json.pretty (JArr logs) ++ String Json.newline EmptyString)).

(** [version_exists] *)
Definition version_exists (repo : RepoState) (version_id : string) : bool :=
  bool_decide (is_Some (versions repo !! version_id)).

(** ** src/src/models.py *)

Record VersionRecord := mkVersionRecord {
  version_id : string;
  parent_id : option string;
  timestamp : string;
  commit_message : string;
  source_data_path : string;
  source_config_path : string;
  input_hash : string;
  config_hash : string;
  version_hash : string;
  row_count : nat;
  label_distribution : dict;
  eval_metrics : option dict
}.

Definition json_of_option (o : option string) : json :=
  match o with Some s => JStr s | None => JNull end.

Definition json_of_nat (n : nat) : json := JInt (Z.of_nat n).

(** [VersionRecord.to_dict] *)
Definition to_dict (r : VersionRecord) : dict :=
  [ ("version_id", JStr (version_id r));
    ("parent_id", json_of_option (parent_id r));
    ("timestamp", JStr (timestamp r));
    ("commit_message", JStr (commit_message r));
    ("source_data_path", JStr (source_data_path r));
    ("source_config_path", JStr (source_config_path r));
    ("input_hash", JStr (input_hash r));
    ("config_hash", JStr (config_hash r));
    ("version_hash", JStr (version_hash r));
    ("row_count", json_of_nat (row_count r));
    ("label_distribution", JObj (label_distribution r));
    ("eval_metrics", match eval_metrics r with Some m => JObj m | None => JNull end) ].

(** ** src/src/commit_service.py *)

(** [Series.value_counts(dropna=False)]: the distinct values with their
    counts, most frequent first, ties in order of first appearance. *)
Fixpoint bump (c : cell) (acc : list (cell * nat)) : list (cell * nat) :=
  match acc with
  | [] => [(c, 1%nat)]
  | (x, n) :: r => if bool_decide (x = c) then (x, S n) :: r else (x, n) :: bump c r
  end.

Definition count_values (series : list cell) : list (cell * nat) :=
  fold_left (fun acc c => bump c acc) series [].

Fixpoint insert_by_count (kv : cell * nat) (l : list (cell * nat)) :=
  match l with
  | [] => [kv]
  | x :: l' =>
      if (snd x <=? snd kv)%nat then kv :: l else x :: insert_by_count kv l'
  end.

Definition value_counts (series : list cell) : list (cell * nat) :=
  fold_right insert_by_count [] (count_values series).

(** The number of occurrences that a tally [acc] records for [x]. *)
Definition tally (x : cell) (acc : list (cell * nat)) : nat :=
  list_sum (map snd (List.filter (fun kv => bool_decide (fst kv = x)) acc)).

(** [_label_distribution] *)
Definition _label_distribution (processed_rows : DataFrame) : dict :=
  match Pandas.index_of "label" (columns processed_rows) with
  | None => []
  | Some j =>
      let distribution := value_counts (Pandas.column_at j processed_rows) in
      fold_left
        (fun d kv => Dict.set (Pandas.cell_str (fst kv)) (json_of_nat (snd kv)) d)
        distribution []
  end.

(** [_normalize_user_path] *)
Definition unquote (s : string) : string :=
  match s with
  | String c r =>
      match list_ascii_of_string r with
      | [] => s
      | _ =>
          let l := List.last (list_ascii_of_string r) c in
          if Ascii.eqb c l && (Ascii.eqb c Json.dquote || Ascii.eqb c "'")
          then string_of_list_ascii (removelast (list_ascii_of_string r))
          else s
      end
  | EmptyString => s
  end.

Definition _normalize_user_path (path_value : string) : string :=
  unquote (PyStr.strip path_value).

Definition dedupe_message : string :=
  "Run recorded. No new version created; existing version reused.".

(** The [dedupe_event] dict of [_persist_version]. *)
Definition dedupe_event
  (timestamp source_data_path source_config_path input_hash config_hash
   version_hash : string) : json :=
  JObj [ ("event_type", JStr "dedupe_hit");
         ("timestamp", JStr timestamp);
         ("requested_source_data_path", JStr source_data_path);
         ("requested_source_config_path", JStr source_config_path);
         ("requested_input_hash", JStr input_hash);
         ("requested_config_hash", JStr config_hash);
         ("resolved_version_id", JStr version_hash);
         ("message", JStr dedupe_message) ].

(** Whether the raw input is archived, and under which name. *)
Definition archives (source_data_path : string) : bool :=
  negb (PyStr.startswith source_data_path "HEAD:").

Definition archived_name (version_hash source_data_path : string) : string :=
  let source_name :=
    match Path.name source_data_path with
    | EmptyString => "raw_input.csv"
    | n => n
    end in
  PyStr.take 8 version_hash ++ "__" ++ source_name.

(** The [metadata] dict of [_persist_version], as written to
    [metadata.json] and appended to the log. *)
Definition commit_metadata (record : VersionRecord)
  (raw_dataframe processed_dataframe : DataFrame) : dict :=
  let artifacts :=
    [ ("raw_snapshot", JStr "raw_snapshot.csv");
      ("processed_snapshot", JStr "processed.csv");
      ("config_snapshot", JStr "config_snapshot.json") ] in
  let artifacts :=
    if archives (source_data_path record)
    then Dict.set "raw_archive"
           (JStr (Path.join "raw_data"
                    (archived_name (version_hash record) (source_data_path record))))
           artifacts
    else artifacts in
  [("event_type", JStr "commit")] ++ to_dict record ++
  [ ("preprocess_stats",
     JObj [ ("rows_before", json_of_nat (Pandas.len raw_dataframe));
            ("rows_after", json_of_nat (Pandas.len processed_dataframe));
            ("columns_before", JArr (map JStr (columns raw_dataframe)));
            ("columns_after", JArr (map JStr (columns processed_dataframe))) ]);
    ("artifacts", JObj artifacts) ].

(** The files of a new version directory. *)
Definition new_version_dir (input_bytes processed_csv_bytes : string)
  (config metadata : dict) : VersionDir :=
  mkVersionDir
    (Some input_bytes)
    (Some processed_csv_bytes)
    (Some (Json.dumps Json.pretty_sorted (JObj config)
           ++ String Json.newline EmptyString)%string)
    (Some (Json.dumps Json.pretty (JObj metadata)
           ++ String Json.newline EmptyString)%string).

(** [_persist_version]; [now] is the value of [_now_utc_iso()].  The result
    is the returned dict and the repository after the call. *)
Definition _persist_version (repo : RepoState)
  (source_data_path source_config_path input_bytes : string)
  (raw_dataframe processed_dataframe : DataFrame) (config : dict)
  (commit_message now : string) : result (dict * RepoState) :=
  let processed_csv_bytes := dataframe_to_stable_csv_bytes processed_dataframe in
  let input_hash := sha256_from_bytes input_bytes in
  let config_hash := sha256_from_json config in
  let version_hash := sha256_from_bytes processed_csv_bytes in
  parent_id ← get_head repo;
  let version_dir := Path.join (versions_root repo) version_hash in
  let timestamp := now in
  if version_exists repo version_hash then
    repo ← append_log repo
             (dedupe_event timestamp source_data_path source_config_path
                           input_hash config_hash version_hash);
    head ← get_head repo;
    Ok ([ ("status", JStr "duplicate");
          ("version_id", JStr version_hash);
          ("head", json_of_option head);
          ("message", JStr "Identical processed output already committed.") ],
        repo)
  else
    let record :=
      mkVersionRecord version_hash parent_id timestamp (PyStr.strip commit_message)
        source_data_path source_config_path input_hash config_hash version_hash
        (Pandas.len processed_dataframe) (_label_distribution processed_dataframe)
        None in
    let metadata := commit_metadata record raw_dataframe processed_dataframe in
    let repo :=
      with_versions repo
        (<[version_hash :=
             new_version_dir input_bytes processed_csv_bytes config metadata]>
           (versions repo)) in
    let repo :=
      if archives source_data_path
      then with_raw_data repo
             (<[archived_name version_hash source_data_path := input_bytes]>
                (raw_data repo))
      else repo in
    repo ← append_log repo (JObj metadata);
    let repo := set_head repo version_hash in
    Ok ([ ("status", JStr "created");
          ("version_id", JStr version_hash);
          ("parent_id", json_of_option parent_id);
          ("head", JStr version_hash);
          ("rows_before", json_of_nat (Pandas.len raw_dataframe));
          ("rows_after", json_of_nat (Pandas.len processed_dataframe));
          ("version_path", JStr version_dir);
          ("metadata_path", JStr (Path.join version_dir "metadata.json")) ],
        repo).

(** The record and the store of the "created" outcome of [_persist_version],
    for a HEAD value [p] read at the start of the call. *)
Definition created_record (sd sc ib : string) (processed : DataFrame) (cfg : dict)
  (msg now : string) (p : option string) : VersionRecord :=
  let vh := sha256_from_bytes (dataframe_to_stable_csv_bytes processed) in
  mkVersionRecord vh p now (PyStr.strip msg) sd sc (sha256_from_bytes ib)
    (sha256_from_json cfg) vh (Pandas.len processed)
    (_label_distribution processed) None.

Definition created_store (repo : RepoState) (sd ib : string)
  (raw processed : DataFrame) (cfg meta : dict) : RepoState :=
  let vh := sha256_from_bytes (dataframe_to_stable_csv_bytes processed) in
  let repo :=
    with_versions repo
      (<[vh := new_version_dir ib (dataframe_to_stable_csv_bytes processed) cfg meta]>
         (versions repo)) in
  if archives sd
  then with_raw_data repo (<[archived_name vh sd := ib]> (raw_data repo))
  else repo.

(** ** src/src/io_loader.py and the three intake modes *)

(** The three entry points of the commit engine, as one type of request. *)
Inductive intake :=
| IntakeRaw (dataset_path config_path : string)
| IntakeRawDefault (dataset_path : string)
| IntakeHead (config_path : string).

(** The pandas readers are external collaborators: [pd_read_csv] and
    [pd_read_json] stand for [pd.read_csv] and for [pd.read_json] with its
    line-delimited fallback, applied to the bytes of a file. *)
Section Intake.

Variable pd_read_csv : string -> result DataFrame.
Variable pd_read_json : string -> result DataFrame.

(** [read_config].  The program uses the configuration as a [Dict]; a
    JSON document that is not an object is rejected here, where the
    program rejects it at the first dict operation. *)
Definition read_config (repo : RepoState) (config_path : string) : result dict :=
  match files repo !! config_path with
  | None => Raise (ValidationError ("Config file not found: " ++ config_path))
  | Some text =>
      if negb (String.eqb (PyStr.lower (Path.suffix config_path)) ".json")
      then Raise (ValidationError
                    "Config file must be a .json file in this prototype.")
      else
        match Json.loads text with
        | Some (JObj config) => Ok config
        | Some _ => Raise (TypeError "config is not a mapping")
        | None => Raise (ValidationError "Invalid JSON config")
        end
  end.

(** [load_dataset] *)
Definition load_dataset (repo : RepoState) (dataset_path : string)
  : result (DataFrame * string) :=
  match files repo !! dataset_path with
  | None => Raise (ValidationError ("Dataset file not found: " ++ dataset_path))
  | Some bytes =>
      let suffix := PyStr.lower (Path.suffix dataset_path) in
      dataframe ←
        (if String.eqb suffix ".csv" then pd_read_csv bytes
         else if String.eqb suffix ".json" then pd_read_json bytes
         else Raise (ValidationError
                       "Only CSV and JSON input are supported in this prototype."));
      if Pandas.empty dataframe
      then Raise (ValidationError "Loaded dataset is empty.")
      else Ok (dataframe, suffix)
  end.

(** [validate_schema] *)
Definition validate_schema (dataframe : DataFrame) : result unit :=
  if Pandas.empty dataframe
  then Raise (ValidationError "Dataset schema invalid: dataset is empty.")
  else match columns dataframe with
       | [] => Raise (ValidationError "Dataset schema invalid: no columns found.")
       | _ => Ok tt
       end.

(** [Path.read_bytes] *)
Definition read_bytes (repo : RepoState) (path : string) : result string :=
  match files repo !! path with
  | Some bytes => Ok bytes
  | None => Raise (FileNotFoundError path)
  end.

(** [create_version_from_paths] *)
Definition create_version_from_paths (repo : RepoState)
  (dataset_path config_path commit_message now : string)
  : result (dict * RepoState) :=
  let dataset_path := _normalize_user_path dataset_path in
  let config_path := _normalize_user_path config_path in
  raw_bytes ← read_bytes repo dataset_path;
  config ← read_config repo config_path;
  loaded ← load_dataset repo dataset_path;
  let raw_dataframe := fst loaded in
  _ ← validate_schema raw_dataframe;
  let processed_dataframe :=
    apply_deterministic_preprocessing raw_dataframe config in
  _persist_version repo (Path.str dataset_path) (Path.str config_path)
    raw_bytes raw_dataframe processed_dataframe config commit_message now.

(** [create_version_from_head] *)
Definition create_version_from_head (repo : RepoState)
  (config_path commit_message now : string) : result (dict * RepoState) :=
  let config_path := _normalize_user_path config_path in
  head ← get_head repo;
  match head with
  | None =>
      Raise (DataLineageError
               "HEAD is not set. First commit must use a dataset path.")
  | Some head_version =>
      match versions repo !! head_version ≫= processed_csv with
      | None => Raise (DataLineageError "HEAD processed snapshot not found")
      | Some input_bytes =>
          config ← read_config repo config_path;
          raw_dataframe ← pd_read_csv input_bytes;
          _ ← validate_schema raw_dataframe;
          let processed_dataframe :=
            apply_deterministic_preprocessing raw_dataframe config in
          _persist_version repo ("HEAD:" ++ head_version) (Path.str config_path)
            input_bytes raw_dataframe processed_dataframe config
            commit_message now
      end
  end.

(** [create_version_from_raw_default] *)
Definition create_version_from_raw_default (repo : RepoState)
  (dataset_path commit_message now : string) : result (dict * RepoState) :=
  let dataset_path := _normalize_user_path dataset_path in
  raw_bytes ← read_bytes repo dataset_path;
  loaded ← load_dataset repo dataset_path;
  let raw_dataframe := fst loaded in
  _ ← validate_schema raw_dataframe;
  let config := get_default_preprocess_config in
  let processed_dataframe :=
    apply_deterministic_preprocessing raw_dataframe config in
  _persist_version repo (Path.str dataset_path) "DEFAULT_CONFIG"
    raw_bytes raw_dataframe processed_dataframe config commit_message now.

(** [commit(intake, message)]: the entry point for each intake mode. *)
Definition commit (repo : RepoState) (request : intake)
  (commit_message now : string) : result (dict * RepoState) :=
  match request with
  | IntakeRaw dataset_path config_path =>
      create_version_from_paths repo dataset_path config_path commit_message now
  | IntakeRawDefault dataset_path =>
      create_version_from_raw_default repo dataset_path commit_message now
  | IntakeHead config_path =>
      create_version_from_head repo config_path commit_message now
  end.

(** What an entry point hands to [_persist_version]: the two source path
    strings, the input bytes, the raw table and the configuration. *)
Definition load_intake (repo : RepoState) (request : intake)
  : result (string * string * string * DataFrame * dict) :=
  match request with
  | IntakeRaw dataset_path config_path =>
      let dataset_path := _normalize_user_path dataset_path in
      let config_path := _normalize_user_path config_path in
      raw_bytes ← read_bytes repo dataset_path;
      config ← read_config repo config_path;
      loaded ← load_dataset repo dataset_path;
      _ ← validate_schema (fst loaded);
      Ok (Path.str dataset_path, Path.str config_path, raw_bytes, fst loaded, config)
  | IntakeRawDefault dataset_path =>
      let dataset_path := _normalize_user_path dataset_path in
      raw_bytes ← read_bytes repo dataset_path;
      loaded ← load_dataset repo dataset_path;
      _ ← validate_schema (fst loaded);
      Ok (Path.str dataset_path, "DEFAULT_CONFIG", raw_bytes, fst loaded,
          get_default_preprocess_config)
  | IntakeHead config_path =>
      let config_path := _normalize_user_path config_path in
      head ← get_head repo;
      match head with
      | None =>
          Raise (DataLineageError
                   "HEAD is not set. First commit must use a dataset path.")
      | Some head_version =>
          match versions repo !! head_version ≫= processed_csv with
          | None => Raise (DataLineageError "HEAD processed snapshot not found")
          | Some input_bytes =>
              config ← read_config repo config_path;
              raw_dataframe ← pd_read_csv input_bytes;
              _ ← validate_schema raw_dataframe;
              Ok (("HEAD:" ++ head_version)%string, Path.str config_path,
                  input_bytes, raw_dataframe, config)
          end
      end
  end.

End Intake.

(** ** src/app.py: checkout *)

(** [_checkout_flow], for the version id that [_select_version_interactively]
    returned. *)
Definition _checkout_flow (repo : RepoState) (target_version : string)
  : result (dict * RepoState) :=
  if negb (version_exists repo target_version)
  then Raise (DataLineageError ("Version not found: " ++ target_version))
  else
    previous_head ← get_head repo;
    let repo := set_head repo target_version in
    Ok ([ ("Command", JStr "checkout");
          ("Status", JStr "success");
          ("Previous HEAD",
           JStr (match previous_head with Some h => h | None => "None" end));
          ("Current HEAD", JStr target_version) ],
        repo).

(** The HEAD invariant: HEAD is null or names an existing version
    directory. *)
Definition head_valid (repo : RepoState) : Prop :=
  get_head repo = Ok None \/
  exists v, get_head repo = Ok (Some v) /\ version_exists repo v = true.

(** The state-changing operations of the command loop. *)
Inductive operation :=
| OpCommit (request : intake) (commit_message now : string)
| OpCheckout (target_version : string).

Definition run_operation (pd_read_csv pd_read_json : string -> result DataFrame)
  (repo : RepoState) (op : operation) : result (dict * RepoState) :=
  match op with
  | OpCommit request commit_message now =>
      commit pd_read_csv pd_read_json repo request commit_message now
  | OpCheckout target_version => _checkout_flow repo target_version
  end.

(** A version id as the prompts deliver it: stripped. *)
Definition operation_input_ok (op : operation) : Prop :=
  match op with
  | OpCommit _ _ _ => True
  | OpCheckout target_version => PyStr.strip target_version = target_version
  end.

(** ** src/src/diff_service.py *)

(** Python [==] on JSON values: dicts compare as maps, [True == 1]. *)
Definition json_num (v : json) : option Z :=
  match v with
  | JInt z => Some z
  | JBool b => Some (if b then 1%Z else 0%Z)
  | _ => None
  end.

Fixpoint py_eq (a b : json) {struct a} : bool :=
  match a, b with
  | JNull, JNull => true
  | JStr s, JStr t => String.eqb s t
  | JArr xs, JArr ys =>
      (fix all2 (xs : list json) (ys : list json) : bool :=
         match xs, ys with
         | [], [] => true
         | x :: xs', y :: ys' => py_eq x y && all2 xs' ys'
         | _, _ => false
         end) xs ys
  | JObj ma, JObj mb =>
      (length ma =? length mb)%nat &&
      (fix all_in (ma : list (string * json)) : bool :=
         match ma with
         | [] => true
         | (k, v) :: r =>
             match Dict.get k mb with
             | Some v' => py_eq v v' && all_in r
             | None => false
             end
         end) ma
  | _, _ =>
      match json_num a, json_num b with
      | Some x, Some y => (x =? y)%Z
      | _, _ => false
      end
  end.

(** [sorted(list(set(xs) - set(ys)))] and [sorted(list(set(xs) & set(ys)))] *)
Fixpoint insert_str (x : string) (l : list string) : list string :=
  match l with
  | [] => [x]
  | y :: l' =>
      match PyStr.compare x y with
      | Lt => x :: l
      | Eq => l
      | Gt => y :: insert_str x l'
      end
  end.

Definition sorted_set (xs : list string) : list string :=
  fold_right insert_str [] xs.

Definition set_difference (xs ys : list string) : list string :=
  sorted_set (List.filter (fun x => negb (bool_decide (x ∈ ys))) xs).

Definition set_intersection (xs ys : list string) : list string :=
  sorted_set (List.filter (fun x => bool_decide (x ∈ ys)) xs).

Section Diff.

Variable pd_read_csv : string -> result DataFrame.

(** [_load_processed_dataframe] *)
Definition _load_processed_dataframe (version_dir : option VersionDir)
  : result DataFrame :=
  match version_dir ≫= processed_csv with
  | None => Raise (DataLineageError "Processed artifact missing")
  | Some bytes => pd_read_csv bytes
  end.

(** [_load_metadata]; the caller reads the result with [dict.get]. *)
Definition _load_metadata (version_dir : option VersionDir) : result dict :=
  match version_dir ≫= metadata_json with
  | None => Raise (DataLineageError "Metadata artifact missing")
  | Some text =>
      match Json.loads text with
      | None => Raise (DataLineageError "Invalid metadata JSON")
      | Some (JObj m) => Ok m
      | Some _ => Raise (AttributeError "metadata has no attribute get")
      end
  end.

(** [compare_versions]; [now] is the value of [_now_utc_iso()]. *)
Definition compare_versions (repo : RepoState) (version_a version_b now : string)
  : result (dict * RepoState) :=
  if negb (version_exists repo version_a)
  then Raise (DataLineageError ("Version not found: " ++ version_a))
  else if negb (version_exists repo version_b)
  then Raise (DataLineageError ("Version not found: " ++ version_b))
  else
    dataframe_a ← _load_processed_dataframe (versions repo !! version_a);
    dataframe_b ← _load_processed_dataframe (versions repo !! version_b);
    metadata_a ← _load_metadata (versions repo !! version_a);
    metadata_b ← _load_metadata (versions repo !! version_b);
    let columns_a := columns dataframe_a in
    let columns_b := columns dataframe_b in
    let label_dist_a := Dict.get_default "label_distribution" (JObj []) metadata_a in
    let label_dist_b := Dict.get_default "label_distribution" (JObj []) metadata_b in
    let config_hash_a := Dict.get_default "config_hash" JNull metadata_a in
    let config_hash_b := Dict.get_default "config_hash" JNull metadata_b in
    let row_delta :=
      (Z.of_nat (Pandas.len dataframe_b) - Z.of_nat (Pandas.len dataframe_a))%Z in
    let diff_report :=
      JObj
        [ ("generated_at", JStr now);
          ("version_a", JStr version_a);
          ("version_b", JStr version_b);
          ("summary",
           JObj [ ("row_count_a", json_of_nat (Pandas.len dataframe_a));
                  ("row_count_b", json_of_nat (Pandas.len dataframe_b));
                  ("row_delta", JInt row_delta);
                  ("column_count_a", json_of_nat (length columns_a));
                  ("column_count_b", json_of_nat (length columns_b));
                  ("config_changed", JBool (negb (py_eq config_hash_a config_hash_b))) ]);
          ("columns",
           JObj [ ("only_in_a", JArr (map JStr (set_difference columns_a columns_b)));
                  ("only_in_b", JArr (map JStr (set_difference columns_b columns_a)));
                  ("common", JArr (map JStr (set_intersection columns_a columns_b))) ]);
          ("label_distribution",
           JObj [ ("a", label_dist_a);
                  ("b", label_dist_b);
                  ("changed", JBool (negb (py_eq label_dist_a label_dist_b))) ]);
          ("hashes",
           JObj [ ("config_hash_a", config_hash_a);
                  ("config_hash_b", config_hash_b);
                  ("input_hash_a", Dict.get_default "input_hash" JNull metadata_a);
                  ("input_hash_b", Dict.get_default "input_hash" JNull metadata_b);
                  ("version_hash_a", Dict.get_default "version_hash" JNull metadata_a);
                  ("version_hash_b", Dict.get_default "version_hash" JNull metadata_b) ]) ] in
    let report_name :=
      ("diff_" ++ PyStr.take 8 version_a ++ "__" ++ PyStr.take 8 version_b
       ++ ".json")%string in
    let repo :=
      with_reports repo
        (<[report_name := (Json.dumps Json.pretty diff_report
                           ++ String Json.newline EmptyString)%string]>
           (reports repo)) in
    Ok ([ ("version_a", JStr version_a);
          ("version_b", JStr version_b);
          ("row_count_a", json_of_nat (Pandas.len dataframe_a));
          ("row_count_b", json_of_nat (Pandas.len dataframe_b));
          ("row_delta", JInt row_delta);
          ("config_changed", JBool (negb (py_eq config_hash_a config_hash_b)));
          ("label_distribution_changed",
           JBool (negb (py_eq label_dist_a label_dist_b)));
          ("report_path",
           JStr (Path.join (Path.join (project_root repo) "reports") report_name)) ],
        repo).

End Diff.

(** ** A small project tree, for worked examples *)

(** The file [data.csv] holds scenario 1; the reader stands for pandas on
    the two files the examples read. *)
Definition sample_bytes : string := Csv.to_csv scenario1.

Definition sample_processed : DataFrame :=
  apply_deterministic_preprocessing scenario1 get_default_preprocess_config.

Definition sample_reader (bytes : string) : result DataFrame :=
  if String.eqb bytes sample_bytes then Ok scenario1
  else if String.eqb bytes (dataframe_to_stable_csv_bytes sample_processed)
  then Ok sample_processed
  else Raise (PandasError "unreadable").

Definition sample_repo : RepoState :=
  mkRepo "/p" (Some EmptyString) (Some "[]") (Some "{}") ∅ ∅ ∅
         {[ "data.csv" := sample_bytes;
            "keep.json" :=
              Json.dumps Json.pretty (JObj [("lowercase_text", JBool false)]) ]}.

(** A table whose only row holds a sentinel, and a reader that returns it. *)
Definition sentinel_table : DataFrame :=
  mkDF ["Label"] [DObject] [ (0%nat, [CStr "n/a"]) ].

Definition sentinel_reader (bytes : string) : result DataFrame :=
  Ok sentinel_table.

(** The same tree after a first commit of [data.csv]. *)
Definition sample_repo_committed : RepoState :=
  Eval vm_compute in
  match commit sample_reader sample_reader sample_repo
          (IntakeRawDefault "data.csv") "first" "2024-01-01T00:00:00+00:00" with
  | Ok (_, repo) => repo
  | Raise _ => sample_repo
  end.

(** * Properties *)

(** ** Sanity checks of the library models *)

Example sha256_abc :
  Sha256.hexdigest "abc" =
  "ba7816bf8f01cfea414140de5dae2223b00361a396177a9cb410ff61f20015ad".
Proof. vm_compute. reflexivity. Qed.

Example sha256_empty :
  Sha256.hexdigest "" =
  "e3b0c44298fc1c149afbf4c8996fb92427ae41e4649b934ca495991b7852b855".
Proof. vm_compute. reflexivity. Qed.

Example sha256_two_blocks :
  Sha256.hexdigest "abcdbcdecdefdefgefghfghighijhijkijkljklmklmnlmnomnopnopq" =
  "248d6a61d20638b8e5c026930c3e6039a33ce45964ff2167f6ecedd419db06c1".
Proof. vm_compute. reflexivity. Qed.

Example cleanup_default :
  _cleanup_text_with_config "  Hello,   World! " get_default_preprocess_config
  = "hello world".
Proof. vm_compute. reflexivity. Qed.

Example cleanup_urls :
  _cleanup_text_with_config "see https://a.b/c?d and www.x.y now"
    (Dict.set "remove_urls" (JBool true) get_default_preprocess_config)
  = "see and now".
Proof. vm_compute. reflexivity. Qed.

Example cleanup_keep_case :
  _cleanup_text_with_config "Hello, World"
    (Dict.set "lowercase_text" (JBool false) get_default_preprocess_config)
  = "ello orld".
Proof. vm_compute. reflexivity. Qed.

Example scenario1_processed :
  apply_deterministic_preprocessing scenario1 get_default_preprocess_config
  = mkDF ["name"; "label"] [DObject; DInt]
         [ (0, [CStr "amy"; CInt 0]); (1, [CStr "bob"; CInt 1]) ]%nat.
Proof. vm_compute. reflexivity. Qed.

Example coerce_decimal_and_null :
  _coerce_numeric_like_columns
    (mkDF ["x"] [DObject]
          [ (0, [CStr " 1,250.50 "]); (1, [CNull]); (2, [CStr "-3"]) ]%nat)
    get_default_preprocess_config
  = mkDF ["x"] [DFloat]
         [ (0, [CFloat 12505 1]); (1, [CNull]); (2, [CFloat (-3) 0]) ]%nat.
Proof. vm_compute. reflexivity. Qed.

Example dumps_pretty_sample :
  Json.dumps Json.pretty (JArr [JInt 1; JArr []; JObj [("k", JInt (-20))]; JNull])
  = ("[
  1,
  [],
  {
    " ++ String Json.dquote "k" ++ String Json.dquote ": -20
  },
  null
]")%string.
Proof. vm_compute. reflexivity. Qed.

Example loads_sample :
  Json.loads "  [ {}, [ 1 ,-20, true,null ] , 0 ]  "
  = Some (JArr [JObj []; JArr [JInt 1; JInt (-20); JBool true; JNull]; JInt 0]).
Proof. vm_compute. reflexivity. Qed.

Example loads_rejects :
  map Json.loads ["[1,]"; "[01]"; "{,}"; "[1] x"; "nul"; "[1.5]"; EmptyString]
  = [None; None; None; None; None; None; None].
Proof. vm_compute. reflexivity. Qed.

Example loads_dumps_sample :
  let v := JArr [JObj [("event_type", JStr "commit"); ("n", JInt 3);
                       ("odd", JStr (String "009" (String Json.dquote "\/")))]] in
  Json.loads (Json.dumps Json.pretty v) = Some v.
Proof. vm_compute. reflexivity. Qed.

(** ** Per-cell text cleanup *)

Lemma sub_punctuation_length s :
  String.length (sub_punctuation s) = String.length s.
Proof. induction s as [|c r IH]; simpl; congruence. Qed.

(** Position by position, punctuation removal keeps a character of
    [[a-z0-9\s]] and writes a space over any other. *)
Lemma sub_punctuation_get s i c :
  String.get i s = Some c ->
  String.get i (sub_punctuation s)
  = Some (if punct_keep c then c else " "%char).
Proof.
  revert i; induction s as [|x r IH]; intros i H; [discriminate|].
  destruct i as [|i]; simpl in *.
  - by inversion H.
  - by apply IH.
Qed.

Lemma lower_char_not_upper c : PyStr.isupper (PyStr.lower_char c) = false.
Proof. destruct c as [[] [] [] [] [] [] [] []]; reflexivity. Qed.

(** After lowercasing, the kept class is exactly "alphanumeric or white
    space". *)
Lemma punct_keep_lowered c :
  punct_keep (PyStr.lower_char c)
  = PyStr.isalnum (PyStr.lower_char c) || PyStr.isspace (PyStr.lower_char c).
Proof.
  unfold punct_keep, PyStr.isalnum. rewrite lower_char_not_upper.
  destruct (PyStr.isdigit _), (PyStr.islower _); reflexivity.
Qed.

Lemma punct_keep_upper c : PyStr.isupper c = true -> punct_keep c = false.
Proof. destruct c as [[] [] [] [] [] [] [] []]; vm_compute; congruence. Qed.

(** The sub-steps run in the order of the source, each under its flag. *)
Lemma cleanup_order value config :
  _cleanup_text_with_config value config
  = PyStr.strip
      (when (flag "collapse_spaces" true config) (sub_spaces false)
      (when (flag "remove_punctuation" true config) sub_punctuation
      (when (flag "lowercase_text" true config) PyStr.lower
      (when (flag "remove_urls" false config) (sub_urls false)
      (when (flag "strip_text" true config) PyStr.strip
      (when (flag "normalize_unicode" true config) nfkc value)))))).
Proof. reflexivity. Qed.

(** C6 (the code at the failing input).  With punctuation removal enabled and
    lowercasing disabled, the alphanumeric characters [H] and [W] of
    ["Hello, World"] do not survive the punctuation sub-step: the character
    class of the source has no upper-case range. *)
Theorem cleanup_text_loses_uppercase :
  let config := Dict.set "lowercase_text" (JBool false) get_default_preprocess_config in
  flag "remove_punctuation" true config = true /\
  flag "lowercase_text" true config = false /\
  PyStr.isalnum "H" = true /\ PyStr.isalnum "W" = true /\
  sub_punctuation "Hello, World" = " ello   orld" /\
  _cleanup_text_with_config "Hello, World" config = "ello orld".
Proof. vm_compute. repeat split. Qed.

(** ** Numeric coercion *)

Lemma append_nil_l s : (EmptyString ++ s)%string = s.
Proof. reflexivity. Qed.

Lemma append_cons c r s : (String c r ++ s)%string = String c (r ++ s).
Proof. reflexivity. Qed.

Lemma append_nil_r s : (s ++ EmptyString)%string = s.
Proof. induction s as [|c r IH]; [done|]. by rewrite append_cons, IH. Qed.

Lemma append_assoc (a b c : string) : ((a ++ b) ++ c = a ++ (b ++ c))%string.
Proof. induction a as [|x a IH]; [done|]. by rewrite !append_cons, IH. Qed.

Ltac sapp := rewrite ?append_cons, ?append_nil_l.

Lemma span_digits_spec s ds rest :
  span_digits s = (ds, rest) ->
  s = (ds ++ rest)%string /\ PyStr.forallb PyStr.isdigit ds = true /\
  (forall c r, rest = String c r -> PyStr.isdigit c = false).
Proof.
  revert ds rest; induction s as [|c r IH]; intros ds rest H; simpl in H.
  - inversion H; subst. repeat split; intros; discriminate.
  - destruct (PyStr.isdigit c) eqn:Hc.
    + destruct (span_digits r) as [ds' rest'] eqn:Hr. inversion H; subst.
      destruct (IH _ _ eq_refl) as (-> & Hd & Hn).
      repeat split; simpl; [by rewrite Hc, Hd | exact Hn].
    + inversion H; subst. repeat split. intros c' r' E; inversion E; subst; done.
Qed.

Lemma span_digits_app ds rest :
  PyStr.forallb PyStr.isdigit ds = true ->
  (forall c r, rest = String c r -> PyStr.isdigit c = false) ->
  span_digits (ds ++ rest) = (ds, rest).
Proof.
  intros Hd Hn. induction ds as [|c r IH]; sapp; simpl in *.
  - destruct rest as [|c r]; [done|]. simpl. by rewrite (Hn c r eq_refl).
  - apply andb_prop in Hd as [Hc Hr]. by rewrite Hc, (IH Hr).
Qed.

Lemma span_digits_all ds :
  PyStr.forallb PyStr.isdigit ds = true -> span_digits ds = (ds, EmptyString).
Proof.
  intros Hd. rewrite <- (append_nil_r ds) at 1.
  apply span_digits_app; [done | discriminate].
Qed.

Lemma startswith_cons a p b s :
  PyStr.startswith (String b s) (String a p)
  = Ascii.eqb a b && PyStr.startswith s p.
Proof. reflexivity. Qed.

Lemma startswith_nil s : PyStr.startswith s EmptyString = true.
Proof. by destruct s. Qed.

Lemma startswith_dash s :
  PyStr.startswith s "-" = true <-> exists r, s = String "-" r.
Proof.
  destruct s as [|c r].
  - split; [discriminate | intros [? ?]; discriminate].
  - rewrite startswith_cons, startswith_nil, andb_true_r. split.
    + intros H%Ascii.eqb_eq. subst. eauto.
    + intros [x E]. inversion E. apply Ascii.eqb_refl.
Qed.

Lemma digits_head ip :
  digits ip -> exists c r, ip = String c r /\ PyStr.isdigit c = true.
Proof.
  intros [Hne Hd]. destruct ip as [|c r]; [done|].
  simpl in Hd. apply andb_prop in Hd as [Hc _]. eauto.
Qed.

Lemma startswith_dash_digit c r :
  PyStr.isdigit c = true -> PyStr.startswith (String c r) "-" = false.
Proof.
  intros Hc. rewrite startswith_cons, startswith_nil, andb_true_r.
  destruct (Ascii.eqb "-" c) eqn:E; [|done].
  apply Ascii.eqb_eq in E. subst. discriminate Hc.
Qed.

Lemma scan_numeric_unsigned (s : string) c r :
  s = String c r -> PyStr.isdigit c = true ->
  scan_numeric (String "-" s)
  = (let '(ip, s2) := span_digits s in
     if String.eqb ip EmptyString then None
     else match s2 with
          | EmptyString => Some (true, ip, None)
          | String c s3 =>
              if Ascii.eqb c "." then
                let '(fp, s4) := span_digits s3 in
                if String.eqb fp EmptyString || negb (String.eqb s4 EmptyString)
                then None else Some (true, ip, Some fp)
              else None
          end) /\
  scan_numeric s
  = (let '(ip, s2) := span_digits s in
     if String.eqb ip EmptyString then None
     else match s2 with
          | EmptyString => Some (false, ip, None)
          | String c s3 =>
              if Ascii.eqb c "." then
                let '(fp, s4) := span_digits s3 in
                if String.eqb fp EmptyString || negb (String.eqb s4 EmptyString)
                then None else Some (false, ip, Some fp)
              else None
          end).
Proof.
  intros -> Hc. split; unfold scan_numeric.
  - by rewrite startswith_cons, startswith_nil.
  - by rewrite (startswith_dash_digit _ _ Hc).
Qed.

Lemma scan_numeric_int (neg : bool) (ip : string) :
  digits ip ->
  scan_numeric ((if neg then "-" else EmptyString) ++ ip)%string
  = Some (neg, ip, None).
Proof.
  intros Hip. destruct (digits_head _ Hip) as (c & r & E & Hc).
  destruct Hip as [_ Hd].
  destruct (scan_numeric_unsigned ip c r E Hc) as [H1 H2].
  destruct neg.
  - change ("-" ++ ip)%string with (String "-" ip).
    rewrite H1, span_digits_all by done. subst ip. reflexivity.
  - rewrite append_nil_l, H2, span_digits_all by done. subst ip. reflexivity.
Qed.

Lemma scan_numeric_dec (neg : bool) (ip fp : string) :
  digits ip -> digits fp ->
  scan_numeric ((if neg then "-" else EmptyString) ++ ip ++ "." ++ fp)%string
  = Some (neg, ip, Some fp).
Proof.
  intros Hip Hfp. destruct (digits_head _ Hip) as (c & r & E & Hc).
  destruct (digits_head _ Hfp) as (c' & r' & E' & Hc').
  destruct Hip as [_ Hd], Hfp as [_ Hd'].
  assert (Hs : span_digits (ip ++ "." ++ fp)%string = (ip, ("." ++ fp)%string)).
  { apply span_digits_app; [done|]. by intros ? ? [= <- _]. }
  assert (E2 : (ip ++ "." ++ fp)%string = String c (r ++ "." ++ fp)) by by subst ip.
  destruct (scan_numeric_unsigned _ c _ E2 Hc) as [H1 H2].
  destruct neg.
  - change ("-" ++ ip ++ "." ++ fp)%string with (String "-" (ip ++ "." ++ fp)).
    rewrite H1, Hs. change ("." ++ fp)%string with (String "." fp).
    cbv beta iota. rewrite Ascii.eqb_refl, span_digits_all by done.
    subst ip fp. reflexivity.
  - rewrite append_nil_l, H2, Hs. change ("." ++ fp)%string with (String "." fp).
    cbv beta iota. rewrite Ascii.eqb_refl, span_digits_all by done.
    subst ip fp. reflexivity.
Qed.

(** The scanner accepts exactly the language of the pattern. *)
Lemma match_numeric_spec s : match_numeric s = true <-> numeric_literal s.
Proof.
  unfold match_numeric. split.
  - destruct (scan_numeric s) as [[[neg ip] fo]|] eqn:E; [intros _|discriminate].
    unfold scan_numeric in E.
    set (s1 := if PyStr.startswith s "-" then PyStr.drop 1 s else s) in E.
    assert (Hs : s = ((if PyStr.startswith s "-" then "-" else EmptyString) ++ s1)%string).
    { subst s1. destruct (PyStr.startswith s "-") eqn:Hp; [|done].
      apply startswith_dash in Hp as [r ->]. reflexivity. }
    destruct (span_digits s1) as [ip' s2] eqn:Hsp.
    apply span_digits_spec in Hsp as (Hs1 & Hd & Hn).
    destruct (String.eqb ip' EmptyString) eqn:Hne; [discriminate|].
    apply String.eqb_neq in Hne.
    destruct s2 as [|c s3].
    + inversion E; subst neg ip fo. rewrite Hs, Hs1, append_nil_r.
      by apply NumInt.
    + destruct (Ascii.eqb c ".") eqn:Hc; [|discriminate].
      apply Ascii.eqb_eq in Hc as ->.
      destruct (span_digits s3) as [fp s4] eqn:Hsp.
      apply span_digits_spec in Hsp as (Hs3 & Hd' & _).
      destruct (String.eqb fp EmptyString) eqn:Hfe; [discriminate|].
      apply String.eqb_neq in Hfe.
      destruct (String.eqb s4 EmptyString) eqn:H4; [|discriminate].
      apply String.eqb_eq in H4 as ->. simpl in E.
      inversion E; subst neg ip fo.
      rewrite Hs, Hs1, Hs3, append_nil_r. by apply NumDec.
  - intros [neg ip Hip | neg ip fp Hip Hfp].
    + by rewrite scan_numeric_int.
    + by rewrite scan_numeric_dec.
Qed.

Lemma looks_like_numeric_spec series :
  _looks_like_numeric_series series = true <->
  (exists c, c ∈ series /\ Pandas.isna c = false) /\
  (forall c, c ∈ series -> Pandas.isna c = false ->
     match_numeric (PyStr.strip (PyStr.remove_char "," (Pandas.cell_str c))) = true).
Proof.
  unfold _looks_like_numeric_series.
  set (keep := fun c => negb (Pandas.isna c)).
  set (ok := fun c => match_numeric _).
  assert (Hin : forall c, c ∈ List.filter keep series <->
                          c ∈ series /\ Pandas.isna c = false).
  { intros c. rewrite !list_elem_of_In, filter_In. unfold keep.
    by rewrite negb_true_iff. }
  destruct (List.filter keep series) as [|x l] eqn:E.
  - split; [discriminate|]. intros [(c & Hc & Hn) _].
    assert (H : c ∈ @nil cell) by (apply Hin; done). inversion H.
  - rewrite forallb_forall. split.
    + intros H. split.
      * exists x. apply Hin. left.
      * intros c Hc Hn. apply (H c). apply list_elem_of_In, Hin. done.
    + intros [_ H] c Hc. apply list_elem_of_In, Hin in Hc as [Hc Hn]. by apply H.
Qed.

Lemma to_numeric_str_cases s :
  match scan_numeric (c_rstrip (c_lstrip s)) with
  | None => to_numeric_str s = CNull
  | Some _ => is_numeric_cell (to_numeric_str s) = true
  end.
Proof.
  unfold to_numeric_str.
  destruct (scan_numeric _) as [[[neg ip] [fp|]]|]; try reflexivity.
  unfold Pandas.mk_float. by destruct (Pandas.norm_decimal _ _).
Qed.

Lemma to_numeric_series_dtype series :
  Pandas.is_number (fst (to_numeric_series series)) = true.
Proof. unfold to_numeric_series. by destruct (List.forallb _ _). Qed.

Lemma to_numeric_series_length series :
  length (snd (to_numeric_series series)) = length series.
Proof.
  unfold to_numeric_series. destruct (List.forallb _ _); simpl;
    by rewrite ?length_map.
Qed.

(** Cell by cell: a value the parser reads becomes a number, any other
    becomes null. *)
Lemma to_numeric_series_lookup series i c :
  series !! i = Some c ->
  exists c', snd (to_numeric_series series) !! i = Some c' /\
    match scan_numeric (c_rstrip (c_lstrip
                          (PyStr.remove_char "," (Pandas.cell_str c)))) with
    | None => c' = CNull
    | Some _ => is_numeric_cell c' = true
    end.
Proof.
  intros Hi. unfold to_numeric_series.
  pose proof (to_numeric_str_cases (PyStr.remove_char "," (Pandas.cell_str c))) as Hc.
  destruct (List.forallb _ _); simpl.
  - eexists. rewrite list_lookup_fmap, Hi. split; [reflexivity|].
    destruct (scan_numeric _); done.
  - eexists. rewrite !list_lookup_fmap, Hi. split; [reflexivity|].
    destruct (scan_numeric _); simpl.
    + by destruct (to_numeric_str _).
    + by rewrite Hc.
Qed.

Lemma column_at_length j df : length (Pandas.column_at j df) = length (rows df).
Proof. unfold Pandas.column_at. by rewrite length_map. Qed.

Lemma coerce_column_length df j d :
  length (snd (coerce_column df j d)) = length (rows df).
Proof.
  unfold coerce_column. destruct (_ && _); simpl.
  - by rewrite to_numeric_series_length, column_at_length.
  - apply column_at_length.
Qed.

Lemma coerce_columns_dtype df j d :
  dtypes df !! j = Some d ->
  dtypes (coerce_columns df) !! j = Some (fst (coerce_column df j d)).
Proof.
  intros H. unfold coerce_columns. simpl.
  by rewrite list_lookup_fmap, list_lookup_imap, H.
Qed.

Lemma coerce_columns_column df j d :
  dtypes df !! j = Some d ->
  Pandas.column_at j (coerce_columns df) = snd (coerce_column df j d).
Proof.
  intros H. apply list_eq. intros i.
  unfold Pandas.column_at, coerce_columns. simpl.
  rewrite list_lookup_fmap, list_lookup_imap.
  destruct (rows df !! i) as [r|] eqn:Hr; simpl.
  - rewrite nth_lookup, list_lookup_fmap, list_lookup_imap, H. simpl.
    rewrite nth_lookup.
    assert (Hlt : (i < length (snd (coerce_column df j d)))%nat).
    { rewrite coerce_column_length. by eapply lookup_lt_Some. }
    apply lookup_lt_is_Some in Hlt as [x Hx]. by rewrite Hx.
  - symmetry. apply lookup_ge_None. rewrite coerce_column_length.
    by apply lookup_ge_None.
Qed.

(** C7, as amended.  With [coerce_numeric_columns] enabled, a text column is
    converted to a numeric dtype if and only if it has at least one non-null
    value and every non-null value, commas removed and stripped, is an
    integer-or-decimal literal; in a converted column a value the parser
    cannot read is null and every other value is a number; a column that is
    not converted keeps its dtype and its cells. *)
Theorem coerce_numeric_characterised (df : DataFrame) (config : dict)
  (j : nat) (d : dtype) :
  flag "coerce_numeric_columns" true config = true ->
  dtypes df !! j = Some d ->
  let df' := _coerce_numeric_like_columns df config in
  let series := Pandas.column_at j df in
  let text c := PyStr.strip (PyStr.remove_char "," (Pandas.cell_str c)) in
  let converted :=
    d = DObject /\
    (exists c, c ∈ series /\ Pandas.isna c = false) /\
    (forall c, c ∈ series -> Pandas.isna c = false -> numeric_literal (text c)) in
  exists d',
    dtypes df' !! j = Some d' /\
    (d = DObject -> (Pandas.is_number d' = true <-> converted)) /\
    (converted ->
     forall i c, series !! i = Some c ->
       exists c', Pandas.column_at j df' !! i = Some c' /\
         match scan_numeric (c_rstrip (c_lstrip
                               (PyStr.remove_char "," (Pandas.cell_str c)))) with
         | None => c' = CNull
         | Some _ => is_numeric_cell c' = true
         end) /\
    (~ converted -> d' = d /\ Pandas.column_at j df' = series).
Proof.
  intros Hflag Hd df' series text converted.
  assert (Hconv : converted <->
            Pandas.is_object d && _looks_like_numeric_series series = true).
  { unfold converted. rewrite andb_true_iff, looks_like_numeric_spec.
    assert (Hobj : d = DObject <-> Pandas.is_object d = true)
      by (destruct d; simpl; split; congruence).
    rewrite Hobj. setoid_rewrite <- match_numeric_spec. reflexivity. }
  subst df'. unfold _coerce_numeric_like_columns. rewrite Hflag. simpl negb.
  cbv iota.
  exists (fst (coerce_column df j d)).
  rewrite (coerce_columns_column df j d Hd).
  split; [by apply coerce_columns_dtype|].
  unfold coerce_column. fold series.
  destruct (Pandas.is_object d && _looks_like_numeric_series series) eqn:E.
  - split; [|split].
    + intros _. rewrite to_numeric_series_dtype. by rewrite Hconv.
    + intros _ i c Hi. by apply to_numeric_series_lookup.
    + intros Hn. exfalso. apply Hn, Hconv. reflexivity.
  - simpl. split; [|split].
    + intros ->. rewrite Hconv. simpl. split; discriminate.
    + intros Hc. apply Hconv in Hc. discriminate.
    + done.
Qed.

Lemma coerce_numeric_characterised_witness :
  exists d',
    dtypes (_coerce_numeric_like_columns
              (mkDF ["x"; "y"] [DObject; DObject]
                    [ (0, [CStr " 1,250.50 "; CStr "a"]);
                      (1, [CNull; CStr "7"]) ]%nat)
              get_default_preprocess_config) !! 0%nat = Some d' /\
    Pandas.is_number d' = true.
Proof.
  destruct (coerce_numeric_characterised
              (mkDF ["x"; "y"] [DObject; DObject]
                    [ (0, [CStr " 1,250.50 "; CStr "a"]);
                      (1, [CNull; CStr "7"]) ]%nat)
              get_default_preprocess_config 0%nat DObject)
    as (d' & Hd & Hiff & _); [reflexivity | reflexivity |].
  exists d'. split; [exact Hd|].
  vm_compute in Hd. by inversion Hd.
Defined.

(** C7 as stated fails on a text column whose values are all null: every
    non-null value matches the pattern (there is none), yet the column is
    left as text. *)
Lemma coerce_all_null_counterexample :
  let df := mkDF ["x"] [DObject] [ (0, [CNull]); (1, [CNull]) ]%nat in
  let df' := _coerce_numeric_like_columns df get_default_preprocess_config in
  let text c := PyStr.strip (PyStr.remove_char "," (Pandas.cell_str c)) in
  flag "coerce_numeric_columns" true get_default_preprocess_config = true /\
  dtypes df !! 0%nat = Some DObject /\
  (forall c, c ∈ Pandas.column_at 0 df -> Pandas.isna c = false ->
             numeric_literal (text c)) /\
  dtypes df' !! 0%nat = Some DObject /\
  ~ (Pandas.is_number DObject = true <->
     (forall c, c ∈ Pandas.column_at 0 df -> Pandas.isna c = false ->
                numeric_literal (text c))).
Proof.
  intros df df' text.
  assert (Hall : forall c, c ∈ Pandas.column_at 0 df -> Pandas.isna c = false ->
                           numeric_literal (text c)).
  { intros c Hc Hn. vm_compute in Hc.
    apply list_elem_of_In in Hc. simpl in Hc.
    destruct Hc as [<-|[<-|[]]]; discriminate Hn. }
  split; [reflexivity|]. split; [reflexivity|]. split; [exact Hall|].
  split; [reflexivity|].
  intros [_ H]. specialize (H Hall). discriminate H.
Qed.

(** ** Sorting, duplicate removal and re-indexing *)

Lemma pystr_compare_antisym a b :
  PyStr.compare b a = CompOpp (PyStr.compare a b).
Proof.
  revert b; induction a as [|x a IH]; intros [|y b]; simpl; try reflexivity.
  rewrite (N.compare_antisym (PyStr.code x) (PyStr.code y)).
  destruct (PyStr.code x ?= PyStr.code y)%N; simpl; auto.
Qed.

Lemma pystr_compare_refl a : PyStr.compare a a = Eq.
Proof. induction a as [|x a IH]; simpl; [done|]. by rewrite N.compare_refl. Qed.

Lemma pystr_compare_eq a b : PyStr.compare a b = Eq -> a = b.
Proof.
  revert b; induction a as [|x a IH]; intros [|y b]; simpl; try done.
  destruct (PyStr.code x ?= PyStr.code y)%N eqn:E; try done.
  intros H. apply N.compare_eq in E. f_equal; [|by apply IH].
  unfold PyStr.code in E. rewrite <- (ascii_N_embedding x), <- (ascii_N_embedding y).
  by rewrite E.
Qed.

Lemma value_compare_antisym a b :
  Pandas.value_compare b a = CompOpp (Pandas.value_compare a b).
Proof.
  unfold Pandas.value_compare.
  destruct (Pandas.num_of a) as [x|] eqn:Ea, (Pandas.num_of b) as [y|] eqn:Eb;
    simpl; try reflexivity.
  - unfold Pandas.num_compare. apply Z.compare_antisym.
  - destruct a, b; try reflexivity; try discriminate.
    apply pystr_compare_antisym.
Qed.

Lemma cell_compare_antisym a b :
  Pandas.cell_compare b a = CompOpp (Pandas.cell_compare a b).
Proof.
  unfold Pandas.cell_compare.
  destruct (Pandas.isna a), (Pandas.isna b); simpl; try reflexivity.
  apply value_compare_antisym.
Qed.

Lemma cell_compare_refl a : Pandas.cell_compare a a = Eq.
Proof.
  unfold Pandas.cell_compare, Pandas.value_compare, Pandas.num_compare.
  destruct a; simpl; rewrite ?Z.compare_refl; try reflexivity.
  apply pystr_compare_refl.
Qed.

Lemma cells_compare_antisym a b :
  Pandas.cells_compare b a = CompOpp (Pandas.cells_compare a b).
Proof.
  revert b; induction a as [|x a IH]; intros [|y b]; simpl; try reflexivity.
  rewrite (cell_compare_antisym x y).
  destruct (Pandas.cell_compare x y); simpl; auto.
Qed.

Lemma cells_compare_refl a : Pandas.cells_compare a a = Eq.
Proof. induction a as [|x a IH]; simpl; [done|]. by rewrite cell_compare_refl. Qed.

Lemma row_leb_total a b : Pandas.row_leb a b = false -> Pandas.row_leb b a = true.
Proof.
  unfold Pandas.row_leb. rewrite (cells_compare_antisym (snd a) (snd b)).
  by destruct (Pandas.cells_compare (snd a) (snd b)).
Qed.

Lemma row_leb_same_cells a b : snd a = snd b -> Pandas.row_leb a b = true.
Proof. unfold Pandas.row_leb. intros ->. by rewrite cells_compare_refl. Qed.

Lemma insert_row_perm r l : Permutation (Pandas.insert_row r l) (r :: l).
Proof.
  induction l as [|x l IH]; simpl; [done|].
  destruct (Pandas.row_leb r x); [done|].
  rewrite IH. apply perm_swap.
Qed.

Lemma sort_rows_perm l : Permutation (Pandas.sort_rows l) l.
Proof.
  induction l as [|r l IH]; simpl; [done|].
  rewrite insert_row_perm. by constructor.
Qed.

Lemma insert_row_hdrel r a l :
  row_le a r -> HdRel row_le a l -> HdRel row_le a (Pandas.insert_row r l).
Proof.
  intros Har Hl. destruct l as [|x l]; simpl; [by constructor|].
  destruct (Pandas.row_leb r x); constructor; [done|].
  by inversion Hl.
Qed.

Lemma insert_row_sorted r l :
  Sorted row_le l -> Sorted row_le (Pandas.insert_row r l).
Proof.
  induction 1 as [|x l Hs IH Hhd]; simpl; [repeat constructor|].
  destruct (Pandas.row_leb r x) eqn:E.
  - constructor; [by constructor|]. by constructor.
  - constructor; [exact IH|]. apply insert_row_hdrel; [|done].
    by apply row_leb_total.
Qed.

Lemma sort_rows_sorted l : Sorted row_le (Pandas.sort_rows l).
Proof. induction l; simpl; [constructor | by apply insert_row_sorted]. Qed.

(** Stability: rows with the same cells keep their relative order. *)
Lemma insert_row_filter (cs : list cell) r l :
  List.filter (fun x => bool_decide (snd x = cs)) (Pandas.insert_row r l)
  = List.filter (fun x => bool_decide (snd x = cs)) (r :: l).
Proof.
  induction l as [|x l IH]; [done|].
  simpl Pandas.insert_row. destruct (Pandas.row_leb r x) eqn:E; [done|].
  simpl in *. rewrite IH.
  destruct (bool_decide (snd r = cs)) eqn:Er, (bool_decide (snd x = cs)) eqn:Ex;
    try reflexivity.
  apply bool_decide_eq_true in Er, Ex.
  rewrite row_leb_same_cells in E by congruence. discriminate.
Qed.

Lemma sort_rows_stable (cs : list cell) l :
  List.filter (fun x => bool_decide (snd x = cs)) (Pandas.sort_rows l)
  = List.filter (fun x => bool_decide (snd x = cs)) l.
Proof.
  induction l as [|r l IH]; [done|].
  simpl Pandas.sort_rows. rewrite insert_row_filter. simpl. by rewrite IH.
Qed.

(** Nulls sort last in every column. *)
Lemma cell_compare_null_last c :
  Pandas.isna c = false -> Pandas.cell_compare c CNull = Lt.
Proof. unfold Pandas.cell_compare. by intros ->. Qed.

Lemma dedup_rows_not_seen seen l r :
  r ∈ Pandas.dedup_rows seen l -> snd r ∉ seen.
Proof.
  revert seen; induction l as [|x l IH]; intros seen H; simpl in H.
  - inversion H.
  - destruct (bool_decide (snd x ∈ seen)) eqn:E.
    + by apply IH.
    + apply bool_decide_eq_false in E.
      apply elem_of_cons in H as [->|H]; [done|].
      apply IH in H. by apply not_elem_of_cons in H as [_ H].
Qed.

Lemma dedup_rows_nodup seen l : NoDup (map snd (Pandas.dedup_rows seen l)).
Proof.
  revert seen; induction l as [|x l IH]; intros seen; simpl; [constructor|].
  destruct (bool_decide (snd x ∈ seen)); [apply IH|].
  simpl. constructor; [|apply IH].
  intros Hin. apply list_elem_of_In, in_map_iff in Hin as (r & Hr & Hin).
  apply list_elem_of_In, dedup_rows_not_seen in Hin.
  apply Hin. rewrite Hr. left.
Qed.

Lemma dedup_rows_sublist seen l : sublist (Pandas.dedup_rows seen l) l.
Proof.
  revert seen; induction l as [|x l IH]; intros seen; simpl; [constructor|].
  destruct (bool_decide (snd x ∈ seen)).
  - by apply sublist_cons.
  - by apply sublist_skip.
Qed.

(** The row that is kept for given cells is the first one that has them. *)
Lemma dedup_rows_keeps_first seen l1 r l2 :
  snd r ∉ seen -> snd r ∉ map snd l1 ->
  r ∈ Pandas.dedup_rows seen (l1 ++ r :: l2).
Proof.
  revert seen; induction l1 as [|x l1 IH]; intros seen Hs Hl; simpl.
  - rewrite bool_decide_eq_false_2 by done. left.
  - simpl in Hl. apply not_elem_of_cons in Hl as [Hx Hl].
    destruct (bool_decide (snd x ∈ seen)).
    + by apply IH.
    + right. apply IH; [|done]. apply not_elem_of_cons. split; done.
Qed.

Lemma dedup_rows_complete seen l r :
  r ∈ l -> snd r ∈ seen \/ snd r ∈ map snd (Pandas.dedup_rows seen l).
Proof.
  revert seen; induction l as [|x l IH]; intros seen H; [inversion H|].
  simpl. destruct (bool_decide (snd x ∈ seen)) eqn:E.
  - apply bool_decide_eq_true in E.
    apply elem_of_cons in H as [->|H]; [by left | by apply IH].
  - apply elem_of_cons in H as [->|H]; [right; simpl; left|].
    destruct (IH (snd x :: seen) H) as [Hs|Hd].
    + apply elem_of_cons in Hs as [->|Hs]; [right; simpl; left | by left].
    + right. simpl. by right.
Qed.

Lemma reset_index_labels df :
  map fst (rows (Pandas.reset_index df)) = seq 0 (Pandas.len df).
Proof.
  unfold Pandas.reset_index, Pandas.len. simpl.
  generalize 0%nat. induction (rows df) as [|r l IH]; intros n; simpl; [done|].
  by rewrite IH.
Qed.

Lemma reset_index_cells df :
  map snd (rows (Pandas.reset_index df)) = map snd (rows df).
Proof.
  unfold Pandas.reset_index. simpl.
  generalize 0%nat. induction (rows df) as [|r l IH]; intros n; simpl; [done|].
  by rewrite IH.
Qed.

Lemma reset_index_len df : Pandas.len (Pandas.reset_index df) = Pandas.len df.
Proof.
  unfold Pandas.len. rewrite <- (length_map snd), reset_index_cells.
  apply length_map.
Qed.

Lemma sorted_relabel l : Sorted row_le l ->
  forall labels, Sorted row_le (combine labels (map snd l)).
Proof.
  induction 1 as [|x l Hs IH Hhd]; intros labels.
  - destruct labels; constructor.
  - destruct labels as [|n labels]; simpl; [constructor|].
    constructor; [apply IH|].
    destruct l as [|y l]; simpl; [destruct labels; constructor|].
    destruct labels as [|m labels]; constructor.
    inversion Hhd; subst. done.
Qed.

Lemma reset_index_sorted df :
  Sorted row_le (rows df) -> Sorted row_le (rows (Pandas.reset_index df)).
Proof. intros H. unfold Pandas.reset_index. simpl. by apply sorted_relabel. Qed.

(** ** The preprocessing pipeline *)

Lemma null_strategy_forced config s :
  py_str (Dict.get_default "null_strategy" (JStr "drop_any") config) = Some s ->
  PyStr.lower (PyStr.strip s) = "keep" ->
  flag "drop_nulls" true config = true ->
  null_strategy config = "drop_any".
Proof.
  intros Hs Hk Hf. unfold null_strategy. by rewrite Hs, Hk, Hf.
Qed.

Lemma sort_by_all_columns_cells df :
  Permutation (rows (sort_by_all_columns df)) (rows df).
Proof.
  unfold sort_by_all_columns. destruct (columns df); [done|].
  apply sort_rows_perm.
Qed.

Lemma sort_by_all_columns_sorted df :
  columns df <> [] -> Sorted row_le (rows (sort_by_all_columns df)).
Proof.
  unfold sort_by_all_columns. destruct (columns df); [done|].
  intros _. apply sort_rows_sorted.
Qed.

Lemma sort_stage_columns df config :
  columns (sort_stage df config) = columns df.
Proof.
  unfold sort_stage, sort_by_all_columns.
  destruct (flag "sort_rows" true config); [|done].
  by destruct (columns df) eqn:E.
Qed.

Lemma columns_stage_facts df config :
  let m := Dict.merge get_default_preprocess_config config in
  columns (drop_duplicates_stage
             (_apply_null_strategy
                (_coerce_numeric_like_columns
                   (cleanup_object_columns
                      (_normalize_unwanted_values (_normalize_columns df) m) m) m) m) m)
  = map (fun column => PyStr.lower (PyStr.strip column)) (columns df).
Proof.
  intros m.
  unfold drop_duplicates_stage, _apply_null_strategy, _coerce_numeric_like_columns,
    cleanup_object_columns, _normalize_unwanted_values, _normalize_columns.
  repeat (match goal with |- context [if ?b then _ else _] => destruct b end);
    reflexivity.
Qed.




(** ** The JSON codec: reading back what [json.dumps] wrote *)

Lemma json_induction (P : json -> Prop) :
  P JNull -> (forall b, P (JBool b)) -> (forall z, P (JInt z)) ->
  (forall s, P (JStr s)) ->
  (forall items, Forall P items -> P (JArr items)) ->
  (forall members, Forall (fun kv => P (snd kv)) members -> P (JObj members)) ->
  forall v, P v.
Proof.
  intros HN HB HI HS HA HO. fix IH 1. intros [ |b|z|s|items|members].
  - exact HN.
  - apply HB.
  - apply HI.
  - apply HS.
  - apply HA. induction items as [|x r IHr]; constructor; [apply IH | exact IHr].
  - apply HO. induction members as [|[k x] r IHr]; constructor;
      [apply IH | exact IHr].
Qed.

Lemma scan_string_escape_char c tail :
  Json.scan_string (Json.escape_char c ++ tail)
  = Json.cons_char c (Json.scan_string tail).
Proof. destruct c as [[] [] [] [] [] [] [] []]; reflexivity. Qed.

Lemma scan_string_escape s rest :
  Json.scan_string (Json.escape s ++ String Json.dquote rest) = Some (s, rest).
Proof.
  induction s as [|c r IH].
  - reflexivity.
  - simpl Json.escape. rewrite append_assoc, scan_string_escape_char, IH.
    reflexivity.
Qed.

Lemma scan_encode_basestring s rest :
  Json.after Json.dquote (Json.encode_basestring s ++ rest)
  = Some (Json.escape s ++ String Json.dquote rest)%string.
Proof.
  unfold Json.encode_basestring. rewrite append_cons. simpl Json.after.
  by rewrite append_assoc.
Qed.

Lemma string_of_uint_digits d :
  PyStr.forallb PyStr.isdigit (NilEmpty.string_of_uint d) = true.
Proof. induction d; simpl; auto. Qed.

Lemma to_uint_nonnil n : N.to_uint n <> Decimal.Nil.
Proof.
  destruct n as [|p]; [discriminate|]. apply DecimalPos.Unsigned.to_uint_nonnil.
Qed.

Lemma of_N_digits n : PyStr.forallb PyStr.isdigit (PyStr.of_N n) = true.
Proof.
  unfold PyStr.of_N, NilZero.string_of_uint.
  destruct (N.to_uint n) eqn:E; try apply string_of_uint_digits. reflexivity.
Qed.

Lemma of_N_nonempty n : PyStr.of_N n <> EmptyString.
Proof.
  unfold PyStr.of_N, NilZero.string_of_uint.
  destruct (N.to_uint n) eqn:E; discriminate.
Qed.

Lemma to_uint_unorm n : Decimal.unorm (N.to_uint n) = N.to_uint n.
Proof.
  rewrite <- (DecimalN.Unsigned.to_of (N.to_uint n)).
  by rewrite DecimalN.Unsigned.of_to.
Qed.

Lemma unorm_fixed_D0 d : Decimal.unorm (Decimal.D0 d) = Decimal.D0 d -> d = Decimal.Nil.
Proof.
  rewrite DecimalFacts.unorm_D0. intros H.
  assert (Hn : d = Decimal.Nil \/ d <> Decimal.Nil)
    by (destruct d; [left|right..]; congruence).
  destruct Hn as [|Hne]; [done|].
  pose proof (DecimalFacts.nb_digits_unorm d Hne) as Hle.
  rewrite H in Hle. simpl in Hle. lia.
Qed.

Lemma of_N_no_leading_zero n :
  PyStr.startswith (PyStr.of_N n) "0" && negb (String.eqb (PyStr.of_N n) "0")
  = false.
Proof.
  unfold PyStr.of_N. pose proof (to_uint_unorm n) as Hu.
  pose proof (to_uint_nonnil n) as Hn.
  destruct (N.to_uint n) as [|d|d|d|d|d|d|d|d|d|d]; try done.
  apply unorm_fixed_D0 in Hu. subst. reflexivity.
Qed.

Lemma of_N_value n :
  NilZero.uint_of_string (PyStr.of_N n) = Some (N.to_uint n).
Proof. unfold PyStr.of_N. apply NilZero.usu, to_uint_nonnil. Qed.

Lemma scan_number_of_N (neg : bool) n rest :
  number_end rest ->
  Json.scan_number ((if neg then "-" else EmptyString) ++ PyStr.of_N n ++ rest)%string
  = Some (if neg then (- Z.of_N n)%Z else Z.of_N n, rest).
Proof.
  intros [Hd Hf]. unfold Json.scan_number.
  pose proof (of_N_digits n) as Hdig. pose proof (of_N_nonempty n) as Hne.
  assert (Hs : span_digits (PyStr.of_N n ++ rest) = (PyStr.of_N n, rest))
    by by apply span_digits_app.
  assert (Hneg : PyStr.startswith
                   ((if neg then "-" else EmptyString) ++ PyStr.of_N n ++ rest)%string
                   "-" = neg).
  { destruct neg.
    { change ("-" ++ PyStr.of_N n ++ rest)%string
        with (String "-" (PyStr.of_N n ++ rest)).
      by rewrite startswith_cons, startswith_nil. }
    rewrite append_nil_l.
    destruct (PyStr.of_N n) as [|c r] eqn:E; [done|].
    simpl in Hdig. apply andb_prop in Hdig as [Hc _].
    rewrite append_cons. by apply startswith_dash_digit. }
  rewrite Hneg.
  assert (Hdrop : (if neg
                   then PyStr.drop 1 ((if neg then "-" else EmptyString)
                                      ++ PyStr.of_N n ++ rest)%string
                   else ((if neg then "-" else EmptyString)
                         ++ PyStr.of_N n ++ rest)%string)
                  = (PyStr.of_N n ++ rest)%string) by by destruct neg.
  rewrite Hdrop, Hs.
  apply String.eqb_neq in Hne. rewrite Hne, of_N_no_leading_zero, Hf, of_N_value.
  by rewrite DecimalN.Unsigned.of_to.
Qed.

Lemma scan_number_of_Z z rest :
  number_end rest ->
  Json.scan_number (PyStr.of_Z z ++ rest) = Some (z, rest).
Proof.
  intros H. unfold PyStr.of_Z. destruct (z <? 0)%Z eqn:E.
  - change (String "-" (PyStr.of_N (Z.abs_N z)) ++ rest)%string
      with ((if true then "-" else EmptyString) ++ PyStr.of_N (Z.abs_N z) ++ rest)%string.
    rewrite scan_number_of_N by done. do 2 f_equal. lia.
  - change (PyStr.of_N (Z.to_N z) ++ rest)%string
      with ((if false then "-" else EmptyString) ++ PyStr.of_N (Z.to_N z) ++ rest)%string.
    rewrite scan_number_of_N by done. do 2 f_equal. lia.
Qed.

Lemma skip_ws_head c r :
  Json.is_ws c = false -> Json.skip_ws (String c r) = String c r.
Proof. intros H. simpl. by rewrite H. Qed.

Lemma skip_ws_spaces k s :
  Json.skip_ws (Json.spaces k ++ s) = Json.skip_ws s.
Proof. induction k as [|k IH]; [done|]. simpl Json.spaces. by rewrite append_cons. Qed.

Lemma skip_ws_newline_indent level s :
  Json.skip_ws (Json.newline_indent Json.pretty level ++ s) = Json.skip_ws s.
Proof.
  unfold Json.newline_indent. simpl Json.indent. cbv iota.
  rewrite append_cons. simpl. apply skip_ws_spaces.
Qed.

Lemma value_head_facts c :
  value_head c = true ->
  Json.is_ws c = false /\ Ascii.eqb c "]" = false /\ Ascii.eqb c "}" = false /\
  Ascii.eqb c "," = false.
Proof. destruct c as [[] [] [] [] [] [] [] []]; vm_compute; intros; try done. Qed.

Lemma of_N_head n :
  exists c r, PyStr.of_N n = String c r /\ PyStr.isdigit c = true.
Proof.
  pose proof (of_N_digits n) as Hd. pose proof (of_N_nonempty n) as Hn.
  destruct (PyStr.of_N n) as [|c r]; [done|].
  simpl in Hd. apply andb_prop in Hd as [Hc _]. eauto.
Qed.

Lemma of_Z_head z :
  exists c r, PyStr.of_Z z = String c r /\
              (PyStr.isdigit c = true \/ c = "-"%char).
Proof.
  unfold PyStr.of_Z. destruct (z <? 0)%Z.
  - eauto.
  - destruct (of_N_head (Z.to_N z)) as (c & r & -> & Hc). eauto.
Qed.

Lemma bracket_nonempty st o c level p ps :
  Json.bracket st o c level (p :: ps)
  = (o ++ Json.newline_indent st (S level)
       ++ PyStr.join (Json.item_separator st ++ Json.newline_indent st (S level))
                     (p :: ps)
       ++ Json.newline_indent st level ++ c)%string.
Proof. reflexivity. Qed.

Lemma encode_head st level v :
  exists c r, Json.encode st level v = String c r /\ value_head c = true.
Proof.
  destruct v as [ |[]|z|s|items|members]; simpl Json.encode;
    try (eexists _, _; split; [reflexivity|reflexivity]).
  - destruct (of_Z_head z) as (c & r & -> & [Hc| ->]); eexists _, _;
      (split; [reflexivity|]); [|reflexivity].
    unfold value_head. by rewrite Hc.
  - destruct (map _ items); eexists _, _; split; reflexivity.
  - match goal with |- context [Json.bracket _ _ _ _ ?l] => destruct l end;
      eexists _, _; split; reflexivity.
Qed.

Lemma number_end_head c r :
  PyStr.isdigit c = false -> Json.starts_fraction (String c r) = false ->
  number_end (String c r).
Proof. intros H1 H2. split; [|done]. by intros ? ? [= <- _]. Qed.

Lemma number_end_empty : number_end EmptyString.
Proof. split; [discriminate | reflexivity]. Qed.

Lemma number_end_newline_indent level s :
  number_end (Json.newline_indent Json.pretty level ++ s).
Proof. by apply number_end_head. Qed.

Lemma unique_keys_fresh k l :
  existsb (String.eqb k) l = false <-> k ∉ l.
Proof.
  induction l as [|x l IH]; simpl.
  - split; [intros _ H; inversion H | done].
  - rewrite orb_false_iff, IH, not_elem_of_cons, String.eqb_neq. tauto.
Qed.

Lemma unique_keys_spec l : unique_keys l = true <-> NoDup l.
Proof.
  induction l as [|k l IH]; simpl.
  - split; [constructor | done].
  - rewrite andb_true_iff, negb_true_iff, unique_keys_fresh, IH, NoDup_cons. tauto.
Qed.

Lemma dict_set_fresh k v d :
  k ∉ map fst d -> Dict.set k v d = d ++ [(k, v)].
Proof.
  induction d as [|[k' v'] d IH]; simpl; [done|].
  intros [Hne Hd]%not_elem_of_cons.
  apply String.eqb_neq in Hne. rewrite Hne. by rewrite IH.
Qed.

Lemma dict_merge_unique acc m :
  NoDup (map fst acc ++ map fst m) -> Dict.merge acc m = acc ++ m.
Proof.
  unfold Dict.merge. revert acc; induction m as [|[k v] m IH]; intros acc H; simpl.
  - by rewrite app_nil_r.
  - rewrite dict_set_fresh.
    + rewrite IH; [by rewrite <- app_assoc|].
      rewrite map_app. simpl. by rewrite <- app_assoc.
    + simpl in H. apply NoDup_app in H as (_ & H & _).
      intros Hk. apply (H k Hk). left.
Qed.

Lemma dict_of_pairs_unique m :
  unique_keys (map fst m) = true -> Json.dict_of_pairs m = m.
Proof.
  intros H. unfold Json.dict_of_pairs. rewrite dict_merge_unique; [done|].
  simpl. by apply unique_keys_spec.
Qed.

Lemma scan_value_S f s :
  Json.scan_value (S f) s
  = match Json.after Json.dquote s, Json.after "[" s, Json.after "{" s with
    | Some r, _, _ =>
        match Json.scan_string r with
        | Some (t, r') => Some (JStr t, r')
        | None => None
        end
    | None, Some r, _ =>
        match Json.after "]" (Json.skip_ws r) with
        | Some r' => Some (JArr [], r')
        | None =>
            match Json.scan_items f (Json.skip_ws r) with
            | Some (items, r') => Some (JArr items, r')
            | None => None
            end
        end
    | None, None, Some r =>
        match Json.after "}" (Json.skip_ws r) with
        | Some r' => Some (JObj [], r')
        | None =>
            match Json.scan_members f (Json.skip_ws r) with
            | Some (pairs, r') => Some (JObj (Json.dict_of_pairs pairs), r')
            | None => None
            end
        end
    | None, None, None =>
        if PyStr.startswith s "null" then Some (JNull, PyStr.drop 4 s)
        else if PyStr.startswith s "true" then Some (JBool true, PyStr.drop 4 s)
        else if PyStr.startswith s "false" then Some (JBool false, PyStr.drop 5 s)
        else
          match Json.scan_number s with
          | Some (z, r') => Some (JInt z, r')
          | None => None
          end
    end.
Proof. reflexivity. Qed.

Lemma scan_items_S f s :
  Json.scan_items (S f) s
  = match Json.scan_value f s with
    | Some (v, r) =>
        match Json.after "]" (Json.skip_ws r), Json.after "," (Json.skip_ws r) with
        | Some r', _ => Some ([v], r')
        | None, Some r' =>
            match Json.scan_items f (Json.skip_ws r') with
            | Some (vs, r'') => Some (v :: vs, r'')
            | None => None
            end
        | None, None => None
        end
    | None => None
    end.
Proof. reflexivity. Qed.

Lemma scan_members_S f s :
  Json.scan_members (S f) s
  = match Json.after Json.dquote s with
    | Some r =>
        match Json.scan_string r with
        | Some (k, r1) =>
            match Json.after ":" (Json.skip_ws r1) with
            | Some r2 =>
                match Json.scan_value f (Json.skip_ws r2) with
                | Some (v, r3) =>
                    match Json.after "}" (Json.skip_ws r3),
                          Json.after "," (Json.skip_ws r3) with
                    | Some r4, _ => Some ([(k, v)], r4)
                    | None, Some r4 =>
                        match Json.scan_members f (Json.skip_ws r4) with
                        | Some (kvs, r5) => Some ((k, v) :: kvs, r5)
                        | None => None
                        end
                    | None, None => None
                    end
                | None => None
                end
            | None => None
            end
        | None => None
        end
    | None => None
    end.
Proof. reflexivity. Qed.


Lemma after_same c r : Json.after c (String c r) = Some r.
Proof. simpl. by rewrite Ascii.eqb_refl. Qed.

Lemma after_other c x r : Ascii.eqb x c = false -> Json.after c (String x r) = None.
Proof. intros H. simpl. by rewrite H. Qed.

Lemma join_one sep p : PyStr.join sep [p] = p.
Proof. reflexivity. Qed.

Lemma join_more sep p q r :
  PyStr.join sep (p :: q :: r) = (p ++ sep ++ PyStr.join sep (q :: r))%string.
Proof. reflexivity. Qed.

Lemma join_encode_head sep level x xs tail :
  exists c r,
    (PyStr.join sep (map (Json.encode Json.pretty level) (x :: xs)) ++ tail)%string
    = String c r /\ value_head c = true.
Proof.
  destruct (encode_head Json.pretty level x) as (c & r & E & H).
  destruct xs as [|y ys]; simpl map.
  - rewrite join_one, E. eauto.
  - rewrite join_more, E. eauto.
Qed.

Lemma scan_items_encode xs :
  Forall scans_back xs -> xs <> [] ->
  List.forallb well_formed xs = true ->
  forall level fuel rest,
    list_sum (map (fun x => S (jsize x)) xs) <= fuel ->
    Json.scan_items fuel
      (PyStr.join ("," ++ Json.newline_indent Json.pretty (S level))
                  (map (Json.encode Json.pretty (S level)) xs)
       ++ Json.newline_indent Json.pretty level ++ "]" ++ rest)%string
    = Some (xs, rest).
Proof.
  induction 1 as [|x xs Hx Hxs IH]; intros Hne Hwf level fuel rest Hfuel; [done|].
  simpl in Hwf. apply andb_prop in Hwf as [Hwx Hwxs].
  simpl in Hfuel. destruct fuel as [|f]; [lia|].
  rewrite scan_items_S.
  destruct xs as [|y ys].
  - simpl map. rewrite join_one.
    rewrite (Hx (S level) f) by (done || lia || apply number_end_newline_indent).
    rewrite skip_ws_newline_indent.
    change ("]" ++ rest)%string with (String "]" rest).
    rewrite skip_ws_head by done. by rewrite after_same.
  - simpl map. rewrite join_more.
    change (Json.encode Json.pretty (S level) y
            :: map (Json.encode Json.pretty (S level)) ys)
      with (map (Json.encode Json.pretty (S level)) (y :: ys)).
    rewrite !append_assoc.
    change ("," ++ ?t)%string with (String "," t).
    rewrite (Hx (S level) f) by (done || lia || by apply number_end_head).
    rewrite skip_ws_head by done.
    rewrite after_other by done. rewrite after_same.
    rewrite skip_ws_newline_indent.
    destruct (join_encode_head
                ("," ++ Json.newline_indent Json.pretty (S level))%string (S level) y ys
                (Json.newline_indent Json.pretty level ++ String "]" rest))
      as (c & r & E & Hc).
    apply value_head_facts in Hc as (Hws & _).
    change ("]" ++ rest)%string with (String "]" rest).
    rewrite E, skip_ws_head, <- E by done.
    change (String "]" rest) with ("]" ++ rest)%string.
    rewrite IH; [done | done | done |]. simpl in *. lia.
Qed.

Lemma encode_skip_ws st level v tail :
  Json.skip_ws (Json.encode st level v ++ tail)
  = (Json.encode st level v ++ tail)%string.
Proof.
  destruct (encode_head st level v) as (c & r & E & H).
  apply value_head_facts in H as (Hws & _).
  by rewrite E, append_cons, skip_ws_head.
Qed.

(** One member of an encoded object scans back to its key and value. *)
Lemma scan_member_encode k v level f tail :
  scans_back v -> well_formed v = true -> jsize v <= f -> number_end tail ->
  Json.after Json.dquote
    ((Json.encode_basestring k ++ ": " ++ Json.encode Json.pretty level v) ++ tail)
  = Some (Json.escape k
          ++ String Json.dquote (": " ++ Json.encode Json.pretty level v ++ tail))%string
  /\
  Json.scan_string
    (Json.escape k
     ++ String Json.dquote (": " ++ Json.encode Json.pretty level v ++ tail))
  = Some (k, (": " ++ Json.encode Json.pretty level v ++ tail)%string) /\
  Json.after ":" (Json.skip_ws (": " ++ Json.encode Json.pretty level v ++ tail))
  = Some (" " ++ Json.encode Json.pretty level v ++ tail)%string /\
  Json.scan_value f
    (Json.skip_ws (" " ++ Json.encode Json.pretty level v ++ tail))
  = Some (v, tail).
Proof.
  intros Hv Hw Hf Ht. split; [|split; [|split]].
  - rewrite !append_assoc. apply scan_encode_basestring.
  - apply scan_string_escape.
  - reflexivity.
  - change (" " ++ ?t)%string with (String " " t). simpl Json.skip_ws.
    rewrite encode_skip_ws. by apply Hv.
Qed.

Lemma scan_members_encode ms :
  Forall (fun kv => scans_back (snd kv)) ms -> ms <> [] ->
  List.forallb (fun kv => well_formed (snd kv)) ms = true ->
  forall level fuel rest,
    list_sum (map (fun kv => S (jsize (snd kv))) ms) <= fuel ->
    Json.scan_members fuel
      (PyStr.join ("," ++ Json.newline_indent Json.pretty (S level))
         (map (fun kv => (Json.encode_basestring (fst kv) ++ ": " ++ snd kv)%string)
              (map (fun kv => (fst kv, Json.encode Json.pretty (S level) (snd kv)))
                   ms))
       ++ Json.newline_indent Json.pretty level ++ "}" ++ rest)%string
    = Some (ms, rest).
Proof.
  induction 1 as [|[k v] ms Hv Hms IH]; intros Hne Hwf level fuel rest Hfuel; [done|].
  simpl in Hwf, Hv. apply andb_prop in Hwf as [Hwv Hwms].
  simpl in Hfuel. destruct fuel as [|f]; [lia|].
  rewrite scan_members_S.
  destruct ms as [|[k' v'] ms'].
  - simpl map. rewrite join_one.
    destruct (scan_member_encode k v (S level) f
                (Json.newline_indent Json.pretty level ++ "}" ++ rest)%string)
      as (E1 & E2 & E3 & E4);
      [done | done | lia | apply number_end_newline_indent |].
    simpl fst; simpl snd. rewrite E1, E2, E3, E4.
    rewrite skip_ws_newline_indent.
    change ("}" ++ rest)%string with (String "}" rest).
    rewrite skip_ws_head by done. by rewrite after_same.
  - simpl map. rewrite join_more.
    set (tl := PyStr.join _ (_ :: _)). simpl fst; simpl snd.
    rewrite (append_assoc _ _ (Json.newline_indent Json.pretty level ++ "}" ++ rest)).
    rewrite (append_assoc ("," ++ Json.newline_indent Json.pretty (S level))).
    change (("," ++ Json.newline_indent Json.pretty (S level)) ++ ?t)%string
      with (String "," (Json.newline_indent Json.pretty (S level) ++ t)).
    destruct (scan_member_encode k v (S level) f
                (String "," (Json.newline_indent Json.pretty (S level)
                   ++ tl ++ Json.newline_indent Json.pretty level ++ "}" ++ rest)))
      as (E1 & E2 & E3 & E4);
      [done | done | lia | by apply number_end_head |].
    rewrite E1, E2, E3, E4.
    rewrite skip_ws_head by done.
    rewrite after_other by done. rewrite after_same.
    rewrite skip_ws_newline_indent.
    assert (Hhead : exists r, (tl ++ Json.newline_indent Json.pretty level
                                  ++ "}" ++ rest)%string = String Json.dquote r).
    { subst tl. destruct ms' as [|kv ms''].
      - rewrite join_one. unfold Json.encode_basestring. eexists.
        rewrite !append_cons. reflexivity.
      - simpl map. rewrite join_more. unfold Json.encode_basestring. eexists.
        rewrite !append_cons. reflexivity. }
    destruct Hhead as [r E]. rewrite E, skip_ws_head, <- E by done.
    subst tl.
    assert (Hf' : list_sum (map (fun kv => S (jsize (snd kv))) ((k', v') :: ms')) <= f)
      by (simpl in *; lia).
    pose proof (IH ltac:(done) Hwms level f rest Hf') as IH'.
    simpl map in IH'. by rewrite IH'.
Qed.

Lemma after_head_none c x r :
  value_head x = true -> Ascii.eqb x c = false -> Json.after c (String x r) = None.
Proof. intros _. apply after_other. Qed.

Lemma scan_value_number fuel z rest :
  number_end rest -> 1 <= fuel ->
  Json.scan_value fuel (PyStr.of_Z z ++ rest) = Some (JInt z, rest).
Proof.
  intros Hr Hf. destruct fuel as [|f]; [lia|]. rewrite scan_value_S.
  pose proof (scan_number_of_Z z rest Hr) as Hn.
  destruct (of_Z_head z) as (c & r & E & Hc). rewrite E in *.
  rewrite append_cons in *.
  assert (Hcases : Ascii.eqb c Json.dquote = false /\ Ascii.eqb c "[" = false /\
                   Ascii.eqb c "{" = false /\ Ascii.eqb "n" c = false /\
                   Ascii.eqb "t" c = false /\ Ascii.eqb "f" c = false).
  { destruct Hc as [Hc| ->]; [|by vm_compute].
    revert Hc. destruct c as [[] [] [] [] [] [] [] []]; vm_compute; intros; try done. }
  destruct Hcases as (H1 & H2 & H3 & H4 & H5 & H6).
  rewrite !after_other by done.
  rewrite !startswith_cons, H4, H5, H6. simpl. by rewrite Hn.
Qed.

(** Every well-formed value is read back from its pretty encoding. *)
Lemma scan_encode v : scans_back v.
Proof.
  induction v as [ |b|z|s|items IH|members IH] using json_induction;
    intros level fuel rest Hwf Hfuel Hrest.
  - destruct fuel as [|f]; [simpl in Hfuel; lia|]. rewrite scan_value_S.
    simpl Json.encode. change ("null" ++ rest)%string
      with (String "n" (String "u" (String "l" (String "l" rest)))).
    rewrite !after_other by done. rewrite !startswith_cons, !startswith_nil.
    reflexivity.
  - destruct fuel as [|f]; [simpl in Hfuel; lia|]. rewrite scan_value_S.
    destruct b; simpl Json.encode.
    + change ("true" ++ rest)%string
        with (String "t" (String "r" (String "u" (String "e" rest)))).
      rewrite !after_other by done. rewrite !startswith_cons, !startswith_nil.
      reflexivity.
    + change ("false" ++ rest)%string
        with (String "f" (String "a" (String "l" (String "s" (String "e" rest))))).
      rewrite !after_other by done. rewrite !startswith_cons, !startswith_nil.
      reflexivity.
  - simpl Json.encode. apply scan_value_number; [done | simpl in Hfuel; lia].
  - destruct fuel as [|f]; [simpl in Hfuel; lia|]. rewrite scan_value_S.
    simpl Json.encode. rewrite scan_encode_basestring, scan_string_escape.
    reflexivity.
  - simpl in Hwf, Hfuel. destruct fuel as [|f]; [lia|]. rewrite scan_value_S.
    simpl Json.encode. destruct items as [|x xs].
    + simpl. reflexivity.
    + change (map (Json.encode Json.pretty (S level)) (x :: xs))
        with (Json.encode Json.pretty (S level) x
              :: map (Json.encode Json.pretty (S level)) xs).
      rewrite bracket_nonempty.
      change (Json.encode Json.pretty (S level) x
              :: map (Json.encode Json.pretty (S level)) xs)
        with (map (Json.encode Json.pretty (S level)) (x :: xs)).
      simpl Json.item_separator.
      rewrite !append_assoc.
      change ("[" ++ ?t)%string with (String "[" t).
      rewrite after_other by done. rewrite after_same.
      rewrite skip_ws_newline_indent.
      destruct (join_encode_head
                  ("," ++ Json.newline_indent Json.pretty (S level))%string
                  (S level) x xs
                  (Json.newline_indent Json.pretty level ++ "]" ++ rest)%string)
        as (c & r & E & Hc).
      apply value_head_facts in Hc as (Hws & Hb & _).
      rewrite E, skip_ws_head, after_other, <- E by done.
      rewrite scan_items_encode; [done | done | done | done | lia].
  - simpl in Hwf, Hfuel. apply andb_prop in Hwf as [Hkeys Hwf].
    destruct fuel as [|f]; [lia|]. rewrite scan_value_S.
    simpl Json.encode. destruct members as [|[k x] ms].
    + simpl. reflexivity.
    + simpl map. rewrite bracket_nonempty.
      simpl Json.item_separator. simpl Json.key_separator.
      rewrite !append_assoc.
      change ("{" ++ ?t)%string with (String "{" t).
      rewrite !after_other by done. rewrite after_same.
      rewrite skip_ws_newline_indent.
      pose proof (scan_members_encode ((k, x) :: ms) IH ltac:(done) Hwf
                    level f rest ltac:(simpl in *; lia)) as Hm.
      simpl map in Hm.
      match type of Hm with
      | Json.scan_members _ ?s = _ =>
          assert (Hhead : exists r, s = String Json.dquote r)
      end.
      { unfold Json.encode_basestring. destruct ms as [|kv ms'].
        - rewrite join_one. eexists. rewrite !append_cons. reflexivity.
        - simpl map. rewrite join_more. eexists. rewrite !append_cons. reflexivity. }
      destruct Hhead as [r E].
      rewrite E in Hm. rewrite E, skip_ws_head, after_other by done.
      rewrite Hm. by rewrite dict_of_pairs_unique.
Qed.

Lemma length_append (a b : string) :
  String.length (a ++ b) = String.length a + String.length b.
Proof. induction a as [|c a IH]; [done|]. rewrite append_cons. simpl. by rewrite IH. Qed.

Lemma join_length sep parts :
  1 <= String.length sep ->
  list_sum (map (fun p => S (String.length p)) parts)
  <= S (String.length (PyStr.join sep parts)).
Proof.
  intros Hsep. induction parts as [|p [|q r] IH].
  - simpl. lia.
  - simpl. lia.
  - rewrite join_more, !length_append.
    change (list_sum (map (fun p => S (String.length p)) (p :: q :: r)))
      with (S (String.length p)
            + list_sum (map (fun p => S (String.length p)) (q :: r))).
    lia.
Qed.

Lemma list_sum_le {A} (f g : A -> nat) l :
  Forall (fun x => f x <= g x) l -> list_sum (map f l) <= list_sum (map g l).
Proof. induction 1; simpl; lia. Qed.

Lemma bracket_length st o c level parts :
  1 <= String.length (Json.item_separator st) ->
  String.length o = 1 -> String.length c = 1 ->
  list_sum (map (fun p => S (String.length p)) parts)
  < String.length (Json.bracket st o c level parts).
Proof.
  intros Hsep Ho Hc. destruct parts as [|p ps].
  - simpl. rewrite length_append. lia.
  - rewrite bracket_nonempty, !length_append.
    pose proof (join_length
                  (Json.item_separator st ++ Json.newline_indent st (S level))
                  (p :: ps)) as H.
    rewrite length_append in H. lia.
Qed.

(** The fuel [json.loads] starts with covers the encoding of any value. *)
Lemma jsize_le_length level v :
  jsize v <= String.length (Json.encode Json.pretty level v).
Proof.
  revert level.
  induction v as [ |b|z|s|items IH|members IH] using json_induction; intros level.
  - simpl. lia.
  - destruct b; simpl; lia.
  - simpl. destruct (of_Z_head z) as (c & r & -> & _). simpl. lia.
  - simpl. lia.
  - simpl jsize. simpl Json.encode.
    pose proof (bracket_length Json.pretty "[" "]" level
                  (map (Json.encode Json.pretty (S level)) items)) as H.
    rewrite map_map in H.
    assert (Hle : list_sum (map (fun x => S (jsize x)) items)
                  <= list_sum (map (fun x => S (String.length
                            (Json.encode Json.pretty (S level) x))) items)).
    { apply list_sum_le. eapply Forall_impl; [exact IH|].
      intros x Hx. simpl. specialize (Hx (S level)). lia. }
    simpl in H. lia.
  - simpl jsize. simpl Json.encode.
    match goal with
    | |- _ <= String.length (Json.bracket _ _ _ _ ?parts) =>
        pose proof (bracket_length Json.pretty "{" "}" level parts) as H
    end.
    rewrite !map_map in H.
    assert (Hle : list_sum (map (fun kv => S (jsize (snd kv))) members)
                  <= list_sum (map (fun kv => S (String.length
                       (Json.encode_basestring (fst kv) ++ ": "
                        ++ Json.encode Json.pretty (S level) (snd kv)))) members)).
    { apply list_sum_le. eapply Forall_impl; [exact IH|].
      intros kv Hx. simpl. specialize (Hx (S level)).
      rewrite !length_append. lia. }
    rewrite map_map. cbn beta iota delta [fst snd] in H |- *.
    specialize (H ltac:(simpl; lia) eq_refl eq_refl). lia.
Qed.

(** [json.loads(json.dumps(v, ensure_ascii=False, indent=2)) == v] *)
Lemma loads_dumps v :
  well_formed v = true -> Json.loads (Json.dumps Json.pretty v) = Some v.
Proof.
  intros Hwf. unfold Json.loads, Json.dumps.
  rewrite <- (append_nil_r (Json.encode Json.pretty 0 v)).
  rewrite encode_skip_ws.
  rewrite scan_encode; [reflexivity | done | | apply number_end_empty].
  rewrite append_nil_r. pose proof (jsize_le_length 0 v). lia.
Qed.

Lemma dict_set_keys k v d :
  map fst (Dict.set k v d)
  = if bool_decide (k ∈ map fst d) then map fst d else map fst d ++ [k].
Proof.
  induction d as [|[k' v'] d IH]; simpl; [done|].
  destruct (String.eqb k k') eqn:E.
  - apply String.eqb_eq in E as ->. rewrite bool_decide_eq_true_2; [done|left].
  - apply String.eqb_neq in E. simpl. rewrite IH.
    destruct (bool_decide (k ∈ map fst d)) eqn:Hd.
    + apply bool_decide_eq_true in Hd.
      rewrite bool_decide_eq_true_2; [done | by right].
    + apply bool_decide_eq_false in Hd.
      rewrite bool_decide_eq_false_2; [done|].
      by intros [?|?]%elem_of_cons.
Qed.

Lemma dict_set_nodup k v d :
  NoDup (map fst d) -> NoDup (map fst (Dict.set k v d)).
Proof.
  intros H. rewrite dict_set_keys. case_bool_decide; [done|].
  apply NoDup_app. split; [done|]. split; [|apply NoDup_singleton].
  intros x Hx ->%list_elem_of_singleton. done.
Qed.

Lemma dict_set_values (P : json -> bool) k v d :
  List.forallb (fun kv => P (snd kv)) d = true -> P v = true ->
  List.forallb (fun kv => P (snd kv)) (Dict.set k v d) = true.
Proof.
  intros Hd Hv. induction d as [|[k' v'] d IH]; simpl in *.
  - by rewrite Hv.
  - apply andb_prop in Hd as [H1 H2].
    destruct (String.eqb k k'); simpl; rewrite ?Hv, ?H1, ?H2, ?IH; done.
Qed.

Lemma dict_merge_wf acc m :
  NoDup (map fst acc) ->
  List.forallb (fun kv => well_formed (snd kv)) acc = true ->
  List.forallb (fun kv => well_formed (snd kv)) m = true ->
  NoDup (map fst (Dict.merge acc m)) /\
  List.forallb (fun kv => well_formed (snd kv)) (Dict.merge acc m) = true.
Proof.
  unfold Dict.merge. revert acc.
  induction m as [|[k v] m IH]; intros acc Hn Ha Hm; simpl in *; [done|].
  apply andb_prop in Hm as [Hv Hm].
  apply IH; [by apply dict_set_nodup | by apply dict_set_values | done].
Qed.

Lemma dict_of_pairs_wf m :
  List.forallb (fun kv => well_formed (snd kv)) m = true ->
  well_formed (JObj (Json.dict_of_pairs m)) = true.
Proof.
  intros H. destruct (dict_merge_wf [] m) as [Hn Hv]; [constructor | done | done |].
  simpl. apply andb_true_intro. split; [by apply unique_keys_spec | exact Hv].
Qed.

(** Whatever the scanner returns is well formed. *)
Lemma scan_well_formed f :
  (forall s v r, Json.scan_value f s = Some (v, r) -> well_formed v = true) /\
  (forall s vs r, Json.scan_items f s = Some (vs, r) ->
                  List.forallb well_formed vs = true) /\
  (forall s kvs r, Json.scan_members f s = Some (kvs, r) ->
                   List.forallb (fun kv => well_formed (snd kv)) kvs = true).
Proof.
  induction f as [|f (IHv & IHi & IHm)]; [by repeat split|].
  split; [|split].
  - intros s v r. rewrite scan_value_S. intros H.
    repeat case_match; simplify_eq; try reflexivity.
    + simpl. eapply IHi. eassumption.
    + apply dict_of_pairs_wf. eapply IHm. eassumption.
  - intros s vs r. rewrite scan_items_S. intros H.
    repeat case_match; simplify_eq; simpl.
    + erewrite IHv by eassumption. reflexivity.
    + erewrite IHv, IHi by eassumption. reflexivity.
  - intros s kvs r. rewrite scan_members_S. intros H.
    repeat case_match; simplify_eq; simpl.
    + erewrite IHv by eassumption. reflexivity.
    + erewrite IHv, IHm by eassumption. reflexivity.
Qed.

Lemma loads_well_formed s v : Json.loads s = Some v -> well_formed v = true.
Proof.
  unfold Json.loads. intros H. repeat case_match; simplify_eq.
  eapply (scan_well_formed _). eassumption.
Qed.

(** ** The repository store *)

Lemma lstrip_head c r :
  PyStr.isspace c = false -> PyStr.lstrip (String c r) = String c r.
Proof. intros H. simpl. by rewrite H. Qed.

Lemma rstrip_keep x r a b :
  PyStr.rstrip r = String a b -> PyStr.rstrip (String x r) = String x (String a b).
Proof. intros H. simpl. by rewrite H. Qed.

Lemma rstrip_last s c :
  PyStr.isspace c = false ->
  PyStr.rstrip (s ++ String c EmptyString) = (s ++ String c EmptyString)%string.
Proof.
  intros Hc. induction s as [|x s IH].
  - rewrite append_nil_l. simpl. by rewrite Hc.
  - rewrite append_cons. destruct (s ++ String c EmptyString)%string as [|a b] eqn:E.
    + destruct s; discriminate.
    + by apply rstrip_keep.
Qed.

Lemma rstrip_app_space s c :
  PyStr.isspace c = true ->
  PyStr.rstrip (s ++ String c EmptyString) = PyStr.rstrip s.
Proof.
  intros Hc. induction s as [|x s IH].
  - rewrite append_nil_l. simpl. by rewrite Hc.
  - rewrite append_cons. simpl. by rewrite IH.
Qed.

(** A text with no white space at either end, followed by a newline,
    strips to itself. *)
Lemma strip_line a mid z :
  PyStr.isspace a = false -> PyStr.isspace z = false ->
  PyStr.strip (String a (mid ++ String z EmptyString) ++ String Json.newline EmptyString)
  = String a (mid ++ String z EmptyString).
Proof.
  intros Ha Hz. unfold PyStr.strip. rewrite append_cons, lstrip_head by done.
  rewrite <- append_cons, rstrip_app_space by done.
  change (String a (mid ++ String z EmptyString))
    with (String a mid ++ String z EmptyString)%string.
  by apply rstrip_last.
Qed.

Lemma bracket_shape st o c level parts :
  exists mid, Json.bracket st (String o EmptyString) (String c EmptyString) level parts
              = String o (mid ++ String c EmptyString).
Proof.
  destruct parts as [|p ps].
  - exists EmptyString. reflexivity.
  - rewrite bracket_nonempty. eexists.
    rewrite append_cons, append_nil_l.
    rewrite <- !append_assoc. reflexivity.
Qed.

Lemma dumps_array_strip items :
  PyStr.strip (Json.dumps Json.pretty (JArr items) ++ String Json.newline EmptyString)
  = Json.dumps Json.pretty (JArr items) /\
  String.eqb (Json.dumps Json.pretty (JArr items)) EmptyString = false.
Proof.
  unfold Json.dumps. simpl Json.encode.
  destruct (bracket_shape Json.pretty "[" "]" 0
              (map (Json.encode Json.pretty 1) items)) as [mid E].
  rewrite E. split; [by apply strip_line | reflexivity].
Qed.

(** [json.loads] accepts the trailing newline that the program writes. *)
Lemma loads_dumps_line v :
  well_formed v = true ->
  Json.loads (Json.dumps Json.pretty v ++ String Json.newline EmptyString) = Some v.
Proof.
  intros Hwf. unfold Json.loads, Json.dumps.
  rewrite encode_skip_ws.
  rewrite scan_encode; [reflexivity | done | | by apply number_end_head].
  rewrite length_append. pose proof (jsize_le_length 0 v). lia.
Qed.

Lemma read_logs_text repo text :
  logs_file repo = Some text -> read_logs repo = Ok (events_of_text text).
Proof.
  intros H. unfold read_logs, events_of_text. rewrite H. simpl.
  destruct (String.eqb (PyStr.strip text) EmptyString) eqn:E.
  - apply String.eqb_eq in E. by rewrite E.
  - by repeat case_match.
Qed.

Lemma events_of_text_wf text :
  List.forallb well_formed (events_of_text text) = true.
Proof.
  unfold events_of_text. destruct (Json.loads _) as [v|] eqn:E; [|done].
  apply loads_well_formed in E. by destruct v.
Qed.

Lemma events_of_dumps items :
  List.forallb well_formed items = true ->
  events_of_text (Json.dumps Json.pretty (JArr items)
                  ++ String Json.newline EmptyString) = items.
Proof.
  intros Hwf. unfold events_of_text.
  destruct (dumps_array_strip items) as [-> _].
  by rewrite loads_dumps.
Qed.






(** ** The commit engine *)

Lemma hex_digit_not_space d :
  (d < 16)%N -> PyStr.isspace (Sha256.hex_digit d) = false.
Proof.
  intros H. rewrite <- (N2Nat.id d).
  assert (Hn : N.to_nat d < 16) by lia.
  revert Hn. generalize (N.to_nat d). intros n Hn.
  do 16 (destruct n as [|n]; [reflexivity|]). lia.
Qed.

Lemma hex_word_shape x :
  exists a mid z,
    Sha256.hex_word x = String a (mid ++ String z EmptyString) /\
    PyStr.isspace a = false /\ PyStr.isspace z = false /\
    String.length (Sha256.hex_word x) = 8.
Proof.
  unfold Sha256.hex_word. simpl map. simpl string_of_list_ascii.
  eexists _, (String _ (String _ (String _ (String _ (String _ (String _ EmptyString)))))), _.
  split; [reflexivity|].
  split; [|split; [|reflexivity]]; apply hex_digit_not_space;
    apply N.mod_upper_bound; done.
Qed.

(** A digest is 64 characters, none of them white space at either end. *)
Lemma hexdigest_shape msg :
  exists a mid z,
    Sha256.hexdigest msg = String a (mid ++ String z EmptyString) /\
    PyStr.isspace a = false /\ PyStr.isspace z = false /\
    String.length (Sha256.hexdigest msg) = 64.
Proof.
  unfold Sha256.hexdigest. set (s := Sha256.digest_state msg).
  destruct (hex_word_shape (Sha256.ha s)) as (a & m1 & z1 & E1 & Ha & _ & L1).
  destruct (hex_word_shape (Sha256.hh s)) as (a8 & m8 & z & E8 & _ & Hz & L8).
  pose proof (hex_word_shape (Sha256.hb s)) as (? & ? & ? & _ & _ & _ & L2).
  pose proof (hex_word_shape (Sha256.hc s)) as (? & ? & ? & _ & _ & _ & L3).
  pose proof (hex_word_shape (Sha256.hd s)) as (? & ? & ? & _ & _ & _ & L4).
  pose proof (hex_word_shape (Sha256.he s)) as (? & ? & ? & _ & _ & _ & L5).
  pose proof (hex_word_shape (Sha256.hf s)) as (? & ? & ? & _ & _ & _ & L6).
  pose proof (hex_word_shape (Sha256.hg s)) as (? & ? & ? & _ & _ & _ & L7).
  exists a. eexists. exists z. split; [|split; [done|split; [done|]]].
  - rewrite E1, E8. rewrite append_cons.
    change (String a8 (m8 ++ String z EmptyString))
      with (String a8 m8 ++ String z EmptyString)%string.
    rewrite <- !append_assoc. reflexivity.
  - rewrite !length_append. lia.
Qed.

Lemma strip_hexdigest_line msg :
  PyStr.strip (Sha256.hexdigest msg ++ String Json.newline EmptyString)
  = Sha256.hexdigest msg.
Proof.
  destruct (hexdigest_shape msg) as (a & mid & z & -> & Ha & Hz & _).
  by apply strip_line.
Qed.

Lemma hexdigest_not_sentinel msg :
  bool_decide (Sha256.hexdigest msg ∈ [EmptyString; "null"; "None"]) = false.
Proof.
  apply bool_decide_eq_false. intros H.
  destruct (hexdigest_shape msg) as (_ & _ & _ & _ & _ & _ & L).
  repeat (apply elem_of_cons in H as [H|H]; [rewrite H in L; discriminate L|]).
  inversion H.
Qed.

(** After [set_head] with a digest, [get_head] returns that digest. *)
Lemma get_head_set_head repo msg :
  get_head (set_head repo (Sha256.hexdigest msg)) = Ok (Some (Sha256.hexdigest msg)).
Proof.
  unfold get_head, set_head, with_head.
  cbn [read_text head_file mbind result_bind].
  by rewrite strip_hexdigest_line, hexdigest_not_sentinel.
Qed.

Lemma initialized_files repo :
  _ensure_initialized repo = Ok tt ->
  exists h text, head_file repo = Some h /\ logs_file repo = Some text.
Proof.
  unfold _ensure_initialized. intros H.
  destruct (head_file repo), (logs_file repo), (meta_file repo); try discriminate.
  eauto.
Qed.

Lemma get_head_ok repo h :
  head_file repo = Some h -> exists p, get_head repo = Ok p.
Proof. intros H. unfold get_head. rewrite H. simpl. case_match; eauto. Qed.

Lemma get_head_inv repo p :
  get_head repo = Ok p -> exists h, head_file repo = Some h.
Proof. unfold get_head. destruct (head_file repo); [eauto | discriminate]. Qed.

Lemma get_head_same repo repo' :
  head_file repo' = head_file repo -> get_head repo' = get_head repo.
Proof. unfold get_head. by intros ->. Qed.

Lemma append_log_ok repo text record :
  logs_file repo = Some text ->
  append_log repo record
  = Ok (with_logs repo
          (Json.dumps Json.pretty (JArr (events_of_text text ++ [record]))
           ++ String Json.newline EmptyString)).
Proof. intros H. unfold append_log. by rewrite (read_logs_text _ _ H). Qed.

Lemma append_log_inv repo record repo' :
  append_log repo record = Ok repo' ->
  exists text, logs_file repo = Some text /\
    repo' = with_logs repo
              (Json.dumps Json.pretty (JArr (events_of_text text ++ [record]))
               ++ String Json.newline EmptyString).
Proof.
  intros H. destruct (logs_file repo) as [text|] eqn:E.
  - rewrite (append_log_ok _ _ _ E) in H. inversion H. eauto.
  - unfold append_log, read_logs in H. rewrite E in H. discriminate.
Qed.

Lemma read_logs_after_append repo text record :
  well_formed record = true ->
  read_logs (with_logs repo
               (Json.dumps Json.pretty (JArr (events_of_text text ++ [record]))
                ++ String Json.newline EmptyString))
  = Ok (events_of_text text ++ [record]).
Proof.
  intros Hwf. erewrite read_logs_text by reflexivity.
  rewrite events_of_dumps; [done|].
  rewrite forallb_app, events_of_text_wf. simpl. by rewrite Hwf.
Qed.

Lemma dedupe_event_wf ts sd sc ih ch vh :
  well_formed (dedupe_event ts sd sc ih ch vh) = true.
Proof. reflexivity. Qed.

(** The two outcomes of [_persist_version]. *)
Lemma persist_duplicate repo sd sc ib raw processed cfg msg now p text :
  get_head repo = Ok p -> logs_file repo = Some text ->
  version_exists repo (sha256_from_bytes (dataframe_to_stable_csv_bytes processed))
  = true ->
  _persist_version repo sd sc ib raw processed cfg msg now
  = Ok ([ ("status", JStr "duplicate");
          ("version_id",
           JStr (sha256_from_bytes (dataframe_to_stable_csv_bytes processed)));
          ("head", json_of_option p);
          ("message", JStr "Identical processed output already committed.") ],
        with_logs repo
          (Json.dumps Json.pretty
             (JArr (events_of_text text ++
                    [dedupe_event now sd sc (sha256_from_bytes ib)
                       (sha256_from_json cfg)
                       (sha256_from_bytes (dataframe_to_stable_csv_bytes processed))]))
           ++ String Json.newline EmptyString)).
Proof.
  intros Hh Hl Hex. unfold _persist_version. cbv zeta.
  rewrite Hh. cbn [mbind result_bind].
  rewrite Hex. rewrite (append_log_ok _ _ _ Hl). cbn [mbind result_bind].
  rewrite (get_head_same repo (with_logs repo _) eq_refl), Hh. reflexivity.
Qed.

Lemma persist_created repo sd sc ib raw processed cfg msg now p text :
  get_head repo = Ok p -> logs_file repo = Some text ->
  version_exists repo (sha256_from_bytes (dataframe_to_stable_csv_bytes processed))
  = false ->
  let vh := sha256_from_bytes (dataframe_to_stable_csv_bytes processed) in
  let meta := commit_metadata (created_record sd sc ib processed cfg msg now p)
                raw processed in
  _persist_version repo sd sc ib raw processed cfg msg now
  = Ok ([ ("status", JStr "created");
          ("version_id", JStr vh);
          ("parent_id", json_of_option p);
          ("head", JStr vh);
          ("rows_before", json_of_nat (Pandas.len raw));
          ("rows_after", json_of_nat (Pandas.len processed));
          ("version_path", JStr (Path.join (versions_root repo) vh));
          ("metadata_path",
           JStr (Path.join (Path.join (versions_root repo) vh) "metadata.json")) ],
        set_head
          (with_logs (created_store repo sd ib raw processed cfg meta)
             (Json.dumps Json.pretty (JArr (events_of_text text ++ [JObj meta]))
              ++ String Json.newline EmptyString))
          vh).
Proof.
  intros Hh Hl Hex vh meta. unfold _persist_version. cbv zeta.
  rewrite Hh. cbn [mbind result_bind]. rewrite Hex. fold vh.
  change (commit_metadata _ raw processed) with meta.
  assert (Hl' : logs_file (created_store repo sd ib raw processed cfg meta)
                = Some text).
  { unfold created_store. by destruct (archives sd). }
  unfold created_store in Hl'. fold vh in Hl'.
  rewrite (append_log_ok _ _ _ Hl'). reflexivity.
Qed.

Lemma fold_left_set_merge {A} (f : A -> string * json) l acc :
  fold_left (fun d x => Dict.set (fst (f x)) (snd (f x)) d) l acc
  = Dict.merge acc (map f l).
Proof.
  unfold Dict.merge. revert acc. induction l as [|x l IH]; intros acc; simpl; [done|].
  by rewrite IH.
Qed.

Lemma label_distribution_merge processed j :
  Pandas.index_of "label" (columns processed) = Some j ->
  _label_distribution processed
  = Dict.merge []
      (map (fun kv => (Pandas.cell_str (fst kv), json_of_nat (snd kv)))
           (value_counts (Pandas.column_at j processed))).
Proof.
  intros H. unfold _label_distribution. rewrite H.
  by rewrite <- (fold_left_set_merge
                   (fun kv => (Pandas.cell_str (fst kv), json_of_nat (snd kv)))).
Qed.

Lemma label_distribution_wf processed :
  well_formed (JObj (_label_distribution processed)) = true.
Proof.
  destruct (Pandas.index_of "label" (columns processed)) as [j|] eqn:E.
  - rewrite (label_distribution_merge _ _ E).
    destruct (dict_merge_wf []
                (map (fun kv => (Pandas.cell_str (fst kv), json_of_nat (snd kv)))
                     (value_counts (Pandas.column_at j processed))))
      as [Hn Hv]; [constructor | done | |].
    + by induction (value_counts _) as [|x l IH].
    + simpl. apply andb_true_intro. split; [by apply unique_keys_spec | done].
  - unfold _label_distribution. by rewrite E.
Qed.

Lemma map_JStr_wf l : List.forallb well_formed (map JStr l) = true.
Proof. by induction l. Qed.

Lemma commit_metadata_wf record raw processed :
  well_formed (JObj (label_distribution record)) = true ->
  eval_metrics record = None ->
  well_formed (JObj (commit_metadata record raw processed)) = true.
Proof.
  intros Hl He. unfold commit_metadata, to_dict. rewrite He.
  simpl in Hl |- *. rewrite !map_JStr_wf, Hl.
  by destruct (archives (source_data_path record)), (parent_id record).
Qed.

Lemma created_metadata_wf sd sc ib raw processed cfg msg now p :
  well_formed (JObj (commit_metadata
                       (created_record sd sc ib processed cfg msg now p)
                       raw processed)) = true.
Proof. apply commit_metadata_wf; [apply label_distribution_wf | done]. Qed.

(** Reading back the [metadata.json] of a version directory that
    [_persist_version] wrote. *)
Lemma load_new_metadata ib bytes cfg meta :
  well_formed (JObj meta) = true ->
  _load_metadata (Some (new_version_dir ib bytes cfg meta)) = Ok meta.
Proof.
  intros Hwf. unfold _load_metadata, new_version_dir. simpl.
  by rewrite loads_dumps_line.
Qed.

Lemma created_store_lookup repo sd ib raw processed cfg meta :
  versions (created_store repo sd ib raw processed cfg meta)
  !! sha256_from_bytes (dataframe_to_stable_csv_bytes processed)
  = Some (new_version_dir ib (dataframe_to_stable_csv_bytes processed) cfg meta).
Proof.
  unfold created_store. destruct (archives sd); simpl; apply lookup_insert_eq.
Qed.

Lemma created_store_versions repo sd ib raw processed cfg meta :
  versions (created_store repo sd ib raw processed cfg meta)
  = <[sha256_from_bytes (dataframe_to_stable_csv_bytes processed) :=
        new_version_dir ib (dataframe_to_stable_csv_bytes processed) cfg meta]>
      (versions repo).
Proof. unfold created_store. by destruct (archives sd). Qed.

(** Every successful call of [_persist_version] is one of the two outcomes. *)
Lemma persist_inv repo sd sc ib raw processed cfg msg now res repo' :
  _persist_version repo sd sc ib raw processed cfg msg now = Ok (res, repo') ->
  exists p text,
    get_head repo = Ok p /\ logs_file repo = Some text /\
    ((version_exists repo
        (sha256_from_bytes (dataframe_to_stable_csv_bytes processed)) = true /\
      Dict.get "status" res = Some (JStr "duplicate")) \/
     (version_exists repo
        (sha256_from_bytes (dataframe_to_stable_csv_bytes processed)) = false /\
      Dict.get "status" res = Some (JStr "created"))).
Proof.
  intros H.
  destruct (get_head repo) as [p|e] eqn:Hh;
    [|unfold _persist_version in H; rewrite Hh in H; discriminate].
  destruct (logs_file repo) as [text|] eqn:Hl.
  - exists p, text. split; [done|]. split; [done|].
    destruct (version_exists repo _) eqn:Hex.
    + rewrite (persist_duplicate _ _ _ _ _ _ _ _ _ _ _ Hh Hl Hex) in H.
      inversion H. by left.
    + rewrite (persist_created _ _ _ _ _ _ _ _ _ _ _ Hh Hl Hex) in H.
      inversion H. by right.
  - exfalso. unfold _persist_version in H. rewrite Hh in H. simpl in H.
    destruct (version_exists repo _).
    + unfold append_log, read_logs in H. rewrite Hl in H. discriminate.
    + destruct (archives sd);
        unfold append_log, read_logs in H; simpl in H; rewrite Hl in H;
        discriminate.
Qed.

Lemma strip_app_newline s :
  PyStr.strip (s ++ String Json.newline EmptyString) = PyStr.strip s.
Proof.
  unfold PyStr.strip. induction s as [|c r IH].
  - reflexivity.
  - rewrite append_cons. simpl PyStr.lstrip. destruct (PyStr.isspace c); [exact IH|].
    rewrite <- append_cons. by apply rstrip_app_space.
Qed.

Lemma head_valid_same repo repo' :
  head_file repo' = head_file repo -> versions repo' = versions repo ->
  head_valid repo -> head_valid repo'.
Proof.
  intros Hh Hv. unfold head_valid, version_exists.
  rewrite (get_head_same _ _ Hh), Hv. done.
Qed.

(** The two outcomes, with the result and the repository of each. *)
Lemma persist_outcome repo sd sc ib raw processed cfg msg now res repo' :
  _persist_version repo sd sc ib raw processed cfg msg now = Ok (res, repo') ->
  let vh := sha256_from_bytes (dataframe_to_stable_csv_bytes processed) in
  let meta p := commit_metadata (created_record sd sc ib processed cfg msg now p)
                  raw processed in
  exists p text,
    get_head repo = Ok p /\ logs_file repo = Some text /\
    ((version_exists repo vh = true /\
      Dict.get "status" res = Some (JStr "duplicate") /\
      Dict.get "version_id" res = Some (JStr vh) /\
      Dict.get "head" res = Some (json_of_option p) /\
      repo' = with_logs repo
                (Json.dumps Json.pretty
                   (JArr (events_of_text text ++
                          [dedupe_event now sd sc (sha256_from_bytes ib)
                             (sha256_from_json cfg) vh]))
                 ++ String Json.newline EmptyString)) \/
     (version_exists repo vh = false /\
      Dict.get "status" res = Some (JStr "created") /\
      Dict.get "version_id" res = Some (JStr vh) /\
      Dict.get "parent_id" res = Some (json_of_option p) /\
      Dict.get "head" res = Some (JStr vh) /\
      repo' = set_head
                (with_logs (created_store repo sd ib raw processed cfg (meta p))
                   (Json.dumps Json.pretty
                      (JArr (events_of_text text ++ [JObj (meta p)]))
                    ++ String Json.newline EmptyString))
                vh)).
Proof.
  intros H vh meta.
  destruct (persist_inv _ _ _ _ _ _ _ _ _ _ _ H) as (p & text & Hh & Hl & Hc).
  exists p, text. split; [done|]. split; [done|].
  destruct Hc as [[Hex _]|[Hex _]].
  - left. rewrite (persist_duplicate _ _ _ _ _ _ _ _ _ _ _ Hh Hl Hex) in H.
    inversion H. done.
  - right. rewrite (persist_created _ _ _ _ _ _ _ _ _ _ _ Hh Hl Hex) in H.
    inversion H. done.
Qed.

(** What the repository looks like after the "created" outcome. *)
Lemma created_repo_facts repo sd ib raw processed cfg meta text :
  let vh := sha256_from_bytes (dataframe_to_stable_csv_bytes processed) in
  let repo' := set_head
                 (with_logs (created_store repo sd ib raw processed cfg meta) text)
                 vh in
  get_head repo' = Ok (Some vh) /\
  versions repo' !! vh
  = Some (new_version_dir ib (dataframe_to_stable_csv_bytes processed) cfg meta) /\
  versions repo' = <[vh := new_version_dir ib (dataframe_to_stable_csv_bytes processed)
                             cfg meta]> (versions repo) /\
  logs_file repo' = Some text /\
  files repo' = files repo.
Proof.
  intros vh repo'. split; [apply get_head_set_head|].
  unfold repo', set_head, with_head, with_logs.
  cbn [versions logs_file files].
  split; [apply created_store_lookup|]. split; [apply created_store_versions|].
  split; [done|]. unfold created_store. by destruct (archives sd).
Qed.

Section CommitProperties.

Variable pd_read_csv : string -> result DataFrame.
Variable pd_read_json : string -> result DataFrame.

Local Abbreviation run_commit := (commit pd_read_csv pd_read_json).
Local Abbreviation intake_of := (load_intake pd_read_csv pd_read_json).

(** Each entry point loads its inputs without touching the repository and
    hands them to [_persist_version]. *)
Lemma commit_factor repo request msg now :
  run_commit repo request msg now
  = (inputs ← intake_of repo request;
     let '(sd, sc, ib, raw, cfg) := inputs in
     _persist_version repo sd sc ib raw
       (apply_deterministic_preprocessing raw cfg) cfg msg now).
Proof.
  destruct request as [d c|d|c]; cbn [commit load_intake].
  - unfold create_version_from_paths.
    destruct (read_bytes _ _); cbn [mbind result_bind]; [|done].
    destruct (read_config _ _); cbn [mbind result_bind]; [|done].
    destruct (load_dataset _ _ _ _) as [[df sfx]|]; cbn [mbind result_bind fst]; [|done].
    by destruct (validate_schema df).
  - unfold create_version_from_raw_default.
    destruct (read_bytes _ _); cbn [mbind result_bind]; [|done].
    destruct (load_dataset _ _ _ _) as [[df sfx]|]; cbn [mbind result_bind fst]; [|done].
    by destruct (validate_schema df).
  - unfold create_version_from_head.
    destruct (get_head repo) as [[h|]|]; cbn [mbind result_bind]; try done.
    destruct (versions repo !! h ≫= processed_csv); [|done].
    destruct (read_config _ _); cbn [mbind result_bind]; [|done].
    destruct (pd_read_csv _) as [df|]; cbn [mbind result_bind]; [|done].
    by destruct (validate_schema df).
Qed.

Lemma commit_inv repo request msg now res repo' :
  run_commit repo request msg now = Ok (res, repo') ->
  exists sd sc ib raw cfg,
    intake_of repo request = Ok (sd, sc, ib, raw, cfg) /\
    _persist_version repo sd sc ib raw
      (apply_deterministic_preprocessing raw cfg) cfg msg now = Ok (res, repo').
Proof.
  rewrite commit_factor.
  destruct (load_intake _ _ repo request) as [[[[[sd sc] ib] raw] cfg]|]; [|done].
  cbn [mbind result_bind]. intros H. by exists sd, sc, ib, raw, cfg.
Qed.

(** The version id of a commit, in either outcome, and the directory it
    names afterwards. *)
Lemma commit_version_id repo request msg now res repo' sd sc ib raw cfg :
  run_commit repo request msg now = Ok (res, repo') ->
  intake_of repo request = Ok (sd, sc, ib, raw, cfg) ->
  let bytes := dataframe_to_stable_csv_bytes
                 (apply_deterministic_preprocessing raw cfg) in
  Dict.get "version_id" res = Some (JStr (Sha256.hexdigest bytes)) /\
  version_exists repo' (Sha256.hexdigest bytes) = true /\
  (Dict.get "status" res = Some (JStr "created") ->
   exists dir meta,
     versions repo' !! Sha256.hexdigest bytes = Some dir /\
     raw_snapshot dir = Some ib /\
     processed_csv dir = Some bytes /\
     _load_metadata (Some dir) = Ok meta /\
     Dict.get "version_id" meta = Some (JStr (Sha256.hexdigest bytes)) /\
     Dict.get "version_hash" meta = Some (JStr (Sha256.hexdigest bytes))).
Proof.
  intros H Hload bytes.
  destruct (commit_inv _ _ _ _ _ _ H) as (sd' & sc' & ib' & raw' & cfg' & Hl' & Hp).
  rewrite Hload in Hl'. inversion Hl'; subst sd' sc' ib' raw' cfg'. clear Hl'.
  destruct (persist_outcome _ _ _ _ _ _ _ _ _ _ _ Hp)
    as (p & text & Hh & Hl & [(Hex & Hs & Hv & _ & ->)|(Hex & Hs & Hv & _ & _ & ->)]).
  - split; [exact Hv|]. split; [exact Hex|].
    intros Hc. rewrite Hs in Hc. discriminate Hc.
  - split; [exact Hv|].
    destruct (created_repo_facts repo sd ib raw
                (apply_deterministic_preprocessing raw cfg) cfg
                (commit_metadata
                   (created_record sd sc ib
                      (apply_deterministic_preprocessing raw cfg) cfg msg now p)
                   raw (apply_deterministic_preprocessing raw cfg))
                (Json.dumps Json.pretty
                   (JArr (events_of_text text ++
                          [JObj (commit_metadata
                                   (created_record sd sc ib
                                      (apply_deterministic_preprocessing raw cfg)
                                      cfg msg now p)
                                   raw (apply_deterministic_preprocessing raw cfg))]))
                 ++ String Json.newline EmptyString))
      as (_ & Hlook & _).
    split.
    + unfold version_exists. apply bool_decide_eq_true. eexists. exact Hlook.
    + intros _. eexists. eexists. split; [exact Hlook|].
      split; [reflexivity|]. split; [reflexivity|].
      split; [apply load_new_metadata, created_metadata_wf|].
      split; reflexivity.
Qed.

(** C1.  Every successful commit, in each intake mode and in either outcome,
    returns as [version_id] the SHA-256 hex digest of the canonical CSV
    bytes of the processed table (the header line first, then one line per
    row, each ended by a line feed); that id names a version directory
    afterwards, and a directory the commit creates stores these bytes and
    records the same id as [version_id] and [version_hash].  Hence any other
    commit whose processed table has the same bytes gets the same id. *)
Theorem version_id_is_content_hash repo request msg now res repo' :
  run_commit repo request msg now = Ok (res, repo') ->
  exists sd sc ib raw cfg,
    intake_of repo request = Ok (sd, sc, ib, raw, cfg) /\
    let processed := apply_deterministic_preprocessing raw cfg in
    let bytes := dataframe_to_stable_csv_bytes processed in
    let id := Sha256.hexdigest bytes in
    bytes = encode_utf8
              (Csv.line (columns processed)
               ++ Csv.concat (map (fun r => Csv.line (map Csv.cell_text (snd r)))
                                  (rows processed))) /\
    (forall fields, exists text,
        Csv.line fields = (text ++ String Json.newline EmptyString)%string) /\
    Dict.get "version_id" res = Some (JStr id) /\
    version_exists repo' id = true /\
    (Dict.get "status" res = Some (JStr "created") ->
     exists dir meta,
       versions repo' !! id = Some dir /\
       processed_csv dir = Some bytes /\
       _load_metadata (Some dir) = Ok meta /\
       Dict.get "version_id" meta = Some (JStr id) /\
       Dict.get "version_hash" meta = Some (JStr id)) /\
    (forall repo2 request2 msg2 now2 res2 repo2' sd2 sc2 ib2 raw2 cfg2,
        run_commit repo2 request2 msg2 now2 = Ok (res2, repo2') ->
        intake_of repo2 request2 = Ok (sd2, sc2, ib2, raw2, cfg2) ->
        dataframe_to_stable_csv_bytes
          (apply_deterministic_preprocessing raw2 cfg2) = bytes ->
        Dict.get "version_id" res2 = Some (JStr id)).
Proof.
  intros H.
  destruct (commit_inv _ _ _ _ _ _ H) as (sd & sc & ib & raw & cfg & Hload & _).
  exists sd, sc, ib, raw, cfg. split; [exact Hload|].
  intros processed bytes id.
  destruct (commit_version_id _ _ _ _ _ _ _ _ _ _ _ H Hload) as (Hv & Hex & Hc).
  split; [reflexivity|].
  split; [intros fields; eexists; reflexivity|].
  split; [exact Hv|]. split; [exact Hex|]. split.
  - intros Hs. destruct (Hc Hs) as (dir & meta & H1 & _ & H2 & H3 & H4 & H5).
    exists dir, meta. done.
  - intros repo2 request2 msg2 now2 res2 repo2' sd2 sc2 ib2 raw2 cfg2 H2 Hl2 Hb.
    destruct (commit_version_id _ _ _ _ _ _ _ _ _ _ _ H2 Hl2) as (Hv2 & _).
    cbv zeta in Hv2. rewrite Hb in Hv2. exact Hv2.
Qed.

End CommitProperties.

Lemma version_id_is_content_hash_witness :
  exists res repo',
    commit sample_reader sample_reader sample_repo (IntakeRawDefault "data.csv")
           "first" "2024-01-01T00:00:00+00:00" = Ok (res, repo') /\
    Dict.get "version_id" res
    = Some (JStr "d3aff5d4f91445cd7b511f19115954fd6784256d0a856e25bf81ef64eae33caa").
Proof.
  destruct (commit sample_reader sample_reader sample_repo
              (IntakeRawDefault "data.csv") "first" "2024-01-01T00:00:00+00:00")
    as [[res repo']|e] eqn:E; [|vm_compute in E; discriminate E].
  exists res, repo'. split; [reflexivity|].
  destruct (version_id_is_content_hash _ _ _ _ _ _ _ _ E)
    as (sd & sc & ib & raw & cfg & Hload & _ & _ & Hv & _).
  vm_compute in Hload. inversion Hload; subst sd sc ib raw cfg.
  rewrite Hv. vm_compute. reflexivity.
Defined.

Section Lineage.

Variable pd_read_csv : string -> result DataFrame.
Variable pd_read_json : string -> result DataFrame.

Local Abbreviation run_commit := (commit pd_read_csv pd_read_json).
Local Abbreviation intake_of := (load_intake pd_read_csv pd_read_json).




End Lineage.



(** ** The label distribution *)

Lemma tally_bump x c acc :
  tally x (bump c acc) = (tally x acc + if bool_decide (c = x) then 1 else 0)%nat.
Proof.
  unfold tally. induction acc as [|[y n] acc IH]; simpl.
  - repeat case_bool_decide; simpl; lia.
  - destruct (bool_decide (y = c)) eqn:E; simpl.
    + apply bool_decide_eq_true in E as ->.
      repeat case_bool_decide; simpl; lia.
    + apply bool_decide_eq_false in E.
      destruct (bool_decide (y = x)) eqn:E'; simpl; rewrite IH; lia.
Qed.

Lemma count_values_tally x series acc :
  tally x (fold_left (fun acc c => bump c acc) series acc)
  = (tally x acc + count_occ cell_eq_dec series x)%nat.
Proof.
  revert acc. induction series as [|c series IH]; intros acc; simpl; [lia|].
  rewrite IH, tally_bump. destruct (cell_eq_dec c x); case_bool_decide; try done; lia.
Qed.

Lemma bump_keys c acc :
  map fst (bump c acc)
  = if bool_decide (c ∈ map fst acc) then map fst acc else map fst acc ++ [c].
Proof.
  induction acc as [|[y n] acc IH]; simpl; [done|].
  destruct (bool_decide (y = c)) eqn:E; simpl.
  - apply bool_decide_eq_true in E as ->. rewrite bool_decide_eq_true_2; [done|left].
  - apply bool_decide_eq_false in E. rewrite IH.
    destruct (bool_decide (c ∈ map fst acc)) eqn:Hd.
    + apply bool_decide_eq_true in Hd. rewrite bool_decide_eq_true_2; [done | by right].
    + apply bool_decide_eq_false in Hd. rewrite bool_decide_eq_false_2; [done|].
      intros [?|?]%elem_of_cons; [by subst | done].
Qed.

Lemma bump_nodup c acc : NoDup (map fst acc) -> NoDup (map fst (bump c acc)).
Proof.
  intros H. rewrite bump_keys. case_bool_decide; [done|].
  apply NoDup_app. split; [done|]. split; [|apply NoDup_singleton].
  intros x Hx ->%list_elem_of_singleton. done.
Qed.

Lemma bump_positive c acc :
  Forall (fun kv => 0 < snd kv) acc -> Forall (fun kv => 0 < snd kv) (bump c acc).
Proof.
  induction 1 as [|[y n] acc Hy Hacc IH]; simpl.
  - constructor; [simpl; lia | constructor].
  - case_bool_decide; constructor; simpl in *; try lia; done.
Qed.

Lemma count_values_invariant series acc :
  NoDup (map fst acc) -> Forall (fun kv => 0 < snd kv) acc ->
  NoDup (map fst (fold_left (fun acc c => bump c acc) series acc)) /\
  Forall (fun kv => 0 < snd kv) (fold_left (fun acc c => bump c acc) series acc).
Proof.
  revert acc. induction series as [|c series IH]; intros acc Hn Hp; simpl; [done|].
  apply IH; [by apply bump_nodup | by apply bump_positive].
Qed.

Lemma tally_absent x acc : x ∉ map fst acc -> tally x acc = 0.
Proof.
  unfold tally. induction acc as [|[y n] acc IH]; simpl; [done|].
  intros H. apply not_elem_of_cons in H as [H1 H2].
  rewrite bool_decide_eq_false_2 by done. by apply IH.
Qed.

Lemma tally_present x n acc :
  NoDup (map fst acc) -> (x, n) ∈ acc -> tally x acc = n.
Proof.
  unfold tally. induction acc as [|[y m] acc IH]; simpl; intros Hn Hin.
  - by apply elem_of_nil in Hin.
  - apply NoDup_cons in Hn as [Hy Hn].
    apply elem_of_cons in Hin as [Heq|Hin].
    + inversion Heq; subst y m. rewrite bool_decide_eq_true_2 by done. simpl.
      fold (tally x acc). rewrite tally_absent; [lia | done].
    + assert (y <> x).
      { intros ->. apply Hy. apply (list_elem_of_fmap_2 fst) in Hin. exact Hin. }
      rewrite bool_decide_eq_false_2 by done. by apply IH.
Qed.

(** [count_values] holds each value of the series once, with the number of
    its occurrences. *)
Lemma count_values_spec series x n :
  (x, n) ∈ count_values series <->
  n = count_occ cell_eq_dec series x /\ 0 < n.
Proof.
  destruct (count_values_invariant series []) as [Hn Hp];
    [constructor | constructor |].
  pose proof (count_values_tally x series []) as Ht. simpl in Ht.
  fold (count_values series) in Hn, Hp, Ht. split.
  - intros Hin. split.
    + rewrite <- Ht. symmetry. by apply tally_present.
    + rewrite Forall_forall in Hp. apply (Hp _ Hin).
  - intros [-> Hpos].
    destruct (decide (x ∈ map fst (count_values series))) as [Hx|Hx].
    + apply list_elem_of_fmap in Hx as ([y m] & -> & Hin). simpl in *.
      rewrite <- Ht, (tally_present _ _ _ Hn Hin). exact Hin.
    + rewrite (tally_absent _ _ Hx) in Ht. lia.
Qed.

Lemma count_values_nodup series : NoDup (map fst (count_values series)).
Proof. apply (count_values_invariant series []); constructor. Qed.

Lemma insert_by_count_perm kv l : insert_by_count kv l ≡ₚ kv :: l.
Proof.
  induction l as [|x l IH]; simpl; [done|].
  case_match; [done|]. rewrite IH. apply Permutation_swap.
Qed.

Lemma value_counts_perm series : value_counts series ≡ₚ count_values series.
Proof.
  unfold value_counts. induction (count_values series) as [|kv l IH]; simpl; [done|].
  by rewrite insert_by_count_perm, IH.
Qed.

Lemma dict_get_set_same k v d : Dict.get k (Dict.set k v d) = Some v.
Proof.
  induction d as [|[k' v'] d IH]; simpl.
  - by rewrite String.eqb_refl.
  - destruct (String.eqb k k') eqn:E; simpl; rewrite E; done.
Qed.

Lemma dict_get_set_other k k' v d :
  k' <> k -> Dict.get k' (Dict.set k v d) = Dict.get k' d.
Proof.
  intros Hne. induction d as [|[k1 v1] d IH]; simpl.
  - by apply String.eqb_neq in Hne as ->.
  - destruct (String.eqb k k1) eqn:E; simpl; [|by rewrite IH].
    apply String.eqb_eq in E as ->. by apply String.eqb_neq in Hne as ->.
Qed.

Lemma dict_merge_get_absent k acc l :
  k ∉ map fst l -> Dict.get k (Dict.merge acc l) = Dict.get k acc.
Proof.
  unfold Dict.merge. revert acc.
  induction l as [|[k1 v1] l IH]; intros acc H; simpl; [done|].
  simpl in H. apply not_elem_of_cons in H as [H1 H2].
  rewrite IH by done. by apply dict_get_set_other.
Qed.

(** A key that the right operand binds to one value only is bound to it in
    the merge. *)
Lemma dict_merge_get_unique k v acc l :
  (k, v) ∈ l -> (forall v', (k, v') ∈ l -> v' = v) ->
  Dict.get k (Dict.merge acc l) = Some v.
Proof.
  revert acc. induction l as [|[k1 v1] l IH]; intros acc Hin Hu.
  - by apply elem_of_nil in Hin.
  - change (Dict.merge acc ((k1, v1) :: l))
      with (Dict.merge (Dict.set k1 v1 acc) l).
    destruct (decide (k ∈ map fst l)) as [Hk|Hk].
    + apply list_elem_of_fmap in Hk as ([k2 v2] & Hk2 & Hin2). simpl in Hk2. subst k2.
      assert (v2 = v) as -> by (apply Hu; by right).
      apply IH; [done|]. intros v' Hv'. apply Hu. by right.
    + apply elem_of_cons in Hin as [Heq|Hin].
      * inversion Heq; subst k1 v1.
        rewrite dict_merge_get_absent by done. apply dict_get_set_same.
      * exfalso. apply Hk. by apply (list_elem_of_fmap_2 fst) in Hin.
Qed.

Lemma dict_merge_nil acc l : Dict.merge acc l = [] -> acc = [] /\ l = [].
Proof.
  unfold Dict.merge. revert acc.
  induction l as [|[k1 v1] l IH]; intros acc H; simpl in H; [done|].
  apply IH in H as [H _]. by destruct acc as [|[k' v'] acc]; simpl in H; [|case_match].
Qed.

Lemma count_occ_elem series (x : cell) :
  0 < count_occ cell_eq_dec series x <-> x ∈ series.
Proof.
  rewrite list_elem_of_In. symmetry. apply (count_occ_In cell_eq_dec).
Qed.

(** The distribution, read as a map: a value whose string form no other
    value of the column shares is bound to the number of its occurrences,
    and is absent when it does not occur. *)
Lemma label_distribution_lookup processed j c :
  Pandas.index_of "label" (columns processed) = Some j ->
  (forall c', c' ∈ Pandas.column_at j processed ->
              Pandas.cell_str c' = Pandas.cell_str c -> c' = c) ->
  Dict.get (Pandas.cell_str c) (_label_distribution processed)
  = if bool_decide (c ∈ Pandas.column_at j processed)
    then Some (json_of_nat (count_occ cell_eq_dec (Pandas.column_at j processed) c))
    else None.
Proof.
  intros Hj Hinj. rewrite (label_distribution_merge _ _ Hj).
  set (series := Pandas.column_at j processed) in *.
  set (f := fun kv : cell * nat => (Pandas.cell_str (fst kv), json_of_nat (snd kv))).
  assert (Hkey : forall x n, (x, n) ∈ value_counts series ->
                 Pandas.cell_str x = Pandas.cell_str c -> x = c).
  { intros x n Hx Hs. apply Hinj; [|done].
    rewrite value_counts_perm in Hx. apply count_values_spec in Hx as [-> Hpos].
    by apply count_occ_elem in Hpos. }
  case_bool_decide as Hc.
  - apply dict_merge_get_unique.
    + apply (list_elem_of_fmap_2 f (value_counts series) (c, _)).
      rewrite value_counts_perm. apply count_values_spec.
      split; [done | by apply count_occ_elem].
    + intros v' Hv'. apply list_elem_of_fmap in Hv' as ([x n] & Heq & Hx).
      unfold f in Heq. simpl in Heq. inversion Heq as [[Hs Hv]].
      assert (x = c) as -> by (by apply (Hkey x n)).
      rewrite value_counts_perm in Hx. apply count_values_spec in Hx as [-> _]. done.
  - rewrite dict_merge_get_absent; [done|].
    intros Hin. rewrite map_map in Hin.
    apply list_elem_of_fmap in Hin as ([x n] & Hs & Hx). simpl in Hs.
    assert (x = c) as -> by (by apply (Hkey x n)).
    rewrite value_counts_perm in Hx. apply count_values_spec in Hx as [-> Hpos].
    by apply Hc, count_occ_elem.
Qed.

(** With a label column, the distribution is empty exactly when the table
    has no rows. *)
Lemma label_distribution_nil processed j :
  Pandas.index_of "label" (columns processed) = Some j ->
  _label_distribution processed = [] <-> rows processed = [].
Proof.
  intros Hj. rewrite (label_distribution_merge _ _ Hj). split.
  - intros H. apply dict_merge_nil in H as [_ H].
    apply map_eq_nil in H.
    destruct (rows processed) as [|r rs] eqn:E; [done|]. exfalso.
    assert (Hin : nth j (snd r) CNull ∈ Pandas.column_at j processed).
    { unfold Pandas.column_at. rewrite E. simpl. left. }
    apply count_occ_elem in Hin.
    assert (Hv : (nth j (snd r) CNull,
                  count_occ cell_eq_dec (Pandas.column_at j processed)
                            (nth j (snd r) CNull))
                 ∈ value_counts (Pandas.column_at j processed)).
    { rewrite value_counts_perm. by apply count_values_spec. }
    rewrite H in Hv. by apply elem_of_nil in Hv.
  - intros H. unfold Pandas.column_at. rewrite H. reflexivity.
Qed.

(** ** Comparison of stored maps *)

Lemma dict_get_elem k v d :
  NoDup (map fst d) -> Dict.get k d = Some v <-> (k, v) ∈ d.
Proof.
  induction d as [|[k1 v1] d IH]; simpl; intros Hn.
  - split; [done | by intros ?%elem_of_nil].
  - apply NoDup_cons in Hn as [Hk Hn].
    destruct (String.eqb k k1) eqn:E.
    + apply String.eqb_eq in E as ->. split.
      * intros [= ->]. left.
      * intros [Heq|Hin]%elem_of_cons; [by inversion Heq|].
        exfalso. apply Hk. by apply (list_elem_of_fmap_2 fst) in Hin.
    + apply String.eqb_neq in E. rewrite (IH Hn). split; [by right|].
      intros [Heq|Hin]%elem_of_cons; [by inversion Heq | done].
Qed.

Lemma dict_get_none k d : Dict.get k d = None <-> k ∉ map fst d.
Proof.
  induction d as [|[k1 v1] d IH]; simpl.
  - split; [intros _ ?%elem_of_nil; done | done].
  - destruct (String.eqb k k1) eqn:E.
    + apply String.eqb_eq in E as ->. split; [done|]. intros H. exfalso. apply H. left.
    + apply String.eqb_neq in E. rewrite IH. split.
      * intros H [?|?]%elem_of_cons; done.
      * intros H ?. apply H. by right.
Qed.

Lemma py_eq_obj da db :
  py_eq (JObj da) (JObj db) = true <->
  length da = length db /\
  forall k v, (k, v) ∈ da ->
    exists v', Dict.get k db = Some v' /\ py_eq v v' = true.
Proof.
  cbn [py_eq]. rewrite andb_true_iff, Nat.eqb_eq.
  apply and_iff_compat_l.
  induction da as [|[k v] da IH].
  - split; [intros _ k v ?%elem_of_nil; done | done].
  - destruct (Dict.get k db) as [v'|] eqn:E.
    + rewrite andb_true_iff, IH. split.
      * intros [Hv Hr] k0 v0 [Heq|Hin]%elem_of_cons; [|by apply Hr].
        inversion Heq; subst. eauto.
      * intros H. split.
        -- destruct (H k v) as (v2 & E2 & Hv2); [left|]. congruence.
        -- intros k0 v0 Hin. apply H. by right.
    + split; [done|]. intros H. destruct (H k v) as (v2 & E2 & _); [left|]. congruence.
Qed.

(** On maps with distinct keys and integer values, [py_eq] is equality of
    the maps: the same keys, bound to the same numbers. *)
Lemma py_eq_int_maps da db :
  NoDup (map fst da) -> NoDup (map fst db) ->
  (forall k v, (k, v) ∈ da -> exists z, v = JInt z) ->
  (forall k v, (k, v) ∈ db -> exists z, v = JInt z) ->
  py_eq (JObj da) (JObj db) = true <->
  forall k, Dict.get k da = Dict.get k db.
Proof.
  intros Hna Hnb Hia Hib. rewrite py_eq_obj. split.
  - intros [Hlen Hall].
    assert (Hsub : map fst da ⊆+ map fst db).
    { apply NoDup_submseteq; [done|]. intros k Hk.
      apply list_elem_of_fmap in Hk as ([k' v] & -> & Hin). simpl.
      destruct (Hall _ _ Hin) as (v' & Hg & _).
      apply dict_get_elem in Hg; [|done]. by apply (list_elem_of_fmap_2 fst) in Hg. }
    apply submseteq_length_Permutation in Hsub; [|rewrite !length_map; lia].
    intros k. destruct (Dict.get k da) as [v|] eqn:Ea.
    + apply dict_get_elem in Ea; [|done].
      destruct (Hall _ _ Ea) as (v' & Hg & Hv). rewrite Hg. f_equal.
      destruct (Hia _ _ Ea) as (x & ->).
      apply dict_get_elem in Hg; [|done]. destruct (Hib _ _ Hg) as (y & ->).
      cbn in Hv. apply Z.eqb_eq in Hv. by subst.
    + symmetry. apply dict_get_none. rewrite <- Hsub. by apply dict_get_none.
  - intros Heq.
    assert (Hkeys : forall k, k ∈ map fst da <-> k ∈ map fst db).
    { intros k. destruct (Dict.get k da) as [v|] eqn:Ea.
      - pose proof Ea as Eb. rewrite Heq in Eb.
        apply dict_get_elem in Ea, Eb; [|done..].
        apply (list_elem_of_fmap_2 fst) in Ea, Eb. done.
      - pose proof Ea as Eb. rewrite Heq in Eb.
        apply dict_get_none in Ea, Eb. done. }
    split.
    + rewrite <- (length_map fst da), <- (length_map fst db).
      apply Permutation_length, NoDup_Permutation; done.
    + intros k v Hin. exists v. split.
      * rewrite <- Heq. by apply dict_get_elem.
      * destruct (Hia _ _ Hin) as (x & ->). cbn. apply Z.eqb_refl.
Qed.

Lemma dict_merge_ints acc l :
  (forall k v, (k, v) ∈ acc -> exists z, v = JInt z) ->
  (forall k v, (k, v) ∈ l -> exists z, v = JInt z) ->
  forall k v, (k, v) ∈ Dict.merge acc l -> exists z, v = JInt z.
Proof.
  unfold Dict.merge. revert acc.
  induction l as [|[k1 v1] l IH]; intros acc Ha Hl; simpl; [done|].
  apply IH; [|intros k v Hin; apply (Hl k v); by right].
  destruct (Hl k1 v1) as (z1 & ->); [left|].
  clear IH Hl. induction acc as [|[k2 v2] acc IHa]; simpl.
  - intros k v Heq%list_elem_of_singleton. inversion Heq. eauto.
  - destruct (String.eqb k1 k2).
    + intros k v [Heq|Hin]%elem_of_cons; [inversion Heq; eauto|].
      apply (Ha k v). by right.
    + intros k v [Heq|Hin]%elem_of_cons.
      * inversion Heq; subst k v. apply (Ha k2 v2). left.
      * eapply IHa; [|exact Hin]. intros k' v' H'. apply (Ha k' v'). by right.
Qed.

(** The distribution has distinct keys and integer values. *)
Lemma label_distribution_shape processed :
  NoDup (map fst (_label_distribution processed)) /\
  forall k v, (k, v) ∈ _label_distribution processed -> exists z, v = JInt z.
Proof.
  split.
  - pose proof (label_distribution_wf processed) as H. simpl in H.
    apply andb_prop in H as [H _]. by apply unique_keys_spec.
  - destruct (Pandas.index_of "label" (columns processed)) as [j|] eqn:E.
    + rewrite (label_distribution_merge _ _ E). apply dict_merge_ints.
      * intros k v ?%elem_of_nil. done.
      * intros k v Hin. apply list_elem_of_fmap in Hin as ([x n] & Heq & _).
        inversion Heq. unfold json_of_nat. eauto.
    + unfold _label_distribution. rewrite E. intros k v ?%elem_of_nil. done.
Qed.

Section Distribution.

Variable pd_read_csv : string -> result DataFrame.
Variable pd_read_json : string -> result DataFrame.

(** The directory that a creating commit writes. *)
Lemma commit_created_dir repo request msg now res repo' sd sc ib raw cfg :
  commit pd_read_csv pd_read_json repo request msg now = Ok (res, repo') ->
  load_intake pd_read_csv pd_read_json repo request = Ok (sd, sc, ib, raw, cfg) ->
  Dict.get "status" res = Some (JStr "created") ->
  let processed := apply_deterministic_preprocessing raw cfg in
  let bytes := dataframe_to_stable_csv_bytes processed in
  exists p,
    get_head repo = Ok p /\
    Dict.get "version_id" res = Some (JStr (sha256_from_bytes bytes)) /\
    versions repo' !! sha256_from_bytes bytes
    = Some (new_version_dir ib bytes cfg
              (commit_metadata (created_record sd sc ib processed cfg msg now p)
                 raw processed)).
Proof.
  intros H Hload Hs processed bytes.
  destruct (commit_inv _ _ _ _ _ _ _ _ H) as (sd' & sc' & ib' & raw' & cfg' & Hl' & Hp).
  rewrite Hload in Hl'. inversion Hl'; subst sd' sc' ib' raw' cfg'. clear Hl'.
  destruct (persist_outcome _ _ _ _ _ _ _ _ _ _ _ Hp)
    as (p & text & Hh & Hl & [(_ & Hs' & _)|(Hex & _ & Hv & _ & _ & ->)]).
  { rewrite Hs in Hs'. discriminate Hs'. }
  exists p. split; [exact Hh|]. split; [exact Hv|].
  apply created_repo_facts.
Qed.

(** What [compare_versions] returns about the label distributions. *)
Lemma compare_versions_labels repo version_a version_b now res repo' :
  compare_versions pd_read_csv repo version_a version_b now = Ok (res, repo') ->
  exists metadata_a metadata_b,
    _load_metadata (versions repo !! version_a) = Ok metadata_a /\
    _load_metadata (versions repo !! version_b) = Ok metadata_b /\
    Dict.get "label_distribution_changed" res
    = Some (JBool (negb (py_eq
                           (Dict.get_default "label_distribution" (JObj []) metadata_a)
                           (Dict.get_default "label_distribution" (JObj []) metadata_b)))).
Proof.
  unfold compare_versions. intros H.
  destruct (version_exists repo version_a); cbn [negb] in H; [|discriminate H].
  destruct (version_exists repo version_b); cbn [negb] in H; [|discriminate H].
  destruct (_load_processed_dataframe _ (versions repo !! version_a)) as [dfa|];
    cbn [mbind result_bind] in H; [|discriminate H].
  destruct (_load_processed_dataframe _ (versions repo !! version_b)) as [dfb|];
    cbn [mbind result_bind] in H; [|discriminate H].
  destruct (_load_metadata (versions repo !! version_a)) as [ma|];
    cbn [mbind result_bind] in H; [|discriminate H].
  destruct (_load_metadata (versions repo !! version_b)) as [mb|];
    cbn [mbind result_bind] in H; [|discriminate H].
  exists ma, mb. split; [done|]. split; [done|].
  inversion H. reflexivity.
Qed.

End Distribution.

Section LabelColumn.

Variable pd_read_csv : string -> result DataFrame.
Variable pd_read_json : string -> result DataFrame.


End LabelColumn.


